(** * Market-data chart pipeline: a shallow embedding

    The two Python modules embedded here assemble SQL range queries over
    OHLCV tables, shape the rows into dictionaries and hand them to a chart
    renderer:

    - [volumeprofiletemplate/chart_generator.py]   (class [ChartGenerator])
    - [zaincandle/lightweight_dashboard_generator.py]
                                   (class [LightweightDashboardGenerator])

    Conventions of the embedding.

    - Python code runs in the monad [Py]: a state monad over [world] (the
      log, the local file system, the importable modules and the database
      connections handed out) whose result is [Ok v] or [Raise e].
      [try_except] is Python's [try: ... except Exception as e: ...].
    - Prices, scores and volumes are exact rationals ([Q]); Python's [float]
      rounding is not modelled.  Comparisons are on values ([==] on [Q]).
    - A [datetime] is a number of microseconds since 0001-01-01T00:00:00
      (naive datetimes); a [timedelta] is a number of microseconds.
    - The database is a record of tables; each SQL text of the source is
      embedded as a function from the tables to the rows it returns, with
      PostgreSQL's reading of [ORDER BY], [GROUP BY], aggregates and NULL. *)

From stdpp Require Import base list strings gmap sorting pretty.
From Stdlib Require Import Ascii ZArith QArith Qminmax Lqa Lia.

Local Open Scope Z_scope.

(** ** Python results, exceptions and logging *)

Inductive exn : Type :=
  | ZeroDivisionError
  | OverflowError
  | ImportError
  | FileNotFoundError
  | DatabaseError
  | OtherError (what : string).

Inductive result (A : Type) : Type :=
  | Ok (a : A)
  | Raise (e : exn).
Arguments Ok {A} a.
Arguments Raise {A} e.

(** A [datetime] is a count of microseconds since 0001-01-01T00:00:00, a
    [timedelta] a count of microseconds. *)
Definition datetime : Type := Z.
Definition timedelta : Type := Z.

Inductive level : Type := INFO | WARNING | ERROR.

#[global] Instance level_eq_dec : EqDecision level.
Proof. solve_decision. Defined.

Record log_record : Type := LogRecord { lr_level : level; lr_msg : string }.

(** ** Numbers *)

(** [a / b] on Python numbers: a zero divisor raises. *)
Definition py_div (a b : Q) : result Q :=
  if Qeq_dec b 0 then Raise ZeroDivisionError else Ok (a / b)%Q.

(** [max(0, x)]: Python keeps the first argument unless a later one is
    strictly greater. *)
Definition py_max0 (x : Q) : Q :=
  if Qlt_le_dec 0 x then x else 0%Q.


(** [int(x)] and [float(x)] on a column value that may be NULL ([None]):
    both raise [TypeError] on [None]; [int] truncates toward zero. *)
Definition py_int (x : option Q) : result Z :=
  match x with
  | Some q => Ok (Z.quot (Qnum q) (Zpos (Qden q)))
  | None => Raise (OtherError "TypeError")
  end.

(** [float(x) if x else 0.0]: [None] and zero are both falsy. *)
Definition float_or_zero (x : option Q) : Q :=
  match x with
  | Some q => if Qeq_dec q 0 then 0%Q else q
  | None => 0%Q
  end.

Fixpoint mapM {A B} (f : A → result B) (l : list A) : result (list B) :=
  match l with
  | [] => Ok []
  | x :: l' =>
      match f x with
      | Raise e => Raise e
      | Ok y => match mapM f l' with
                | Raise e => Raise e
                | Ok ys => Ok (y :: ys)
                end
      end
  end.

(** ** [datetime] and [timedelta] *)

Definition us_per_second : Z := 1000000.
Definition us_per_minute : Z := 60 * us_per_second.
Definition us_per_day : Z := 86400 * us_per_second.

(** [datetime.min] is 0001-01-01T00:00:00 and [datetime.max] is
    9999-12-31T23:59:59.999999; [date.max.toordinal()] is 3652059. *)
Definition max_days : Z := 3652059.
Definition dt_valid (t : Z) : bool := (0 <=? t) && (t <? max_days * us_per_day).

(** [t.date()], as the number of whole days since 0001-01-01. *)
Definition dt_date (t : datetime) : Z := t / us_per_day.

(** [t.replace(hour=h, minute=m, second=s, microsecond=us)]. *)
Definition dt_replace_time (t : datetime) (h m s us : Z) : datetime :=
  dt_date t * us_per_day + ((h * 60 + m) * 60 + s) * us_per_second + us.

(** [t1 - t2] on two datetimes. *)
Definition dt_diff (t1 t2 : datetime) : timedelta := t1 - t2.

(** [t - d] for a timedelta [d]: out of [datetime.min .. datetime.max]
    raises [OverflowError]. *)
Definition dt_minus (t : datetime) (d : timedelta) : result datetime :=
  if dt_valid (t - d) then Ok (t - d) else Raise OverflowError.

(** [timedelta(days=n)]: [|n|] above 999999999 raises [OverflowError]. *)
Definition td_days (n : Z) : result timedelta :=
  if (Z.abs n <=? 999999999) then Ok (n * us_per_day) else Raise OverflowError.

(** [datetime._divide_and_round(a, b)]: the integer nearest to [a / b],
    ties to even ([q, r = divmod(a, b)] is floored division). *)
Definition divide_and_round (a b : Z) : Z :=
  let q := a / b in
  let r := 2 * (a mod b) in
  let greater_than_half := if 0 <? b then b <? r else r <? b in
  if greater_than_half || ((r =? b) && (q mod 2 =? 1)) then q + 1 else q.

(** [(0.1).as_integer_ratio()]: the double nearest to one tenth. *)
Definition float_0_1_ratio : Z * Z := (3602879701896397, 36028797018963968).

(** [d * 0.1]: [timedelta.__mul__] with a float multiplies the microseconds
    by the float's exact ratio and rounds to the nearest microsecond. *)
Definition td_mul_0_1 (d : timedelta) : timedelta :=
  divide_and_round (d * float_0_1_ratio.1) float_0_1_ratio.2.

(** 1970-01-01 is day 719162 after 0001-01-01. *)
Definition unix_epoch : datetime := 719162 * us_per_day.

(** [EXTRACT(EPOCH FROM t)::bigint]: seconds since the Unix epoch; the cast
    of the numeric value rounds to the nearest integer, halves away from
    zero. *)
Definition epoch_bigint (t : datetime) : Z :=
  let us := t - unix_epoch in
  Z.sgn us * ((2 * Z.abs us + us_per_second) / (2 * us_per_second)).

(** [EXTRACT(MINUTE FROM t)]: the minute-of-hour field. *)
Definition minute_of_hour (t : datetime) : Z := (t / us_per_minute) mod 60.

(** TimescaleDB's [time_bucket(width, t)]: the start of the bucket of [t],
    buckets aligned on the default origin 2000-01-03T00:00:00. *)
Definition bucket_origin : datetime := 730121 * us_per_day.
Definition time_bucket (width_minutes : Z) (t : datetime) : datetime :=
  let w := width_minutes * us_per_minute in
  bucket_origin + w * ((t - bucket_origin) / w).

(** ** The database *)

(** A row of a candle table ([<schema>.minute_aggregates], whose time column
    is [timestamp], or a [<schema>.candles_*] view, whose time column is
    [bucket]).  The source guards only [volume] against NULL. *)
Record candle_row : Type := CandleRow {
  cr_symbol_id : Z;
  cr_time : datetime;
  cr_open : Q;
  cr_high : Q;
  cr_low : Q;
  cr_close : Q;
  cr_volume : option Q;
}.

(** A row of [<schema>.zones]; [zone_score] may be NULL (the query
    coalesces it). *)
Record zone_row : Type := ZoneRow {
  zr_zone_id : Z;
  zr_symbol_id : Z;
  zr_timeframe_id : Z;
  zr_zone_type : string;
  zr_bottom_price : Q;
  zr_top_price : Q;
  zr_start_time : datetime;
  zr_end_time : datetime;
  zr_zone_score : option Q;
  zr_is_broken : option bool;
}.

(** A row of [<schema>.volume_profile].  [vp_period] is the column the
    range filter reads: [period_start] (a timestamp) for stocks, [date]
    (a day number) for crypto. *)
Record vp_row : Type := VpRow {
  vp_symbol_id : Z;
  vp_period : Z;
  vp_price_level : Q;
  vp_volume : option Q;
  vp_node_type : option string;
}.

(** What a candle query returns per row: [(time, open, high, low, close,
    volume)]. *)
Record candle_tuple : Type := CandleTuple {
  ct_time : Z;
  ct_open : Q;
  ct_high : Q;
  ct_low : Q;
  ct_close : Q;
  ct_volume : option Q;
}.

(** What the zone query returns per row. *)
Record zone_tuple : Type := ZoneTuple {
  zt_zone_id : Z;
  zt_zone_type : string;
  zt_bottom_price : Q;
  zt_top_price : Q;
  zt_start_time : Z;
  zt_end_time : Z;
  zt_zone_score : Q;
  zt_is_broken : option bool;
}.

(** What the volume-profile query returns per row: [(price, total_volume,
    is_hvn, is_lvn)]. *)
Record vp_tuple : Type := VpTuple {
  vt_price : Q;
  vt_total_volume : option Q;
  vt_is_hvn : option bool;
  vt_is_lvn : option bool;
}.

(** The statements the two modules send, by the type of what the cursor
    gives back ([fetchone] for the lookups, [fetchall] for the rest). *)
Inductive query : Type → Type :=
  | SelectSymbolId (schema symbol : string) : query (option Z)
  | SelectTimeframeId (label : string) : query (option Z)
  | MatviewExists (schema name : string) : query bool
  | SelectView (schema name : string) (symbol_id : Z) (start_time end_time : datetime) :
      query (list candle_tuple)
  | SelectMatview (schema name : string) (symbol_id : Z) (start_date end_date : datetime) :
      query (list candle_tuple)
  | SelectMinuteStride (schema : string) (symbol_id : Z) (start_date end_date : datetime)
      (timeframe_minutes : Z) : query (list candle_tuple)
  | SelectMinuteBuckets (schema : string) (timeframe_minutes : Z) (symbol_id : Z)
      (start_date end_date : datetime) : query (list candle_tuple)
  | SelectZones (schema : string) (symbol_id timeframe_id : Z) : query (list zone_tuple)
  | SelectVolumeProfile (schema date_column : string) (symbol_id : Z) (p_start p_end : Z) :
      query (list vp_tuple).

Record database : Type := Database {
  db_symbols : string → list (string * Z);          (* <schema>.symbols: symbol, id *)
  db_timeframes : list (string * Z);                (* shared.timeframes: label, id *)
  db_matviews : string → string → option (list candle_row);  (* pg_matviews, by schema and name *)
  db_minute_aggregates : string → list candle_row;  (* <schema>.minute_aggregates *)
  db_zones : string → list zone_row;                (* <schema>.zones *)
  db_volume_profile : string → list vp_row;         (* <schema>.volume_profile *)
  db_symbol_cache : string → option Z;              (* SymbolCache.get_id *)
  db_fails : ∀ A, query A → bool;                   (* statements the server refuses *)
  db_connect_fails : nat → bool;                    (* get_connection calls that raise, by rank *)
}.

(** A statement as the server receives it, whatever it returns. *)
Inductive statement : Type :=
  | Sent {A : Type} (q : query A).

(** ** The world and the monad of Python code *)

(** The part of the outside world the two modules touch. *)
Record world : Type := World {
  w_log : list log_record;      (* records emitted through [logger], oldest first *)
  w_files : gset string;        (* paths that exist on the local file system *)
  w_modules : gset string;      (* modules an [import] statement finds *)
  w_now_str : string;           (* [datetime.now().strftime("%Y%m%d_%H%M%S")] *)
  w_utcnow : datetime;          (* [datetime.utcnow()] *)
  w_acquired : nat;             (* connections handed out by [get_connection] *)
  w_open_conns : gset nat;      (* connections that are not closed *)
  w_open_cursors : gset nat;    (* cursors that are not closed, named by connection *)
  w_sent : list statement;      (* statements sent to the database server, oldest first *)
  w_write_error : string → option exn;
                                (* what the file system raises when asked to create the
                                   path (a missing parent directory, no permission), if
                                   anything *)
}.

Definition st (S A : Type) : Type := S → result A * S.
Definition Py (A : Type) : Type := st world A.

Definition ret {S A} (a : A) : st S A := λ s, (Ok a, s).
Definition raise {S A} (e : exn) : st S A := λ s, (Raise e, s).
Definition bind {S A B} (m : st S A) (f : A → st S B) : st S B :=
  λ s, match m s with
       | (Ok a, s') => f a s'
       | (Raise e, s') => (Raise e, s')
       end.
Definition try_except {S A} (body : st S A) (handler : exn → st S A) : st S A :=
  λ s, match body s with
       | (Ok a, s') => (Ok a, s')
       | (Raise e, s') => handler e s'
       end.
Definition lift_result {S A} (r : result A) : st S A := λ s, (r, s).

Declare Scope py_scope.
Delimit Scope py_scope with py.
Notation "'let*' x := m 'in' k" := (bind m (λ x, k))
  (at level 10, x pattern, m at level 100, k at level 200) : py_scope.
Notation "m ;; k" := (bind m (λ _, k))
  (at level 100, k at level 200, right associativity) : py_scope.
Local Open Scope py_scope.

Definition log_at (lvl : level) (msg : string) : Py unit :=
  λ w, (Ok tt, World (w_log w ++ [LogRecord lvl msg]) (w_files w) (w_modules w)
                     (w_now_str w) (w_utcnow w) (w_acquired w) (w_open_conns w)
                     (w_open_cursors w) (w_sent w) (w_write_error w)).

Definition logged (lvl : level) (w0 w1 : world) : Prop :=
  ∃ pre msg post, w_log w1 = w_log w0 ++ pre ++ LogRecord lvl msg :: post.

Definition exn_str (e : exn) : string :=
  match e with
  | ZeroDivisionError => "float division by zero"
  | OverflowError => "date value out of range"
  | ImportError => "No module named 'kaleido'"
  | FileNotFoundError => "No such file or directory"
  | DatabaseError => "database error"
  | OtherError s => s
  end.

(** ** SQL building blocks *)

(** [ORDER BY] under a total preorder, by merge sort. *)
Definition sql_order_by {A} (R : relation A) `{∀ x y, Decision (R x y)} (l : list A) : list A :=
  merge_sort R l.

(** The keys of [GROUP BY], each once, in order of first appearance. *)
Fixpoint distinct {K} (eqb : K → K → bool) (l : list K) : list K :=
  match l with
  | [] => []
  | k :: ks => k :: filter (λ k', negb (eqb k k')) (distinct eqb ks)
  end.

(** [GROUP BY key]: every key with the rows that carry it. *)
Definition sql_group_by {A K} (eqb : K → K → bool) (key : A → K) (l : list A) : list (K * list A) :=
  (λ k, (k, filter (λ x, eqb (key x) k) l)) <$> distinct eqb (key <$> l).

(** [SUM]: NULL inputs are skipped; NULL when no input is non-NULL. *)
Fixpoint sql_sum (l : list (option Q)) : option Q :=
  match l with
  | [] => None
  | x :: l' =>
      match x, sql_sum l' with
      | Some v, Some s => Some (v + s)%Q
      | Some v, None => Some v
      | None, s => s
      end
  end.

(** [BOOL_OR], same treatment of NULL. *)
Fixpoint sql_bool_or (l : list (option bool)) : option bool :=
  match l with
  | [] => None
  | x :: l' =>
      match x, sql_bool_or l' with
      | Some b, Some s => Some (b || s)
      | Some b, None => Some b
      | None, s => s
      end
  end.

(** [MAX] and [MIN] over the non-NULL prices of a group (0 stands for the
    NULL of an empty input, which a group never is). *)
Definition sql_max (l : list Q) : Q :=
  match l with
  | [] => 0%Q
  | x :: l' => foldl Qmax x l'
  end.
Definition sql_min (l : list Q) : Q :=
  match l with
  | [] => 0%Q
  | x :: l' => foldl Qmin x l'
  end.

(** Rows by ascending and by descending time. *)
Definition row_time_asc : relation candle_row := λ a b, cr_time a ≤ cr_time b.
Definition row_time_desc : relation candle_row := λ a b, cr_time b ≤ cr_time a.

#[global] Instance row_time_asc_dec : RelDecision row_time_asc.
Proof. intros a b. unfold row_time_asc. apply _. Defined.
#[global] Instance row_time_desc_dec : RelDecision row_time_desc.
Proof. intros a b. unfold row_time_desc. apply _. Defined.

(** [(array_agg(col ORDER BY timestamp))[1]] and
    [(array_agg(col ORDER BY timestamp DESC))[1]]. *)
Definition first_by_time (col : candle_row → Q) (g : list candle_row) : Q :=
  match sql_order_by row_time_asc g with
  | r :: _ => col r
  | [] => 0%Q
  end.
Definition last_by_time (col : candle_row → Q) (g : list candle_row) : Q :=
  match sql_order_by row_time_desc g with
  | r :: _ => col r
  | [] => 0%Q
  end.

(** [x % y] on integers: truncated remainder, a zero divisor is an error. *)
Definition sql_mod (x y : Z) : result Z :=
  if y =? 0 then Raise DatabaseError else Ok (Z.rem x y).

(** [WHERE symbol_id = %s AND t >= %s AND t <= %s]. *)
Definition in_range (symbol_id : Z) (start_date end_date : datetime) (r : candle_row) : bool :=
  (cr_symbol_id r =? symbol_id) && (start_date <=? cr_time r) && (cr_time r <=? end_date).

(** [ORDER BY bucket ASC] / [ORDER BY time ASC] on the rows returned. *)
Definition by_time_asc : relation candle_tuple := λ a b, ct_time a ≤ ct_time b.

#[global] Instance by_time_asc_dec : RelDecision by_time_asc.
Proof. intros a b. unfold by_time_asc. apply _. Defined.

#[global] Instance Qle_rel_dec : RelDecision Qle :=
  λ x y, match Qlt_le_dec y x with
         | left H => right (Qlt_not_le _ _ H)
         | right H => left H
         end.
#[global] Instance Qlt_rel_dec : RelDecision Qlt :=
  λ x y, match Qlt_le_dec x y with
         | left H => left H
         | right H => right (Qle_not_lt _ _ H)
         end.
#[global] Instance Qeq_rel_dec : RelDecision Qeq := Qeq_dec.

(** ** The candle statements *)

Definition raw_candle (r : candle_row) : candle_tuple :=
  CandleTuple (cr_time r) (cr_open r) (cr_high r) (cr_low r) (cr_close r) (cr_volume r).
Definition epoch_candle (r : candle_row) : candle_tuple :=
  CandleTuple (epoch_bigint (cr_time r)) (cr_open r) (cr_high r) (cr_low r) (cr_close r)
              (cr_volume r).

(** [SELECT bucket, open, high, low, close, volume FROM <view>
     WHERE symbol_id = %s AND bucket >= %s AND bucket <= %s ORDER BY bucket ASC] *)
Definition sql_select_view (rows : list candle_row) (symbol_id : Z)
    (start_time end_time : datetime) : list candle_tuple :=
  raw_candle <$> sql_order_by row_time_asc (filter (in_range symbol_id start_time end_time) rows).

(** [SELECT EXTRACT(EPOCH FROM bucket)::bigint as time, open, high, low, close, volume
     FROM <schema>.<matview> WHERE ... ORDER BY bucket ASC] *)
Definition sql_select_matview (rows : list candle_row) (symbol_id : Z)
    (start_date end_date : datetime) : list candle_tuple :=
  epoch_candle <$> sql_order_by row_time_asc (filter (in_range symbol_id start_date end_date) rows).

(** [... FROM <schema>.minute_aggregates WHERE ...
     AND EXTRACT(MINUTE FROM timestamp) %% %s = 0 ORDER BY timestamp ASC]:
    rows on the stride are returned as they are.  The remainder is only
    computed for rows that pass the range filter. *)
Definition on_stride (timeframe_minutes : Z) (r : candle_row) : bool :=
  Z.rem (minute_of_hour (cr_time r)) timeframe_minutes =? 0.
Definition sql_select_minute_stride (rows : list candle_row) (symbol_id : Z)
    (start_date end_date : datetime) (timeframe_minutes : Z) : result (list candle_tuple) :=
  let cand := filter (in_range symbol_id start_date end_date) rows in
  match cand with
  | [] => Ok []
  | r :: _ =>
      match sql_mod (minute_of_hour (cr_time r)) timeframe_minutes with
      | Raise e => Raise e
      | Ok _ => Ok (epoch_candle <$>
                      sql_order_by row_time_asc (filter (on_stride timeframe_minutes) cand))
      end
  end.

(** [SELECT EXTRACT(EPOCH FROM time_bucket(%s, timestamp))::bigint as time,
            (array_agg(open ORDER BY timestamp))[1] as open,
            MAX(high) as high, MIN(low) as low,
            (array_agg(close ORDER BY timestamp DESC))[1] as close,
            SUM(volume) as volume
     FROM <schema>.minute_aggregates WHERE ...
     GROUP BY time_bucket(%s, timestamp) ORDER BY time ASC] *)
Definition bucket_candle (g : datetime * list candle_row) : candle_tuple :=
  CandleTuple (epoch_bigint g.1)
              (first_by_time cr_open g.2)
              (sql_max (cr_high <$> g.2))
              (sql_min (cr_low <$> g.2))
              (last_by_time cr_close g.2)
              (sql_sum (cr_volume <$> g.2)).
Definition sql_select_minute_buckets (rows : list candle_row) (timeframe_minutes : Z)
    (symbol_id : Z) (start_date end_date : datetime) : list candle_tuple :=
  sql_order_by by_time_asc
    (bucket_candle <$>
       sql_group_by Z.eqb (λ r, time_bucket timeframe_minutes (cr_time r))
         (filter (in_range symbol_id start_date end_date) rows)).

(** ** The zone statement *)

(** [ORDER BY zone_score DESC, start_time DESC]: both names are output
    columns of the statement (the coalesced score, the epoch of the start),
    and an [ORDER BY] name that is an output column means that column. *)
Definition zone_order : relation zone_tuple := λ a b,
  (zt_zone_score b < zt_zone_score a)%Q ∨
  (zt_zone_score a == zt_zone_score b ∧ zt_start_time b ≤ zt_start_time a).

#[global] Instance zone_order_dec : RelDecision zone_order.
Proof. intros a b. unfold zone_order. apply _. Defined.

Definition zone_of_row (r : zone_row) : zone_tuple :=
  ZoneTuple (zr_zone_id r) (zr_zone_type r) (zr_bottom_price r) (zr_top_price r)
            (epoch_bigint (zr_start_time r)) (epoch_bigint (zr_end_time r))
            (default 0%Q (zr_zone_score r)) (zr_is_broken r).

(** [SELECT zone_id, zone_type, bottom_price, top_price,
            EXTRACT(EPOCH FROM start_time)::bigint as start_time,
            EXTRACT(EPOCH FROM end_time)::bigint as end_time,
            COALESCE(zone_score, 0.0) as zone_score, is_broken
     FROM <schema>.zones WHERE symbol_id = %s AND timeframe_id = %s
     ORDER BY zone_score DESC, start_time DESC LIMIT 30] *)
Definition sql_select_zones (rows : list zone_row) (symbol_id timeframe_id : Z) : list zone_tuple :=
  take 30
    (sql_order_by zone_order
       (zone_of_row <$>
          filter (λ r, (zr_symbol_id r =? symbol_id) && (zr_timeframe_id r =? timeframe_id)) rows)).

(** ** The volume-profile statement *)

(** [ORDER BY total_volume DESC]: PostgreSQL sorts NULL as larger than any
    value, so NULL comes first in descending order. *)
Definition vp_order : relation vp_tuple := λ a b,
  match vt_total_volume a, vt_total_volume b with
  | None, _ => True
  | Some _, None => False
  | Some x, Some y => (y <= x)%Q
  end.

#[global] Instance vp_order_dec : RelDecision vp_order.
Proof.
  intros a b. unfold vp_order.
  destruct (vt_total_volume a), (vt_total_volume b); apply _.
Defined.

Definition node_is (kind : string) (r : vp_row) : option bool :=
  (λ t, bool_decide (t = kind)) <$> vp_node_type r.

Definition vp_level (g : Q * list vp_row) : vp_tuple :=
  VpTuple g.1
          (sql_sum (vp_volume <$> g.2))
          (sql_bool_or (node_is "HVN" <$> g.2))
          (sql_bool_or (node_is "LVN" <$> g.2)).

(** [SELECT price_level as price, SUM(volume) as total_volume,
            BOOL_OR(node_type = 'HVN') as is_hvn, BOOL_OR(node_type = 'LVN') as is_lvn
     FROM <schema>.volume_profile
     WHERE symbol_id = %s AND <date_column> >= %s AND <date_column> <= %s
     GROUP BY price_level ORDER BY total_volume DESC LIMIT 50] *)
Definition vp_in_range (symbol_id p_start p_end : Z) (r : vp_row) : bool :=
  (vp_symbol_id r =? symbol_id) && (p_start <=? vp_period r) && (vp_period r <=? p_end).
Definition sql_select_volume_profile (rows : list vp_row) (symbol_id p_start p_end : Z)
    : list vp_tuple :=
  take 50
    (sql_order_by vp_order
       (vp_level <$>
          sql_group_by Qeq_bool vp_price_level (filter (vp_in_range symbol_id p_start p_end) rows))).

(** ** Running a statement *)

Definition lookup_id (key : string) (table : list (string * Z)) : option Z :=
  snd <$> head (filter (λ p, bool_decide (p.1 = key)) table).

Definition from_view (db : database) (schema name : string)
    (f : list candle_row → list candle_tuple) : result (list candle_tuple) :=
  match db_matviews db schema name with
  | Some rows => Ok (f rows)
  | None => Raise DatabaseError     (* relation does not exist *)
  end.

Definition eval (db : database) {A} (q : query A) : result A :=
  match q in query T return result T with
  | SelectSymbolId schema symbol => Ok (lookup_id symbol (db_symbols db schema))
  | SelectTimeframeId label => Ok (lookup_id label (db_timeframes db))
  | MatviewExists schema name => Ok (bool_decide (is_Some (db_matviews db schema name)))
  | SelectView schema name sid s e =>
      from_view db schema name (λ rows, sql_select_view rows sid s e)
  | SelectMatview schema name sid s e =>
      from_view db schema name (λ rows, sql_select_matview rows sid s e)
  | SelectMinuteStride schema sid s e tf =>
      sql_select_minute_stride (db_minute_aggregates db schema) sid s e tf
  | SelectMinuteBuckets schema tf sid s e =>
      Ok (sql_select_minute_buckets (db_minute_aggregates db schema) tf sid s e)
  | SelectZones schema sid tfid => Ok (sql_select_zones (db_zones db schema) sid tfid)
  | SelectVolumeProfile schema _ sid ps pe =>
      Ok (sql_select_volume_profile (db_volume_profile db schema) sid ps pe)
  end.

Definition send {A} (q : query A) : Py unit :=
  λ w, (Ok tt, World (w_log w) (w_files w) (w_modules w) (w_now_str w) (w_utcnow w)
                     (w_acquired w) (w_open_conns w) (w_open_cursors w)
                     (w_sent w ++ [Sent q]) (w_write_error w)).

(** [cursor.execute(query, params)] followed by [fetchone()] / [fetchall()].
    Whether the server refuses is decided statement by statement
    ([db_fails]).  That PostgreSQL goes on refusing the statements of a
    transaction in which one has failed, until a rollback, is not
    modelled: it is one of the ways a [db_fails] may look. *)
Definition execute (db : database) {A} (q : query A) : Py A :=
  send q ;;
  if db_fails db A q then raise DatabaseError else lift_result (eval db q).

(** ** World primitives *)

Definition set_files (f : gset string → gset string) : Py unit :=
  λ w, (Ok tt, World (w_log w) (f (w_files w)) (w_modules w) (w_now_str w) (w_utcnow w)
                     (w_acquired w) (w_open_conns w) (w_open_cursors w) (w_sent w)
                     (w_write_error w)).

(** [fig.write_html(path)] and [open(path, 'w')] followed by [write]: the
    file system refuses, and nothing is written, or the file exists
    afterwards.  A write that fails after the file was created (a full
    disk) is not modelled. *)
Definition write_file (path : string) : Py unit :=
  λ w, match w_write_error w path with
       | Some e => (Raise e, w)
       | None => set_files (λ fs, {[path]} ∪ fs) w
       end.

(** [Path(path).mkdir(parents=True, exist_ok=True)]: directories are not
    among [w_files]; what is kept is whether the file system refuses. *)
Definition make_dirs (path : string) : Py unit :=
  λ w, match w_write_error w path with
       | Some e => (Raise e, w)
       | None => (Ok tt, w)
       end.

(** [open(path, 'r')] followed by [read()]; the content is not modelled. *)
Definition read_file (path : string) : Py unit :=
  λ w, if decide (path ∈ w_files w) then (Ok tt, w) else (Raise FileNotFoundError, w).

(** [import <name>]. *)
Definition import_module (name : string) : Py unit :=
  λ w, if decide (name ∈ w_modules w) then (Ok tt, w) else (Raise ImportError, w).

Definition now_str : Py string := λ w, (Ok (w_now_str w), w).
Definition utcnow : Py datetime := λ w, (Ok (w_utcnow w), w).

(** [get_connection()]: a fresh connection, named by the rank of the call. *)
Definition get_connection (db : database) : Py nat :=
  λ w, let n := w_acquired w in
       if db_connect_fails db n then
         (Raise DatabaseError,
          World (w_log w) (w_files w) (w_modules w) (w_now_str w) (w_utcnow w)
                (S n) (w_open_conns w) (w_open_cursors w) (w_sent w) (w_write_error w))
       else
         (Ok n,
          World (w_log w) (w_files w) (w_modules w) (w_now_str w) (w_utcnow w)
                (S n) ({[n]} ∪ w_open_conns w) (w_open_cursors w) (w_sent w)
                (w_write_error w)).

Definition set_conns (f : gset nat → gset nat) (g : gset nat → gset nat) : Py unit :=
  λ w, (Ok tt, World (w_log w) (w_files w) (w_modules w) (w_now_str w) (w_utcnow w)
                     (w_acquired w) (f (w_open_conns w)) (g (w_open_cursors w)) (w_sent w)
                     (w_write_error w)).

(** [conn.cursor()], [cursor.close()], [conn.close()] and [conn.rollback()];
    the driver's own failures in these four are not modelled. *)
Definition conn_cursor (conn : nat) : Py nat :=
  set_conns id (λ cs, {[conn]} ∪ cs) ;; ret conn.
Definition cursor_close (cursor : nat) : Py unit := set_conns id (λ cs, cs ∖ {[cursor]}).
Definition conn_close (conn : nat) : Py unit := set_conns (λ cs, cs ∖ {[conn]}) id.
Definition conn_rollback (conn : nat) : Py unit := ret tt.

(** [s.replace(old, new)] for a non-empty [old]: every occurrence, left to
    right, without overlap.  [skip] counts characters of a match already
    replaced. *)
Fixpoint replace_from (skip : nat) (old new s : string) : string :=
  match s with
  | EmptyString => EmptyString
  | String c s' =>
      match skip with
      | S k => replace_from k old new s'
      | O => if String.prefix old s
             then new +:+ replace_from (String.length old - 1) old new s'
             else String c (replace_from 0 old new s')
      end
  end.
Definition str_replace (old new s : string) : string := replace_from 0 old new s.

(** ** Paths ([pathlib], POSIX flavour) *)

(** [s.split('/')]. *)
Fixpoint split_slash (s : string) : list string :=
  match s with
  | EmptyString => [EmptyString]
  | String c s' =>
      if Ascii.eqb c "/" then EmptyString :: split_slash s'
      else match split_slash s' with
           | [] => [String c EmptyString]
           | x :: xs => String c x :: xs
           end
  end.

Fixpoint leading_slashes (s : string) : nat :=
  match s with
  | String c s' => if Ascii.eqb c "/" then S (leading_slashes s') else O
  | EmptyString => O
  end.

(** The root of a path: none for a relative path, ["//"] for exactly two
    leading slashes, ["/"] for any other number of them. *)
Definition path_root (s : string) : string :=
  match leading_slashes s with
  | O => ""
  | 2%nat => "//"
  | _ => "/"
  end.

(** The components of a path: empty ones and ["."] are dropped, [".."] is
    kept. *)
Definition path_parts (s : string) : list string :=
  List.filter (λ x, negb (String.eqb x "" || String.eqb x ".")) (split_slash s).

Fixpoint join_slash (parts : list string) : string :=
  match parts with
  | [] => ""
  | [x] => x
  | x :: rest => x +:+ "/" +:+ join_slash rest
  end.

(** [str(path)]: the path without a root or a component is ["."]. *)
Definition path_text (root : string) (parts : list string) : string :=
  match root, parts with
  | EmptyString, [] => "."
  | _, _ => root +:+ join_slash parts
  end.

(** [str(Path(a) / b)]: an absolute [b] replaces [a]. *)
Definition path_join (a b : string) : string :=
  if String.eqb (path_root b) ""
  then path_text (path_root a) (path_parts a ++ path_parts b)
  else path_text (path_root b) (path_parts b).

(** [Path(p).parent], as text. *)
Definition path_parent (p : string) : string :=
  path_text (path_root p) (take (length (path_parts p) - 1) (path_parts p)).

(** ** [chart_generator.py]: class [ChartGenerator] *)

(** [output_dir] is the directory the constructor was given; the attribute
    [self.output_dir] is the [Path] of it, joined to file names with [/]. *)
Record ChartGenerator : Type := { output_dir : string }.

(** The dictionaries [_fetch_chart_data] returns. *)
Record chart_candle : Type := ChartCandle {
  cc_timestamp : datetime;
  cc_open : Q;
  cc_high : Q;
  cc_low : Q;
  cc_close : Q;
  cc_volume : Z;
}.

Definition chart_candle_of (row : candle_tuple) : result chart_candle :=
  match py_int (ct_volume row) with
  | Ok v => Ok (ChartCandle (ct_time row) (ct_open row) (ct_high row) (ct_low row)
                            (ct_close row) v)
  | Raise e => Raise e
  end.

(** The start-time padding of [_fetch_chart_data]. *)
Definition padded_start (start_time end_time : datetime) : result datetime :=
  let query_single_day := bool_decide (dt_date start_time = dt_date end_time) in
  if query_single_day then
    Ok (dt_replace_time start_time 9 30 0 0)
  else
    let time_range := dt_diff end_time start_time in
    dt_minus start_time (td_mul_0_1 time_range).

Definition _fetch_chart_data (db : database) (symbol : string) (chart_timeframe_minutes : Z)
    (start_time end_time : datetime) : Py (list chart_candle) :=
  match db_symbol_cache db symbol with
  | None | Some 0 =>
      log_at WARNING ("Symbol " +:+ symbol +:+ " not found in database") ;;
      ret []
  | Some symbol_id =>
      let* padded := lift_result (padded_start start_time end_time) in
      let view_name := "candles_" +:+ pretty chart_timeframe_minutes +:+ "m" in
      log_at INFO ("Using view: stocks." +:+ view_name +:+ " for " +:+ symbol) ;;
      try_except
        (let* rows := execute db (SelectView "stocks" view_name symbol_id padded end_time) in
         let* candles := lift_result (mapM chart_candle_of rows) in
         log_at INFO ("Fetched " +:+ pretty (length candles) +:+ " candles from stocks."
                      +:+ view_name +:+ " for " +:+ symbol) ;;
         ret candles)
        (λ e,
         log_at ERROR ("Error fetching chart data from stocks." +:+ view_name +:+ ": "
                       +:+ exn_str e) ;;
         ret [])
  end.

(** The zone penetration percentage of [_generate_html_chart]. *)
Definition penetration_pct (zone_type : string) (zone_top zone_bottom current_price : Q)
    : result Q :=
  let zone_range := (zone_top - zone_bottom)%Q in
  if decide (zone_type = "demand") then
    match py_div (zone_bottom - current_price) zone_range with
    | Ok q => Ok (py_max0 (q * 100))
    | Raise e => Raise e
    end
  else
    match py_div (current_price - zone_top) zone_range with
    | Ok q => Ok (py_max0 (q * 100))
    | Raise e => Raise e
    end.

(** [_generate_html_chart]: the figure itself is the rendering library's;
    what is kept is the penetration computed first and the file written
    last. *)
Definition _generate_html_chart (self : ChartGenerator) (symbol zone_type : string)
    (zone_top zone_bottom : Q) (zone_timeframe_minutes : Z) (chart_label : string)
    (candles : list chart_candle) (current_price : Q) : Py string :=
  let* pct := lift_result (penetration_pct zone_type zone_top zone_bottom current_price) in
  let* timestamp_str := now_str in
  let filename := symbol +:+ "_" +:+ zone_type +:+ "_" +:+ pretty zone_timeframe_minutes
                  +:+ "min_" +:+ timestamp_str +:+ ".html" in
  let filepath := path_join (output_dir self) filename in
  write_file filepath ;;
  log_at INFO ("Generated HTML chart: " +:+ filepath) ;;
  ret filepath.

Definition _generate_png_thumbnail (html_path : string) : Py (option string) :=
  let png_path := str_replace ".html" ".png" html_path in
  try_except
    (import_module "plotly.io" ;;
     import_module "kaleido.scopes.plotly" ;;
     read_file html_path ;;
     log_at INFO ("Generated PNG thumbnail: " +:+ png_path) ;;
     ret (Some png_path))
    (λ e,
     log_at ERROR ("Error generating PNG thumbnail: " +:+ exn_str e) ;;
     log_at INFO "PNG generation requires 'kaleido' package. Install with: pip install kaleido" ;;
     ret None).

Section ChartGenerator.
(** [src.visualization.timeframe_utils.get_chart_timeframe_for_zone]:
    the chart timeframe [(minutes, label)] for a zone timeframe. *)
Variable get_chart_timeframe_for_zone : Z → Z * string.

Definition generate_zone_alert_chart (self : ChartGenerator) (db : database)
    (symbol zone_type : string) (zone_top zone_bottom : Q) (zone_timeframe_minutes : Z)
    (zone_formed_at : datetime) (current_price : Q) (current_timestamp : datetime)
    : Py (option string * option string) :=
  let chart_tf := get_chart_timeframe_for_zone zone_timeframe_minutes in
  let chart_timeframe_minutes := chart_tf.1 in
  let chart_label := chart_tf.2 in
  log_at INFO ("Generating chart for " +:+ symbol +:+ " " +:+ zone_type +:+ " zone ("
               +:+ pretty zone_timeframe_minutes +:+ "min) on " +:+ chart_label
               +:+ " timeframe") ;;
  let* candles := _fetch_chart_data db symbol chart_timeframe_minutes
                    zone_formed_at current_timestamp in
  match candles with
  | [] =>
      log_at WARNING ("No candle data found for " +:+ symbol +:+ " chart") ;;
      ret (None, None)
  | _ =>
      let* html_path := _generate_html_chart self symbol zone_type zone_top zone_bottom
                          zone_timeframe_minutes chart_label candles current_price in
      let* png_path := _generate_png_thumbnail html_path in
      log_at INFO ("Generated charts: HTML=" +:+ html_path +:+ ", PNG="
                   +:+ default "None" png_path) ;;
      ret (Some html_path, png_path)
  end.
End ChartGenerator.

(** ** [lightweight_dashboard_generator.py]: class [LightweightDashboardGenerator] *)

Record LightweightDashboardGenerator : Type := Generator {
  market_type : string;
  schema : string;
  skip_upload : bool;
  timeframes : list (string * Z);       (* a dict, in insertion order: label, minutes *)
  lookback_days_map : gmap string Z;
}.

Definition stock_timeframes : list (string * Z) :=
  [("2min", 2); ("3min", 3); ("5min", 5); ("6min", 6); ("10min", 10); ("13min", 13);
   ("15min", 15); ("26min", 26); ("30min", 30); ("39min", 39); ("65min", 65); ("78min", 78);
   ("130min", 130); ("195min", 195); ("390min", 390);
   ("5day", 1950); ("22day", 8580); ("65day", 25350)].

Definition stock_lookback_days : list (string * Z) :=
  [("2min", 5); ("3min", 7); ("5min", 14); ("6min", 14); ("10min", 30); ("13min", 30);
   ("15min", 60); ("26min", 90); ("30min", 90); ("39min", 180); ("65min", 180); ("78min", 180);
   ("130min", 365); ("195min", 365); ("390min", 730);
   ("5day", 730); ("22day", 1095); ("65day", 1825)].

Definition crypto_timeframes : list (string * Z) :=
  [("5min", 5); ("15min", 15); ("30min", 30); ("1hour", 60); ("2hour", 120); ("4hour", 240);
   ("8hour", 480); ("1day", 1440); ("7day", 10080); ("31day", 44640); ("93day", 133920)].

Definition crypto_lookback_days : list (string * Z) :=
  [("5min", 7); ("15min", 14); ("30min", 30); ("1hour", 60); ("2hour", 90); ("4hour", 180);
   ("8hour", 365); ("1day", 730); ("7day", 1095); ("31day", 1825); ("93day", 2555)].

(** [__init__(market_type, skip_upload)]. *)
Definition new_generator (market_type : string) (skip_upload : bool)
    : LightweightDashboardGenerator :=
  if decide (market_type = "stocks") then
    Generator market_type market_type skip_upload stock_timeframes
              (list_to_map stock_lookback_days)
  else
    Generator market_type market_type skip_upload crypto_timeframes
              (list_to_map crypto_lookback_days).

(** The dictionaries of a timeframe bucket. *)
Record dash_candle : Type := DashCandle {
  dc_time : Z;
  dc_open : Q;
  dc_high : Q;
  dc_low : Q;
  dc_close : Q;
  dc_volume : Q;
}.

Record dash_zone : Type := DashZone {
  dz_zone_id : Z;
  dz_zone_type : string;
  dz_bottom_price : Q;
  dz_top_price : Q;
  dz_start_time : Z;
  dz_end_time : Z;
  dz_zone_score : Q;
  dz_is_broken : option bool;
  dz_exit_price : option Q;
  dz_exit_time : option Z;
  dz_timeframe : string;
}.

Record dash_node : Type := DashNode {
  dn_price : Q;
  dn_dollar_volume : Q;
  dn_is_hvn : bool;
  dn_is_lvn : bool;
}.

Record bucket : Type := Bucket {
  b_candles : list dash_candle;
  b_zones : list dash_zone;
  b_volume_profile : list dash_node;
}.

Record dashboard_data : Type := DashboardData {
  dd_symbol : string;
  dd_market_type : string;
  dd_timeframes : gmap string bucket;
}.

(** The [matview_map] dict of [_fetch_candles]. *)
Definition matview_map : gmap Z string :=
  list_to_map
    [(2, "candles_2m"); (3, "candles_3m"); (5, "candles_5m"); (6, "candles_6m");
     (10, "candles_10m"); (13, "candles_13m"); (15, "candles_15m"); (26, "candles_26m");
     (30, "candles_30m"); (39, "candles_39m"); (65, "candles_65m"); (78, "candles_78m");
     (130, "candles_130m"); (195, "candles_195m"); (390, "candles_390m");
     (1950, "candles_5d"); (8580, "candles_22d"); (25350, "candles_65d");
     (60, "candles_1h"); (120, "candles_2h"); (240, "candles_4h"); (480, "candles_8h");
     (1440, "candles_1d"); (10080, "candles_7d"); (44640, "candles_31d");
     (133920, "candles_93d")].

Definition dash_candle_of (row : candle_tuple) : dash_candle :=
  DashCandle (ct_time row) (ct_open row) (ct_high row) (ct_low row) (ct_close row)
             (float_or_zero (ct_volume row)).

Definition _fetch_candles (self : LightweightDashboardGenerator) (db : database) (cursor : nat)
    (symbol_id : Z) (start_date end_date : datetime) (timeframe_minutes : Z)
    : Py (list dash_candle) :=
  try_except
    (let matview_name := matview_map !! timeframe_minutes in
     let* use_matview :=
       match matview_name with
       | Some name =>
           try_except
             (execute db (MatviewExists (schema self) name))
             (λ check_error,
              log_at WARNING ("Error checking materialized view " +:+ name +:+ ": "
                              +:+ exn_str check_error) ;;
              ret false)
       | None => ret false
       end in
     let* rows :=
       match use_matview, matview_name with
       | true, Some name =>
           let* rows := execute db (SelectMatview (schema self) name symbol_id
                                      start_date end_date) in
           log_at INFO ("Using materialized view: " +:+ schema self +:+ "." +:+ name) ;;
           ret rows
       | _, _ =>
           log_at INFO ("No materialized view for " +:+ pretty timeframe_minutes
                        +:+ "min, aggregating on-the-fly") ;;
           if timeframe_minutes <=? 15 then
             execute db (SelectMinuteStride (schema self) symbol_id start_date end_date
                           timeframe_minutes)
           else
             execute db (SelectMinuteBuckets (schema self) timeframe_minutes symbol_id
                           start_date end_date)
       end in
     let candles := dash_candle_of <$> rows in
     log_at INFO ("Fetched " +:+ pretty (length candles) +:+ " candles") ;;
     ret candles)
    (λ e, log_at ERROR ("Error fetching candles: " +:+ exn_str e) ;; ret []).

Definition zone_data (timeframe : string) (row : zone_tuple) : dash_zone :=
  DashZone (zt_zone_id row) (zt_zone_type row) (zt_bottom_price row) (zt_top_price row)
           (zt_start_time row) (zt_end_time row) (zt_zone_score row) (zt_is_broken row)
           None None timeframe.

(** Python truth of [z['is_broken']]: [None] is false. *)
Definition is_broken (z : dash_zone) : bool := default false (dz_is_broken z).

Definition _fetch_zones (self : LightweightDashboardGenerator) (db : database) (cursor : nat)
    (symbol_id : Z) (timeframe : string) : Py (list dash_zone) :=
  try_except
    (let* result := execute db (SelectTimeframeId timeframe) in
     match result with
     | None =>
         log_at WARNING ("Timeframe " +:+ timeframe +:+ " not found in shared.timeframes") ;;
         ret []
     | Some timeframe_id =>
         log_at INFO ("Found timeframe_id=" +:+ pretty timeframe_id +:+ " for label '"
                      +:+ timeframe +:+ "'") ;;
         let* rows := execute db (SelectZones (schema self) symbol_id timeframe_id) in
         let zones := zone_data timeframe <$> rows in
         let active_zones := filter (λ z, negb (is_broken z)) zones in
         let broken_zones := filter (λ z, is_broken z) zones in
         log_at INFO ("Fetched " +:+ pretty (length active_zones) +:+ " active zones and "
                      +:+ pretty (length broken_zones) +:+ " broken zones for "
                      +:+ timeframe) ;;
         ret zones
     end)
    (λ e, log_at ERROR ("Error fetching zones: " +:+ exn_str e) ;; ret []).

Definition node_of (row : vp_tuple) : dash_node :=
  DashNode (vt_price row) (float_or_zero (vt_total_volume row))
           (default false (vt_is_hvn row)) (default false (vt_is_lvn row)).

Definition _fetch_volume_profile (self : LightweightDashboardGenerator) (db : database)
    (cursor : nat) (symbol_id : Z) (start_date end_date : datetime) : Py (list dash_node) :=
  try_except
    (let '(date_column, p_start, p_end) :=
       if decide (schema self = "stocks")
       then ("period_start", start_date, end_date)
       else ("date", dt_date start_date, dt_date end_date) in
     let* rows := execute db (SelectVolumeProfile (schema self) date_column symbol_id
                                p_start p_end) in
     let nodes := node_of <$> rows in
     log_at INFO ("Fetched " +:+ pretty (length nodes) +:+ " volume profile nodes") ;;
     ret nodes)
    (λ e, log_at ERROR ("Error fetching volume profile: " +:+ exn_str e) ;; ret []).

(** [s.upper()] and [s.lower()] on ASCII letters. *)
Definition upper_ascii (c : ascii) : ascii :=
  let n := nat_of_ascii c in
  if ((97 <=? n) && (n <=? 122))%nat then ascii_of_nat (n - 32) else c.
Definition lower_ascii (c : ascii) : ascii :=
  let n := nat_of_ascii c in
  if ((65 <=? n) && (n <=? 90))%nat then ascii_of_nat (n + 32) else c.
Fixpoint str_map (f : ascii → ascii) (s : string) : string :=
  match s with
  | EmptyString => EmptyString
  | String c s' => String (f c) (str_map f s')
  end.
Definition upper : string → string := str_map upper_ascii.
Definition lower : string → string := str_map lower_ascii.

(** The methods [_fetch_dashboard_data] reaches through [self]; a subclass
    or a test double may supply others than the class's own. *)
Record fetch_methods : Type := FetchMethods {
  m_fetch_candles : nat → Z → datetime → datetime → Z → Py (list dash_candle);
  m_fetch_zones : nat → Z → string → Py (list dash_zone);
  m_fetch_volume_profile : nat → Z → datetime → datetime → Py (list dash_node);
}.

Definition own_methods (self : LightweightDashboardGenerator) (db : database) : fetch_methods :=
  FetchMethods (_fetch_candles self db) (_fetch_zones self db) (_fetch_volume_profile self db).

(** The local variables of [_fetch_dashboard_data] that its handlers read:
    [conn], [cursor] and [dashboard_data['timeframes']]. *)
Record frame : Type := Frame {
  fr_conn : option nat;
  fr_cursor : option nat;
  fr_timeframes : gmap string bucket;
}.

Definition Fr (A : Type) : Type := st (frame * world) A.

Definition lift {A} (m : Py A) : Fr A :=
  λ s, let '(r, w') := m s.2 in (r, (s.1, w')).
Definition run_frame {A} (fr : frame) (m : Fr A) : Py A :=
  λ w, let '(r, s) := m (fr, w) in (r, s.2).
Definition get_frame : Fr frame := λ s, (Ok s.1, s).
Definition set_conn (c : nat) : Fr unit :=
  λ s, (Ok tt, (Frame (Some c) (fr_cursor s.1) (fr_timeframes s.1), s.2)).
Definition set_cursor (c : nat) : Fr unit :=
  λ s, (Ok tt, (Frame (fr_conn s.1) (Some c) (fr_timeframes s.1), s.2)).
(** [dashboard_data['timeframes'][tf_name] = b] *)
Definition set_bucket (tf_name : string) (b : bucket) : Fr unit :=
  λ s, (Ok tt, (Frame (fr_conn s.1) (fr_cursor s.1) (<[tf_name := b]> (fr_timeframes s.1)), s.2)).

(** [if conn: f(conn)] and [if cursor: f(cursor)]. *)
Definition if_conn (f : nat → Py unit) : Fr unit :=
  let* fr := get_frame in
  match fr_conn fr with Some c => lift (f c) | None => ret tt end.
Definition if_cursor (f : nat → Py unit) : Fr unit :=
  let* fr := get_frame in
  match fr_cursor fr with Some c => lift (f c) | None => ret tt end.

(** The value of the local [cursor] where it is passed on; it has been
    assigned by then. *)
Definition the_cursor : Fr nat :=
  let* fr := get_frame in
  match fr_cursor fr with
  | Some c => ret c
  | None => raise (OtherError "AttributeError")
  end.

Fixpoint for_each {S A} (l : list A) (f : A → st S unit) : st S unit :=
  match l with
  | [] => ret tt
  | x :: l' => f x ;; for_each l' f
  end.

Definition empty_bucket : bucket := Bucket [] [] [].

(** The [try] block of one round of the loop: the start date of the
    timeframe, then the three fetches on the current cursor. *)
Definition timeframe_bucket (methods : fetch_methods) (self : LightweightDashboardGenerator)
    (lookback_days : Z) (symbol_id : Z) (end_date : datetime) (cursor : nat)
    (tf : string * Z) : Py bucket :=
  let '(tf_name, tf_minutes) := tf in
  (* Calculate start date based on timeframe's lookback days *)
  let tf_lookback_days := default lookback_days (lookback_days_map self !! tf_name) in
  let* delta := lift_result (td_days tf_lookback_days) in
  let* start_date := lift_result (dt_minus end_date delta) in
  let* candles := m_fetch_candles methods cursor symbol_id start_date end_date tf_minutes in
  let* zones := m_fetch_zones methods cursor symbol_id tf_name in
  let* volume_profile := m_fetch_volume_profile methods cursor symbol_id
                           start_date end_date in
  ret (Bucket candles zones volume_profile).

(** One round of the loop over [self.timeframes.items()]. *)
Definition fetch_timeframe (methods : fetch_methods) (self : LightweightDashboardGenerator)
    (db : database) (symbol : string) (lookback_days : Z) (symbol_id : Z) (end_date : datetime)
    (tf : string * Z) : Fr unit :=
  lift (log_at INFO ("Fetching " +:+ tf.1 +:+ " data for " +:+ symbol)) ;;
  try_except
    (let* cursor := the_cursor in
     let* b := lift (timeframe_bucket methods self lookback_days symbol_id end_date
                       cursor tf) in
     set_bucket tf.1 b)
    (λ e,
     lift (log_at ERROR ("Error fetching " +:+ tf.1 +:+ " data: " +:+ exn_str e)) ;;
     (* Rollback transaction and close old cursor/connection *)
     if_conn conn_rollback ;;
     if_cursor cursor_close ;;
     (* Get new connection for next timeframe *)
     let* conn := lift (get_connection db) in
     set_conn conn ;;
     let* cursor := lift (conn_cursor conn) in
     set_cursor cursor ;;
     (* Skip this timeframe but continue with others *)
     set_bucket tf.1 empty_bucket).

Definition fetch_dashboard_body (methods : fetch_methods) (self : LightweightDashboardGenerator)
    (db : database) (symbol : string) (lookback_days : Z) : Fr (option dashboard_data) :=
  let* conn := lift (get_connection db) in
  set_conn conn ;;
  let* cursor := lift (conn_cursor conn) in
  set_cursor cursor ;;
  let* result := lift (execute db (SelectSymbolId (schema self) symbol)) in
  match result with
  | None =>
      lift (log_at WARNING ("Symbol " +:+ symbol +:+ " not found in " +:+ schema self
                            +:+ ".symbols")) ;;
      if_cursor cursor_close ;;
      if_conn conn_close ;;
      ret None
  | Some symbol_id =>
      let* end_date := lift utcnow in
      for_each (timeframes self)
               (fetch_timeframe methods self db symbol lookback_days symbol_id end_date) ;;
      if_cursor cursor_close ;;
      if_conn conn_close ;;
      let* fr := get_frame in
      ret (Some (DashboardData symbol (upper (market_type self)) (fr_timeframes fr)))
  end.

Definition _fetch_dashboard_data (methods : fetch_methods) (self : LightweightDashboardGenerator)
    (db : database) (symbol : string) (lookback_days : Z) : Py (option dashboard_data) :=
  run_frame (Frame None None ∅)
    (try_except
       (fetch_dashboard_body methods self db symbol lookback_days)
       (λ e,
        lift (log_at ERROR ("Error fetching dashboard data: " +:+ exn_str e)) ;;
        (* Rollback and cleanup on fatal error *)
        if_conn conn_rollback ;;
        if_cursor cursor_close ;;
        if_conn conn_close ;;
        ret None)).

(** The rendered document: the template with its four placeholders filled. *)
Record document : Type := Document {
  doc_symbol : string;
  doc_market_type : string;
  doc_timestamp : datetime;
  doc_dashboard_data : dashboard_data;
}.

Definition template_path : string := "templates/lightweight_dashboard.html".

Definition _render_html (dashboard : dashboard_data) : Py document :=
  try_except
    (read_file template_path ;;
     let* timestamp := utcnow in
     ret (Document (dd_symbol dashboard) (dd_market_type dashboard) timestamp dashboard))
    (λ e, log_at ERROR ("Error rendering HTML: " +:+ exn_str e) ;; raise e).

Section Dashboard.
(** [AzureBlobManager.upload_html(html_content, filename)]: the URL, or a
    failed upload. *)
Variable upload_html : document → string → result string.

Definition generate_dashboard (methods : fetch_methods) (self : LightweightDashboardGenerator)
    (db : database) (symbol : string) (lookback_days : Z) : Py (option string * bool) :=
  try_except
    (log_at INFO ("Generating dashboard for " +:+ symbol +:+ " (" +:+ market_type self
                  +:+ ")") ;;
     let* dashboard := _fetch_dashboard_data methods self db symbol lookback_days in
     match dashboard with
     | None =>
         log_at WARNING ("No data available for " +:+ symbol) ;;
         ret (None, false)
     | Some dashboard =>
         let* html_content := _render_html dashboard in
         let filename := market_type self +:+ "_" +:+ lower (str_replace ":" "_" symbol)
                         +:+ "_dashboard.html" in
         if skip_upload self then
           make_dirs "data/dashboards" ;;
           let filepath := path_join "data/dashboards" filename in
           write_file filepath ;;
           log_at INFO ("Dashboard saved locally: " +:+ filepath) ;;
           ret (Some filepath, true)
         else
           let* url := lift_result (upload_html html_content filename) in
           log_at INFO ("Dashboard generated: " +:+ url) ;;
           ret (Some url, true)
     end)
    (λ e,
     log_at ERROR ("Error generating dashboard for " +:+ symbol +:+ ": " +:+ exn_str e) ;;
     ret (None, false)).
End Dashboard.

(** ** Observing a run *)

(** The lower time bound of a candle statement. *)
Definition candle_query_start (s : statement) : option datetime :=
  match s with
  | Sent q =>
      match q with
      | SelectView _ _ _ start_time _ => Some start_time
      | SelectMatview _ _ _ start_date _ => Some start_date
      | SelectMinuteStride _ _ start_date _ _ => Some start_date
      | SelectMinuteBuckets _ _ _ start_date _ => Some start_date
      | _ => None
      end
  end.

(** The statements sent between two states of the world. *)
Definition sent_between (w0 w1 : world) (l : list statement) : Prop :=
  w_sent w1 = w_sent w0 ++ l.

(** The connections handed out and still open are the same in two worlds. *)
Definition same_connections (w w' : world) : Prop :=
  w_acquired w' = w_acquired w ∧
  w_open_conns w' = w_open_conns w ∧
  w_open_cursors w' = w_open_cursors w.

(** 09:30:00 on the day of [t]. *)
Definition market_open (t : datetime) : datetime :=
  dt_date t * us_per_day + 34200 * us_per_second.

(** ** The candle sources, in the specification's words *)


Definition Qsum (l : list Q) : Q := foldr Qplus 0%Q l.







Definition dash_time_asc : relation dash_candle := λ a b, dc_time a ≤ dc_time b.




(** ** Rankings, in the specification's words *)

(** Score descending, ties broken by start time descending. *)
Definition zone_before : relation dash_zone := λ a b,
  (dz_zone_score b < dz_zone_score a)%Q ∨
  (dz_zone_score a == dz_zone_score b ∧ dz_start_time b ≤ dz_start_time a).

(** Aggregated volume descending. *)
Definition volume_desc : relation dash_node := λ a b,
  (dn_dollar_volume b <= dn_dollar_volume a)%Q.

(** The range parameters of the volume-profile statement: timestamps for
    stocks, day numbers otherwise. *)
Definition vp_params (self : LightweightDashboardGenerator) (start_date end_date : datetime)
    : Z * Z :=
  if decide (schema self = "stocks") then (start_date, end_date)
  else (dt_date start_date, dt_date end_date).

(** The rows of one price level within the range, and their volume with a
    missing one counting as zero. *)
Definition level_rows (rows : list vp_row) (symbol_id p_start p_end : Z) (price : Q)
    : list vp_row :=
  filter (λ r, vp_in_range symbol_id p_start p_end r ∧ (vp_price_level r == price)%Q) rows.
Definition vp_volume_of (r : vp_row) : Q := default 0%Q (vp_volume r).

(** How many nodes carry the price level [price]. *)
Definition level_count (price : Q) (nodes : list dash_node) : nat :=
  length (filter (λ n, (dn_price n == price)%Q) nodes).

(** ** Sample data *)

(** 2024-04-22T00:00:00 is day 738997 after 0001-01-01. *)
Definition day0 : datetime := 738997 * us_per_day.
Definition at_time (day h m : Z) : datetime :=
  day0 + day * us_per_day + (h * 60 + m) * us_per_minute.

(** Minute rows of symbol 1 on day 0, from 09:58 to 10:31. *)
Definition sample_minutes : list candle_row :=
  [CandleRow 1 (at_time 0 10 0) 100 102 99 101 (Some 500%Q);
   CandleRow 1 (at_time 0 10 1) 101 105 100 104 None;
   CandleRow 1 (at_time 0 10 5) 104 106 103 (211 # 2) (Some 300%Q);
   CandleRow 1 (at_time 0 9 58) 98 (201 # 2) 97 100 (Some 50%Q);
   CandleRow 1 (at_time 0 10 31) 105 107 104 106 (Some 250%Q);
   CandleRow 2 (at_time 0 10 0) 10 11 9 10 (Some 70%Q)].

Definition sample_view_5m : list candle_row :=
  [CandleRow 1 (at_time 0 10 0) 100 105 99 104 (Some 500%Q);
   CandleRow 1 (at_time 0 10 5) 104 106 103 (211 # 2) (Some 300%Q);
   CandleRow 1 (at_time (-1) 15 55) 97 99 96 98 (Some 120%Q)].

Definition sample_zones : list zone_row :=
  [ZoneRow 11 1 3 "demand" 149 (301 # 2) (at_time (-3) 10 0) (at_time (-3) 11 0)
           (Some (7 # 2)) (Some false);
   ZoneRow 12 1 3 "supply" 160 161 (at_time (-2) 10 0) (at_time (-2) 11 0)
           (Some 9%Q) (Some true);
   ZoneRow 13 1 3 "demand" 140 141 (at_time (-1) 10 0) (at_time (-1) 11 0)
           (Some (7 # 2)) None;
   ZoneRow 14 1 3 "supply" 170 171 (at_time (-4) 10 0) (at_time (-4) 11 0)
           None (Some false);
   ZoneRow 15 2 3 "supply" 20 21 (at_time (-4) 10 0) (at_time (-4) 11 0)
           (Some 8%Q) (Some false)].

(** Two price levels; the level at 10 has no recorded volume. *)
Definition sample_volume_profile : list vp_row :=
  [VpRow 1 (at_time 0 0 0) 10 None (Some "HVN");
   VpRow 1 (at_time 0 0 0) 20 (Some 5%Q) None;
   VpRow 1 (at_time (-1) 0 0) 20 (Some 7%Q) (Some "LVN");
   VpRow 1 (at_time (-1) 0 0) 30 (Some 2%Q) None].

Definition sample_db : database :=
  Database
    (λ _, [("AAPL", 1); ("MSFT", 2)])
    [("5min", 3); ("30min", 4)]
    (λ sch name, if decide (sch = "stocks" ∧ name = "candles_5m")
                 then Some sample_view_5m else None)
    (λ _, sample_minutes)
    (λ _, sample_zones)
    (λ _, sample_volume_profile)
    (λ symbol, lookup_id symbol [("AAPL", 1); ("MSFT", 2)])
    (λ _ _, false)
    (λ _, false).

(** The sample disk: the two directories the modules write to exist, and a
    file can be created in them and nowhere else. *)
Definition sample_write_error (path : string) : option exn :=
  if existsb (String.eqb path) ["data/dashboards"; "data/temp/alert_charts"] ||
     existsb (String.eqb (path_parent path)) ["data/dashboards"; "data/temp/alert_charts"]
  then None else Some FileNotFoundError.

(** A world with the rasteriser installed and one rendered chart on disk. *)
Definition sample_world : world :=
  World [] {["data/temp/alert_charts/AAPL_demand_30min_20240422_103000.html";
             "templates/lightweight_dashboard.html"]}
        {["plotly.io"; "kaleido.scopes.plotly"]}
        "20240422_103000" (at_time 0 10 30) 0 ∅ ∅ [] sample_write_error.

(** The sample database with a recorded volume on every profile row. *)
Definition sample_db_volumes_known : database :=
  Database (db_symbols sample_db) (db_timeframes sample_db) (db_matviews sample_db)
    (db_minute_aggregates sample_db) (db_zones sample_db)
    (λ _, [VpRow 1 (at_time 0 0 0) 10 (Some 1%Q) (Some "HVN");
           VpRow 1 (at_time 0 0 0) 20 (Some 5%Q) None;
           VpRow 1 (at_time (-1) 0 0) 20 (Some 7%Q) (Some "LVN");
           VpRow 1 (at_time (-1) 0 0) 30 (Some 2%Q) None])
    (db_symbol_cache sample_db) (db_fails sample_db) (db_connect_fails sample_db).

(** The sample world without the rasteriser. *)
Definition sample_world_bare : world :=
  World [] (w_files sample_world) ∅ "20240422_103000" (at_time 0 10 30) 0 ∅ ∅ []
        sample_write_error.

(** A test double for the fetch methods: the candle fetch of the 5-minute
    timeframe throws, everything else is the class's own. *)
Definition failing_methods (self : LightweightDashboardGenerator) (db : database)
    : fetch_methods :=
  FetchMethods
    (λ cursor symbol_id start_date end_date timeframe_minutes,
       if timeframe_minutes =? 5 then raise (OtherError "connection reset")
       else _fetch_candles self db cursor symbol_id start_date end_date timeframe_minutes)
    (_fetch_zones self db)
    (_fetch_volume_profile self db).

(** ** One timeframe failing, in the specification's words *)

(** The fetch of a timeframe throws, or returns, whatever the cursor and the
    state of the world. *)
Definition always_raises (methods : fetch_methods) (self : LightweightDashboardGenerator)
    (lookback_days symbol_id : Z) (end_date : datetime) (tf : string * Z) : Prop :=
  ∀ cursor w, ∃ e w',
    timeframe_bucket methods self lookback_days symbol_id end_date cursor tf w = (Raise e, w').
Definition always_returns (methods : fetch_methods) (self : LightweightDashboardGenerator)
    (lookback_days symbol_id : Z) (end_date : datetime) (tf : string * Z) : Prop :=
  ∀ cursor w, ∃ b w',
    timeframe_bucket methods self lookback_days symbol_id end_date cursor tf w = (Ok b, w').

(** The window of a timeframe ends at [end_date] and starts the
    timeframe's lookback earlier (the caller's, for a label without one). *)
Definition window_start (self : LightweightDashboardGenerator) (lookback_days : Z)
    (end_date : datetime) (tf_name : string) : result datetime :=
  match td_days (default lookback_days (lookback_days_map self !! tf_name)) with
  | Ok delta => dt_minus end_date delta
  | Raise e => Raise e
  end.

(** The three fetches of a timeframe, run one after the other on a cursor,
    return these three lists. *)
Definition fetches_return (methods : fetch_methods) (cursor : nat) (symbol_id : Z)
    (start_date end_date : datetime) (tf : string * Z) (w : world)
    (candles : list dash_candle) (zones : list dash_zone) (volume_profile : list dash_node)
    : Prop :=
  ∃ w1 w2 w3,
    m_fetch_candles methods cursor symbol_id start_date end_date tf.2 w = (Ok candles, w1) ∧
    m_fetch_zones methods cursor symbol_id tf.1 w1 = (Ok zones, w2) ∧
    m_fetch_volume_profile methods cursor symbol_id start_date end_date w2
    = (Ok volume_profile, w3).

(** One of the three throws; the later ones are not reached. *)
Definition fetches_throw (methods : fetch_methods) (cursor : nat) (symbol_id : Z)
    (start_date end_date : datetime) (tf : string * Z) (w : world) : Prop :=
  (∃ e w1,
     m_fetch_candles methods cursor symbol_id start_date end_date tf.2 w = (Raise e, w1)) ∨
  (∃ candles w1 e w2,
     m_fetch_candles methods cursor symbol_id start_date end_date tf.2 w = (Ok candles, w1) ∧
     m_fetch_zones methods cursor symbol_id tf.1 w1 = (Raise e, w2)) ∨
  (∃ candles w1 zones w2 e w3,
     m_fetch_candles methods cursor symbol_id start_date end_date tf.2 w = (Ok candles, w1) ∧
     m_fetch_zones methods cursor symbol_id tf.1 w1 = (Ok zones, w2) ∧
     m_fetch_volume_profile methods cursor symbol_id start_date end_date w2 = (Raise e, w3)).

(** A bucket is populated: its candles, zones and volume profile are what
    the three fetches of its timeframe returned, over the timeframe's
    window. *)
Definition populated (methods : fetch_methods) (self : LightweightDashboardGenerator)
    (lookback_days symbol_id : Z) (end_date : datetime) (tf : string * Z) (b : bucket) : Prop :=
  ∃ cursor w start_date,
    window_start self lookback_days end_date tf.1 = Ok start_date ∧
    fetches_return methods cursor symbol_id start_date end_date tf w
      (b_candles b) (b_zones b) (b_volume_profile b).

(** The fetch of a timeframe threw: its window has no start date, or one
    of its three fetches threw. *)
Definition threw (methods : fetch_methods) (self : LightweightDashboardGenerator)
    (lookback_days symbol_id : Z) (end_date : datetime) (tf : string * Z) : Prop :=
  (∃ e, window_start self lookback_days end_date tf.1 = Raise e) ∨
  (∃ cursor w start_date,
     window_start self lookback_days end_date tf.1 = Ok start_date ∧
     fetches_throw methods cursor symbol_id start_date end_date tf w).


(** The start date of a timeframe is within [datetime]'s range. *)
Definition start_date_ok (self : LightweightDashboardGenerator) (lookback_days : Z)
    (end_date : datetime) (tf_name : string) : bool :=
  match td_days (default lookback_days (lookback_days_map self !! tf_name)) with
  | Ok delta => match dt_minus end_date delta with Ok _ => true | Raise _ => false end
  | Raise _ => false
  end.

(** ** [chart_generator.py]: the charts without a zone lookup *)

(** A path as the module passes it around: a [str] or a [pathlib.Path]. *)
Inductive path_like : Type :=
  | PyStr (s : string)
  | PyPath (s : string).

Definition path_str (p : path_like) : string :=
  match p with PyStr s | PyPath s => s end.

(** [_generate_png_thumbnail] on either kind of path.  Its first statement,
    [png_path = html_path.replace('.html', '.png')], stands before the
    [try]: on a [str] it is the textual replacement, on a [Path] the name
    [replace] is the rename method of one argument, and the call with two
    raises [TypeError]. *)
Definition _generate_png_thumbnail_any (html_path : path_like) : Py (option string) :=
  match html_path with
  | PyStr s => _generate_png_thumbnail s
  | PyPath _ => raise (OtherError "TypeError")
  end.

(** A volume node of [generate_zone_alert_chart_with_targets]: an object
    with the two attributes, or a dict read with [get]; [None] is an absent
    key or a [None] value. *)
Record volume_node : Type := VolumeNode {
  vn_price_level : option Q;
  vn_node_type : option string;
}.

(** The horizontal line of one node: its price and its label.  The label
    is formatted with [f"{node_price:.2f}"], which raises [TypeError] on
    [None]. *)
Definition node_line (node : volume_node) : result (Q * string) :=
  let node_price := vn_price_level node in
  let node_type := default "UNKNOWN" (vn_node_type node) in
  let node_label := if decide (node_type = "HVN") then "HVN" else "LVN" in
  match node_price with
  | Some p => Ok (p, node_label)
  | None => Raise (OtherError "TypeError")
  end.

(** [generate_zone_alert_chart_with_targets]: the figure is the rendering
    library's; what is kept is the line of every volume node, drawn before
    anything is saved, and the file written last. *)
Definition generate_zone_alert_chart_with_targets (self : ChartGenerator) (symbol : string)
    (price_data : list chart_candle) (zone_type : string)
    (zone_top zone_bottom entry_price stop_loss target_price : Q)
    (volume_nodes : list volume_node) (current_price : Q) (zone_formed_at : datetime)
    : Py string :=
  let* lines := lift_result (mapM node_line volume_nodes) in
  let* timestamp_str := now_str in
  let filename := symbol +:+ "_" +:+ zone_type +:+ "_with_targets_" +:+ timestamp_str
                  +:+ ".html" in
  let filepath := path_join (output_dir self) filename in
  write_file filepath ;;
  log_at INFO ("Generated chart with targets: " +:+ filepath) ;;
  ret filepath.

Section PriceAction.
(** [t.strftime("%Y%m%d_%H%M%S")] and the local clock [datetime.now()]. *)
Variable strftime : datetime → string.
Variable local_now : world → datetime.

(** [_generate_price_action_html]: the data frame of an empty candle list
    has no column to read ([KeyError]); the path returned is the [Path]
    itself, not its text. *)
Definition _generate_price_action_html (self : ChartGenerator) (symbol : string)
    (timeframe_minutes : Z) (candles : list chart_candle) (current_timestamp : datetime)
    : Py path_like :=
  match candles with
  | [] => raise (OtherError "KeyError")
  | _ =>
      let timestamp_str := strftime current_timestamp in
      let filename := symbol +:+ "_price_action_" +:+ pretty timeframe_minutes +:+ "min_"
                      +:+ timestamp_str +:+ ".html" in
      let filepath := path_join (output_dir self) filename in
      write_file filepath ;;
      log_at INFO ("Saved HTML chart: " +:+ filepath) ;;
      ret (PyPath filepath)
  end.

Definition generate_price_action_chart (self : ChartGenerator) (db : database)
    (symbol : string) (timeframe_minutes lookback_days : Z)
    (current_timestamp : option datetime) : Py (option path_like * option string) :=
  let* current_timestamp :=
    match current_timestamp with
    | Some t => ret t
    | None => λ w, (Ok (local_now w), w)
    end in
  let* delta := lift_result (td_days lookback_days) in
  let* start_time := lift_result (dt_minus current_timestamp delta) in
  log_at INFO ("Generating price action chart for " +:+ symbol +:+ " ("
               +:+ pretty timeframe_minutes +:+ "min, " +:+ pretty lookback_days
               +:+ " days)") ;;
  let* candles := _fetch_chart_data db symbol timeframe_minutes start_time
                    current_timestamp in
  if match candles with [] => true | _ => (length candles <? 10)%nat end then
    log_at WARNING ("Insufficient data for " +:+ symbol +:+ ": " +:+ pretty (length candles)
                    +:+ " candles") ;;
    ret (None, None)
  else
    let* html_path := _generate_price_action_html self symbol timeframe_minutes candles
                        current_timestamp in
    let* png_path := _generate_png_thumbnail_any html_path in
    log_at INFO ("Generated price action charts: HTML=" +:+ path_str html_path +:+ ", PNG="
                 +:+ default "None" png_path) ;;
    ret (Some html_path, png_path).
End PriceAction.

(** Chart candles by ascending timestamp. *)
Definition chart_time_asc : relation chart_candle := λ a b, cc_timestamp a ≤ cc_timestamp b.

(** Two states of the world that differ at most in the log and in the
    statements sent. *)
Definition only_logged (w w' : world) : Prop :=
  w_files w' = w_files w ∧ w_modules w' = w_modules w ∧ w_now_str w' = w_now_str w ∧
  w_utcnow w' = w_utcnow w ∧ w_write_error w' = w_write_error w ∧ same_connections w w'.

(** The file [_generate_html_chart] writes. *)
Definition html_chart_path (self : ChartGenerator) (symbol zone_type : string)
    (zone_timeframe_minutes : Z) (timestamp_str : string) : string :=
  path_join (output_dir self)
    (symbol +:+ "_" +:+ zone_type +:+ "_" +:+ pretty zone_timeframe_minutes +:+ "min_"
     +:+ timestamp_str +:+ ".html").

(** Both modules the thumbnail imports are installed. *)
Definition rasteriser_installed (w : world) : Prop :=
  "plotly.io" ∈ w_modules w ∧ "kaleido.scopes.plotly" ∈ w_modules w.

(** ** [lightweight_dashboard_generator.py]: the module-level functions *)

(** [try: ... finally: ...]: the final block runs on every exit; an
    exception of its own replaces the outcome of the body. *)
Definition try_finally {S A} (body : st S A) (final : st S unit) : st S A :=
  λ s, match body s with
       | (r, s') =>
           match final s' with
           | (Ok _, s'') => (r, s'')
           | (Raise e, s'') => (Raise e, s'')
           end
       end.

(** The local variables of [generate_all_stock_dashboards] that its
    handlers read: [conn], [cursor] and [results]. *)
Record batch_frame : Type := BatchFrame {
  bf_conn : option nat;
  bf_cursor : option nat;
  bf_results : gmap string string;
}.

Definition Bt (A : Type) : Type := st (batch_frame * world) A.

Definition lift_bt {A} (m : Py A) : Bt A :=
  λ s, let '(r, w') := m s.2 in (r, (s.1, w')).
Definition run_batch {A} (fr : batch_frame) (m : Bt A) : Py A :=
  λ w, let '(r, s) := m (fr, w) in (r, s.2).
Definition bt_get : Bt batch_frame := λ s, (Ok s.1, s).
Definition bt_set_conn (c : option nat) : Bt unit :=
  λ s, (Ok tt, (BatchFrame c (bf_cursor s.1) (bf_results s.1), s.2)).
Definition bt_set_cursor (c : option nat) : Bt unit :=
  λ s, (Ok tt, (BatchFrame (bf_conn s.1) c (bf_results s.1), s.2)).
(** [results[symbol] = url] *)
Definition bt_set_result (symbol url : string) : Bt unit :=
  λ s, (Ok tt, (BatchFrame (bf_conn s.1) (bf_cursor s.1) (<[symbol := url]> (bf_results s.1)),
                s.2)).

Section Convenience.
(** [AzureBlobManager.upload_html(html_content, filename)], and the
    constructor [AzureBlobManager(connection_string=..., container_name=...)],
    which returns or raises. *)
Variable upload_html : document → string → result string.
Variable new_blob_manager : result unit.

(** The order of [ORDER BY symbol]: the collation of the database; and
    whether the server refuses the listing statement. *)
Context (collate : relation string) `{!RelDecision collate}.
Variable listing_refused : bool.

(** [LightweightDashboardGenerator(market_type, skip_upload)]: the blob
    manager is only built when the dashboard is to be uploaded. *)
Definition init_generator (market_type : string) (skip_upload : bool)
    : Py LightweightDashboardGenerator :=
  (if skip_upload then ret tt else lift_result new_blob_manager) ;;
  ret (new_generator market_type skip_upload).

Definition generate_stock_dashboard (db : database) (symbol : string) (lookback_days : Z)
    (skip_upload : bool) : Py (option string * bool) :=
  let* generator := init_generator "stocks" skip_upload in
  generate_dashboard upload_html (own_methods generator db) generator db symbol lookback_days.

Definition generate_crypto_dashboard (db : database) (symbol : string) (lookback_days : Z)
    (skip_upload : bool) : Py (option string * bool) :=
  let* generator := init_generator "crypto" skip_upload in
  generate_dashboard upload_html (own_methods generator db) generator db symbol lookback_days.

(** [SELECT DISTINCT symbol FROM stocks.symbols ORDER BY symbol] *)
Definition sql_select_symbols (table : list (string * Z)) : list string :=
  sql_order_by collate (distinct String.eqb (fst <$> table)).

(** [cursor.execute(...)] of the listing, followed by [fetchall()]. *)
Definition list_symbols (db : database) : Py (list string) :=
  if listing_refused then raise DatabaseError
  else ret (sql_select_symbols (db_symbols db "stocks")).

(** One round of the loop over [enumerate(symbols, 1)]. *)
Definition batch_round (generator : LightweightDashboardGenerator) (db : database)
    (lookback_days : Z) (total : nat) (item : nat * string) : Bt unit :=
  let '(idx, symbol) := item in
  try_except
    (lift_bt (log_at INFO ("[" +:+ pretty idx +:+ "/" +:+ pretty total
                           +:+ "] Generating dashboard for " +:+ symbol +:+ "...")) ;;
     let* generated := lift_bt (generate_dashboard upload_html (own_methods generator db)
                                  generator db symbol lookback_days) in
     let '(url, uploaded) := generated in
     match url with
     | Some (String c u) =>
         bt_set_result symbol (String c u) ;;
         lift_bt (log_at INFO ("SUCCESS: " +:+ symbol +:+ " -> " +:+ String c u))
     | _ =>
         lift_bt (log_at WARNING ("SKIP: " +:+ symbol +:+ " - No data or generation failed"))
     end)
    (λ e, lift_bt (log_at ERROR ("ERROR: " +:+ symbol +:+ " - " +:+ exn_str e))).

Definition batch_body (db : database) (lookback_days : Z) (skip_upload : bool)
    : Bt (gmap string string) :=
  (* Get all stock symbols from database *)
  let* conn := lift_bt (get_connection db) in
  bt_set_conn (Some conn) ;;
  let* cursor := lift_bt (conn_cursor conn) in
  bt_set_cursor (Some cursor) ;;
  let* symbols := lift_bt (list_symbols db) in
  lift_bt (log_at INFO ("Found " +:+ pretty (length symbols) +:+ " stocks to process")) ;;
  (* Close cursor/connection before generating dashboards *)
  lift_bt (cursor_close cursor) ;;
  lift_bt (conn_close conn) ;;
  bt_set_cursor None ;;
  bt_set_conn None ;;
  (* Generate dashboard for each symbol *)
  let* generator := lift_bt (init_generator "stocks" skip_upload) in
  for_each (zip (seq 1 (length symbols)) symbols)
           (batch_round generator db lookback_days (length symbols)) ;;
  let* fr := bt_get in
  lift_bt (log_at INFO ("Batch generation complete: " +:+ pretty (size (bf_results fr)) +:+ "/"
                        +:+ pretty (length symbols) +:+ " dashboards generated")) ;;
  ret (bf_results fr).

Definition generate_all_stock_dashboards (db : database) (lookback_days : Z)
    (skip_upload : bool) : Py (gmap string string) :=
  run_batch (BatchFrame None None ∅)
    (try_finally
       (try_except
          (batch_body db lookback_days skip_upload)
          (λ e,
           lift_bt (log_at ERROR ("Error in batch dashboard generation: " +:+ exn_str e)) ;;
           let* fr := bt_get in
           ret (bf_results fr)))
       (let* fr := bt_get in
        match bf_cursor fr with Some c => lift_bt (cursor_close c) | None => ret tt end ;;
        let* fr := bt_get in
        match bf_conn fr with Some c => lift_bt (conn_close c) | None => ret tt end)).
End Convenience.

(** ** More sample data *)

(** A 5-minute view of symbol 1 with twelve buckets from 10:00 on day 0. *)
Definition sample_view_busy : list candle_row :=
  (λ i, CandleRow 1 (at_time 0 10 (5 * i)) 100 102 99 101 (Some 500%Q)) <$> seqZ 0 12.

Definition sample_db_busy : database :=
  Database (db_symbols sample_db) (db_timeframes sample_db)
    (λ sch name, if decide (sch = "stocks" ∧ name = "candles_5m")
                 then Some sample_view_busy else None)
    (db_minute_aggregates sample_db) (db_zones sample_db) (db_volume_profile sample_db)
    (db_symbol_cache sample_db) (db_fails sample_db) (db_connect_fails sample_db).

(** The busy view with one bucket whose volume is NULL. *)
Definition sample_db_null_volume : database :=
  Database (db_symbols sample_db) (db_timeframes sample_db)
    (λ sch name, if decide (sch = "stocks" ∧ name = "candles_5m")
                 then Some (CandleRow 1 (at_time 0 10 7) 100 102 99 101 None :: sample_view_busy)
                 else None)
    (db_minute_aggregates sample_db) (db_zones sample_db) (db_volume_profile sample_db)
    (db_symbol_cache sample_db) (db_fails sample_db) (db_connect_fails sample_db).

(** The sample database with a crypto pair for symbol 1. *)
Definition sample_db_crypto : database :=
  Database (λ _, [("X:BTCUSD", 1)]) (db_timeframes sample_db) (db_matviews sample_db)
    (db_minute_aggregates sample_db) (db_zones sample_db) (db_volume_profile sample_db)
    (db_symbol_cache sample_db) (db_fails sample_db) (db_connect_fails sample_db).

(** The busy database with a share class as symbol 1: its ticker has a
    slash. *)
Definition sample_db_slash : database :=
  Database (λ _, [("BRK/B", 1)]) (db_timeframes sample_db) (db_matviews sample_db_busy)
    (db_minute_aggregates sample_db) (db_zones sample_db) (db_volume_profile sample_db)
    (λ symbol, lookup_id symbol [("BRK/B", 1)]) (db_fails sample_db)
    (db_connect_fails sample_db).

(** The sample world on a machine where nothing is installed: no template,
    no chart, no rasteriser. *)
Definition sample_world_blank : world :=
  World [] ∅ ∅ "20240422_103000" (at_time 0 10 30) 0 ∅ ∅ [] sample_write_error.

(** The file name [generate_dashboard] gives a dashboard. *)
Definition dashboard_filename (self : LightweightDashboardGenerator) (symbol : string) : string :=
  market_type self +:+ "_" +:+ lower (str_replace ":" "_" symbol) +:+ "_dashboard.html".

(** ** Zones and volume nodes against the tables *)

(** The rows of the zones table the statement selects from. *)
Definition zone_rows (rows : list zone_row) (symbol_id timeframe_id : Z) : list zone_row :=
  filter (λ r, zr_symbol_id r = symbol_id ∧ zr_timeframe_id r = timeframe_id) rows.

(** A returned zone carries one stored row: the times as epoch seconds, a
    missing score as zero, no exit, and the label asked for. *)
Definition zone_as_stored (timeframe : string) (r : zone_row) (z : dash_zone) : Prop :=
  dz_zone_id z = zr_zone_id r ∧ dz_zone_type z = zr_zone_type r ∧
  dz_bottom_price z = zr_bottom_price r ∧ dz_top_price z = zr_top_price r ∧
  dz_start_time z = epoch_bigint (zr_start_time r) ∧
  dz_end_time z = epoch_bigint (zr_end_time r) ∧
  dz_zone_score z = default 0%Q (zr_zone_score r) ∧
  dz_is_broken z = zr_is_broken r ∧
  dz_exit_price z = None ∧ dz_exit_time z = None ∧ dz_timeframe z = timeframe.

(** Some row of a price level is typed [kind]. *)
Definition level_has (kind : string) (members : list vp_row) : Prop :=
  ∃ r, r ∈ members ∧ vp_node_type r = Some kind.

(** The aggregation statement of the fallback, by the size of the timeframe. *)
Definition fallback_statement (self : LightweightDashboardGenerator) (symbol_id : Z)
    (start_date end_date : datetime) (timeframe_minutes : Z) : statement :=
  if timeframe_minutes <=? 15
  then Sent (SelectMinuteStride (schema self) symbol_id start_date end_date timeframe_minutes)
  else Sent (SelectMinuteBuckets (schema self) timeframe_minutes symbol_id start_date end_date).

(** A server that refuses every look into [pg_matviews]. *)
Definition sample_db_no_catalog : database :=
  Database (db_symbols sample_db) (db_timeframes sample_db) (db_matviews sample_db)
    (db_minute_aggregates sample_db) (db_zones sample_db) (db_volume_profile sample_db)
    (db_symbol_cache sample_db)
    (λ _ q, match q with MatviewExists _ _ => true | _ => false end)
    (db_connect_fails sample_db).

(** No connection or cursor named from the next rank on is open: names
    are ranks of [get_connection] calls, so this holds from a start with
    nothing open. *)
Definition connections_fresh (w : world) : Prop :=
  ∀ n, (w_acquired w ≤ n)%nat → (n ∉ w_open_conns w) ∧ (n ∉ w_open_cursors w).

(** What the dashboard fetch reads and never changes: the files on disk,
    the clock and what the file system refuses. *)
Definition surroundings (w : world) : gset string * datetime * (string → option exn) :=
  (w_files w, w_utcnow w, w_write_error w).

(** A collation for the samples: the order of the strings' codes. *)
Definition sample_collate : relation string := λ a b, (encode a ≤ encode b)%positive.

#[global] Instance sample_collate_dec : RelDecision sample_collate.
Proof. intros a b. unfold sample_collate. apply _. Defined.

(** ** A failed reconnect, in the code's words *)

(** The fetch of a timeframe leaves the connections alone, whatever it
    returns or raises. *)
Definition keeps_connections (methods : fetch_methods) (self : LightweightDashboardGenerator)
    (lookback_days symbol_id : Z) (end_date : datetime) : Prop :=
  ∀ cursor tf w,
    same_connections w
      (timeframe_bucket methods self lookback_days symbol_id end_date cursor tf w).2.

(** A server that hands out one connection and refuses every later one. *)
Definition sample_db_one_connection : database :=
  Database (db_symbols sample_db) (db_timeframes sample_db) (db_matviews sample_db)
    (db_minute_aggregates sample_db) (db_zones sample_db) (db_volume_profile sample_db)
    (db_symbol_cache sample_db) (db_fails sample_db)
    (λ n, negb (n =? 0)%nat).

(** * Properties *)

(** ** Zone penetration ([_generate_html_chart]) *)

Lemma py_div_ok (a b : Q) : ¬ (b == 0)%Q → py_div a b = Ok (a / b)%Q.
Proof. intros Hb. unfold py_div. destruct (Qeq_dec b 0); [contradiction | reflexivity]. Qed.

Lemma py_div_zero (a b : Q) : (b == 0)%Q → py_div a b = Raise ZeroDivisionError.
Proof. intros Hb. unfold py_div. destruct (Qeq_dec b 0); [reflexivity | contradiction]. Qed.

Lemma py_max0_Qmax (x : Q) : (py_max0 x == Qmax 0 x)%Q.
Proof.
  unfold py_max0. destruct (Qlt_le_dec 0 x) as [H | H].
  - symmetry. apply Q.max_r. apply Qlt_le_weak, H.
  - symmetry. apply Q.max_l. exact H.
Qed.

Lemma py_max0_nonneg (x : Q) : (0 <= py_max0 x)%Q.
Proof.
  unfold py_max0. destruct (Qlt_le_dec 0 x) as [H | H].
  - apply Qlt_le_weak, H.
  - apply Qle_refl.
Qed.

Lemma py_max0_nonpos (x : Q) : (x <= 0)%Q → py_max0 x = 0%Q.
Proof.
  intros Hx. unfold py_max0. destruct (Qlt_le_dec 0 x) as [H | H]; [| reflexivity].
  exfalso. apply (Qlt_not_le _ _ H), Hx.
Qed.

(** A quotient of a non-positive by a positive number, times 100, is
    non-positive. *)
Lemma pct_nonpos (n d : Q) : (n <= 0)%Q → (0 < d)%Q → (n / d * 100 <= 0)%Q.
Proof.
  intros Hn Hd.
  assert (Hq : (n / d <= 0)%Q).
  { apply Qle_shift_div_r; [exact Hd |]. rewrite Qmult_0_l. exact Hn. }
  apply Qle_trans with (0 * 100)%Q; [| discriminate].
  apply Qmult_le_compat_r; [exact Hq | discriminate].
Qed.

(** C1 (amended): for a zone with [zone_top > zone_bottom], the penetration
    computed for a demand zone is [max(0, (bottom - price) / (top - bottom)
    * 100)] and for a supply zone [max(0, (price - top) / (top - bottom) *
    100)]; it is never negative, it is 0 for a demand zone when the price
    is at or above the bottom, and 0 for a supply zone when the price is at
    or below the top. *)
Theorem penetration_pct_formula (zone_top zone_bottom current_price : Q) :
  (zone_bottom < zone_top)%Q →
  (∃ v, penetration_pct "demand" zone_top zone_bottom current_price = Ok v ∧
        (v == Qmax 0 ((zone_bottom - current_price) / (zone_top - zone_bottom) * 100))%Q ∧
        (0 <= v)%Q ∧
        ((zone_bottom <= current_price)%Q → (v == 0)%Q)) ∧
  (∃ v, penetration_pct "supply" zone_top zone_bottom current_price = Ok v ∧
        (v == Qmax 0 ((current_price - zone_top) / (zone_top - zone_bottom) * 100))%Q ∧
        (0 <= v)%Q ∧
        ((current_price <= zone_top)%Q → (v == 0)%Q)).
Proof.
  intros Hrange.
  assert (Hpos : (0 < zone_top - zone_bottom)%Q) by lra.
  assert (Hnz : ¬ (zone_top - zone_bottom == 0)%Q) by lra.
  split.
  - exists (py_max0 ((zone_bottom - current_price) / (zone_top - zone_bottom) * 100)).
    unfold penetration_pct. simpl. rewrite (py_div_ok _ _ Hnz).
    split; [reflexivity |]. split; [apply py_max0_Qmax |].
    split; [apply py_max0_nonneg |].
    intros Hprice. rewrite py_max0_nonpos; [reflexivity |].
    apply pct_nonpos; [lra | exact Hpos].
  - exists (py_max0 ((current_price - zone_top) / (zone_top - zone_bottom) * 100)).
    unfold penetration_pct. simpl. rewrite (py_div_ok _ _ Hnz).
    split; [reflexivity |]. split; [apply py_max0_Qmax |].
    split; [apply py_max0_nonneg |].
    intros Hprice. rewrite py_max0_nonpos; [reflexivity |].
    apply pct_nonpos; [lra | exact Hpos].
Qed.

(** The spec's example zone (top 150.50, bottom 149.00) at price 148.00. *)
Lemma penetration_pct_formula_witness :
  (∃ v, penetration_pct "demand" (301 # 2) 149 148 = Ok v ∧
        (v == Qmax 0 ((149 - 148) / ((301 # 2) - 149) * 100))%Q ∧
        (0 <= v)%Q ∧
        ((149 <= 148)%Q → (v == 0)%Q)) ∧
  (∃ v, penetration_pct "supply" (301 # 2) 149 148 = Ok v ∧
        (v == Qmax 0 ((148 - (301 # 2)) / ((301 # 2) - 149) * 100))%Q ∧
        (0 <= v)%Q ∧
        ((148 <= (301 # 2))%Q → (v == 0)%Q)).
Proof. apply (penetration_pct_formula (301 # 2) 149 148). reflexivity. Defined.

(** C1 as stated fails on a zone of height zero, which [top >= bottom]
    allows: with the price above the bottom the claim promises 0, and the
    division raises instead. *)
Lemma penetration_pct_flat_zone_not_zero :
  (149 <= 149)%Q ∧ (149 <= 150)%Q ∧
  ¬ ∃ v, penetration_pct "demand" 149 149 150 = Ok v ∧ (v == 0)%Q.
Proof.
  split; [discriminate |]. split; [discriminate |].
  intros [v [Hv _]]. vm_compute in Hv. discriminate Hv.
Qed.

(** C10 (amended): for a zone with [zone_top >= zone_bottom] the
    penetration is defined exactly when [zone_top > zone_bottom]; on a zone
    of height zero the division raises [ZeroDivisionError]. *)
Theorem penetration_pct_defined (zone_type : string) (zone_top zone_bottom current_price : Q) :
  (zone_bottom <= zone_top)%Q →
  ((∃ v, penetration_pct zone_type zone_top zone_bottom current_price = Ok v) ↔
   (zone_bottom < zone_top)%Q) ∧
  ((zone_top == zone_bottom)%Q →
     penetration_pct zone_type zone_top zone_bottom current_price = Raise ZeroDivisionError).
Proof.
  intros Hinv.
  assert (Hflat : (zone_top == zone_bottom)%Q →
     penetration_pct zone_type zone_top zone_bottom current_price = Raise ZeroDivisionError).
  { intros Heq.
    assert (Hz : (zone_top - zone_bottom == 0)%Q) by lra.
    unfold penetration_pct. destruct (decide (zone_type = "demand"));
      rewrite (py_div_zero _ _ Hz); reflexivity. }
  split; [| exact Hflat]. split.
  - intros [v Hv]. destruct (Qeq_dec zone_top zone_bottom) as [Heq | Hne]; [| lra].
    rewrite (Hflat Heq) in Hv. discriminate Hv.
  - intros Hlt.
    assert (Hnz : ¬ (zone_top - zone_bottom == 0)%Q) by lra.
    unfold penetration_pct. destruct (decide (zone_type = "demand"));
      rewrite (py_div_ok _ _ Hnz); eexists; reflexivity.
Qed.

Lemma penetration_pct_defined_witness :
  ((∃ v, penetration_pct "supply" (301 # 2) 149 151 = Ok v) ↔ (149 < (301 # 2))%Q) ∧
  (((301 # 2) == 149)%Q →
     penetration_pct "supply" (301 # 2) 149 151 = Raise ZeroDivisionError).
Proof. apply (penetration_pct_defined "supply" (301 # 2) 149 151). discriminate. Defined.

(** C10 as stated fails: a zone with [top = bottom] satisfies the zone
    invariant, the computation is not defined on it, and the alert chart
    generation raises with it. *)
Lemma penetration_pct_flat_zone_raises :
  (100 <= 100)%Q ∧
  penetration_pct "supply" 100 100 101 = Raise ZeroDivisionError ∧
  (generate_zone_alert_chart (λ _, (5, "5min")) {| output_dir := "data/temp/alert_charts" |}
     sample_db "AAPL" "supply" 100 100 30 (at_time 0 10 0) 101 (at_time 0 14 30)
     sample_world).1 = Raise ZeroDivisionError.
Proof.
  split; [discriminate |]. split; [reflexivity |]. vm_compute. reflexivity.
Qed.
(** ** Start-time padding *)

(** [timedelta * 0.1] is the microsecond count nearest to the product with
    the double 0.1, which exceeds one tenth by [1 / (5 * 2^55)]. *)
Lemma td_mul_0_1_nearest (d : timedelta) :
  2 * Z.abs (td_mul_0_1 d * 36028797018963968 - d * 3602879701896397) ≤ 36028797018963968.
Proof.
  unfold td_mul_0_1, divide_and_round, float_0_1_ratio. cbn [fst snd].
  set (a := d * 3602879701896397).
  pose proof (Z.div_mod a 36028797018963968 ltac:(lia)) as Hdm.
  pose proof (Z.mod_pos_bound a 36028797018963968 ltac:(lia)) as Hr.
  pose proof (Z.mod_pos_bound (a / 36028797018963968) 2 ltac:(lia)) as Hpar.
  set (q := a / 36028797018963968) in *.
  set (r := a mod 36028797018963968) in *.
  change (0 <? 36028797018963968) with true. cbv iota.
  destruct (Z.ltb_spec 36028797018963968 (2 * r)); cbn [orb].
  - lia.
  - destruct (Z.eqb_spec (2 * r) 36028797018963968); cbn [andb].
    + destruct (Z.eqb_spec (q mod 2) 1); lia.
    + lia.
Qed.

Lemma td_mul_0_1_tenth (d : timedelta) :
  Z.abs d ≤ 2 ^ 53 →
  Z.abs (10 * td_mul_0_1 d - d) ≤ 5 ∧ (d mod 10 = 0 → 10 * td_mul_0_1 d = d).
Proof.
  intros Hd. pose proof (td_mul_0_1_nearest d) as Hn.
  change (2 ^ 53) with 9007199254740992 in Hd.
  assert (Habs : Z.abs (10 * td_mul_0_1 d - d) ≤ 5) by lia.
  split; [exact Habs |].
  intros Hmod. apply Z.mod_divide in Hmod; [| lia]. destruct Hmod as [k Hk]. lia.
Qed.

(** Unfolds the monad on the goal, down to the worlds it builds. *)
Ltac py_run :=
  cbv beta iota zeta delta
    [bind try_except lift_result execute send raise ret log_at set_files write_file
     make_dirs read_file import_module now_str utcnow];
  cbn [fst snd w_log w_files w_modules w_now_str w_utcnow w_acquired w_open_conns
       w_open_cursors w_sent w_write_error].

(** Splits on what the file system answers to the next write. *)
Ltac py_disk :=
  match goal with
  | |- context [w_write_error ?w ?p] => destruct (w_write_error w p) eqn:?
  end;
  py_run.

(** Splits on what the database answers, statement by statement. *)
Ltac py_cases :=
  repeat (py_run;
          match goal with
          | |- context [db_fails ?db ?A ?q] => destruct (db_fails db A q)
          | |- context [@eval ?db ?A ?q] => destruct (@eval db A q)
          | |- context [Z.leb ?x ?y] => destruct (Z.leb x y)
          | |- context [match ?b with true => _ | false => _ end] => is_var b; destruct b
          | |- context [match ?o with Some _ => _ | None => _ end] => is_var o; destruct o
          end);
  py_run.

Lemma sent_between_refl w : sent_between w w [].
Proof. unfold sent_between. by rewrite app_nil_r. Qed.

Lemma sent_between_trans w0 w1 w2 l1 l2 :
  sent_between w0 w1 l1 → sent_between w1 w2 l2 → sent_between w0 w2 (l1 ++ l2).
Proof. unfold sent_between. intros H1 H2. by rewrite H2, H1, app_assoc. Qed.

Lemma log_at_sent lvl msg w : w_sent (log_at lvl msg w).2 = w_sent w.
Proof. reflexivity. Qed.

Lemma execute_sent db {A} (q : query A) w :
  sent_between w (execute db q w).2 [Sent q].
Proof.
  unfold sent_between, execute, bind, send, raise, lift_result. simpl.
  destruct (db_fails db A q); reflexivity.
Qed.

Lemma padded_start_same_day (start_time end_time : datetime) :
  dt_date start_time = dt_date end_time →
  padded_start start_time end_time = Ok (market_open start_time).
Proof.
  intros Hday. unfold padded_start. rewrite bool_decide_eq_true_2 by exact Hday.
  unfold dt_replace_time, market_open. f_equal. lia.
Qed.

Lemma padded_start_multi_day (start_time end_time : datetime) :
  dt_date start_time ≠ dt_date end_time →
  padded_start start_time end_time
  = dt_minus start_time (td_mul_0_1 (end_time - start_time)).
Proof.
  intros Hday. unfold padded_start. rewrite bool_decide_eq_false_2 by exact Hday.
  reflexivity.
Qed.

(** The statement [_fetch_chart_data] sends for a known symbol. *)
Lemma fetch_chart_data_sent db symbol symbol_id tf start_time end_time padded w :
  db_symbol_cache db symbol = Some symbol_id →
  symbol_id ≠ 0 →
  padded_start start_time end_time = Ok padded →
  sent_between w (_fetch_chart_data db symbol tf start_time end_time w).2
    [Sent (SelectView "stocks" ("candles_" +:+ pretty tf +:+ "m") symbol_id padded end_time)].
Proof.
  intros Hsym Hnz Hpad. unfold _fetch_chart_data. rewrite Hsym.
  assert (Hgo : ∀ sid, sent_between w
    ((let* padded := lift_result (padded_start start_time end_time) in
      let view_name := "candles_" +:+ pretty tf +:+ "m" in
      log_at INFO ("Using view: stocks." +:+ view_name +:+ " for " +:+ symbol) ;;
      try_except
        (let* rows := execute db (SelectView "stocks" view_name sid padded end_time) in
         let* candles := lift_result (mapM chart_candle_of rows) in
         log_at INFO ("Fetched " +:+ pretty (length candles) +:+ " candles from stocks."
                      +:+ view_name +:+ " for " +:+ symbol) ;;
         ret candles)
        (λ e,
         log_at ERROR ("Error fetching chart data from stocks." +:+ view_name +:+ ": "
                       +:+ exn_str e) ;;
         ret [])) w).2
    [Sent (SelectView "stocks" ("candles_" +:+ pretty tf +:+ "m") sid padded end_time)]).
  { intros sid. rewrite Hpad. unfold sent_between. py_run.
    destruct (db_fails db _ _); py_run; [reflexivity |].
    destruct (eval db _) as [rows | e]; py_run; [| reflexivity].
    destruct (mapM chart_candle_of rows); py_run; reflexivity. }
  destruct symbol_id as [| p | p]; [contradiction | apply Hgo | apply Hgo].
Qed.

(** [_fetch_candles] sends exactly one candle statement, and its lower
    bound is the [start_date] it was given. *)
Lemma fetch_candles_sent self db cursor symbol_id start_date end_date tf w :
  ∃ l, sent_between w (_fetch_candles self db cursor symbol_id start_date end_date tf w).2 l ∧
       omap candle_query_start l = [start_date].
Proof.
  unfold _fetch_candles, sent_between. py_run.
  destruct (matview_map !! tf) as [name |]; py_cases;
    eexists; rewrite <- ?app_assoc; (split; [reflexivity | reflexivity]).
Qed.

(** C3 (amended): a candle fetch of the chart generator ([_fetch_chart_data],
    known symbol) sends one statement whose lower bound is 09:30:00 of the
    start day when start and end fall on the same calendar day, and
    otherwise the start moved back by 10% of the span rounded to a whole
    microsecond (exactly 10% when the span is a multiple of 10
    microseconds); the dashboard's [_fetch_candles] applies neither rule,
    its statement starts at the start date it is given. *)
Theorem start_padding_policy (db : database) (self : LightweightDashboardGenerator)
    (symbol : string) (symbol_id tf : Z) (cursor : nat) (start_time end_time : datetime)
    (w : world) :
  db_symbol_cache db symbol = Some symbol_id →
  symbol_id ≠ 0 →
  start_time ≤ end_time →
  end_time < max_days * us_per_day →
  end_time - start_time ≤ start_time →
  end_time - start_time ≤ 2 ^ 53 →
  (∃ padded,
     sent_between w (_fetch_chart_data db symbol tf start_time end_time w).2
       [Sent (SelectView "stocks" ("candles_" +:+ pretty tf +:+ "m") symbol_id padded end_time)] ∧
     (dt_date start_time = dt_date end_time → padded = market_open start_time) ∧
     (dt_date start_time ≠ dt_date end_time →
        Z.abs (10 * (start_time - padded) - (end_time - start_time)) ≤ 5 ∧
        ((end_time - start_time) mod 10 = 0 →
           10 * (start_time - padded) = end_time - start_time))) ∧
  (∃ l,
     sent_between w (_fetch_candles self db cursor symbol_id start_time end_time tf w).2 l ∧
     omap candle_query_start l = [start_time]).
Proof.
  intros Hsym Hnz Hle Hmax Hspan Hbound. split; [| apply fetch_candles_sent].
  destruct (decide (dt_date start_time = dt_date end_time)) as [Hday | Hday].
  - exists (market_open start_time). split.
    + apply (fetch_chart_data_sent db symbol symbol_id); [exact Hsym | exact Hnz |].
      apply padded_start_same_day, Hday.
    + split; [reflexivity | contradiction].
  - set (pad := td_mul_0_1 (end_time - start_time)).
    assert (Hlt : start_time < end_time).
    { destruct (Z.eq_dec start_time end_time) as [-> |]; [contradiction | lia]. }
    destruct (td_mul_0_1_tenth (end_time - start_time)) as [Habs Hex]; [lia |].
    fold pad in Habs, Hex.
    exists (start_time - pad). split.
    + apply (fetch_chart_data_sent db symbol symbol_id); [exact Hsym | exact Hnz |].
      rewrite padded_start_multi_day by exact Hday. fold pad.
      unfold dt_minus, dt_valid.
      assert (Hv : (0 <=? start_time - pad) && (start_time - pad <? max_days * us_per_day)
                   = true).
      { apply andb_true_intro. split; [apply Z.leb_le | apply Z.ltb_lt]; lia. }
      rewrite Hv. reflexivity.
    + split; [contradiction |]. intros _.
      replace (start_time - (start_time - pad)) with pad by lia.
      split; [exact Habs | exact Hex].
Qed.

Lemma start_padding_policy_witness :
  (∃ padded,
     sent_between sample_world
       (_fetch_chart_data sample_db "AAPL" 5 (at_time 0 10 0) (at_time 10 10 0) sample_world).2
       [Sent (SelectView "stocks" ("candles_" +:+ pretty 5 +:+ "m") 1 padded (at_time 10 10 0))] ∧
     (dt_date (at_time 0 10 0) = dt_date (at_time 10 10 0) →
        padded = market_open (at_time 0 10 0)) ∧
     (dt_date (at_time 0 10 0) ≠ dt_date (at_time 10 10 0) →
        Z.abs (10 * (at_time 0 10 0 - padded) - (at_time 10 10 0 - at_time 0 10 0)) ≤ 5 ∧
        ((at_time 10 10 0 - at_time 0 10 0) mod 10 = 0 →
           10 * (at_time 0 10 0 - padded) = at_time 10 10 0 - at_time 0 10 0))) ∧
  (∃ l,
     sent_between sample_world
       (_fetch_candles (new_generator "stocks" true) sample_db 0 1
          (at_time 0 10 0) (at_time 10 10 0) 5 sample_world).2 l ∧
     omap candle_query_start l = [at_time 0 10 0]).
Proof.
  apply (start_padding_policy sample_db (new_generator "stocks" true) "AAPL" 1 5 0%nat
           (at_time 0 10 0) (at_time 10 10 0) sample_world).
  - reflexivity.
  - discriminate.
  - vm_compute. discriminate.
  - reflexivity.
  - vm_compute. discriminate.
  - vm_compute. discriminate.
Defined.

(** C3 as stated fails on the dashboard path: over a ten-day range the one
    candle statement of [_fetch_candles] starts at the requested start, not
    a day (10% of the span) before it; and on the chart path a span that is
    not a multiple of 10 microseconds is padded by a rounded amount, not by
    exactly 10%. *)
Lemma dashboard_candle_fetch_not_padded :
  dt_date (at_time 0 10 0) ≠ dt_date (at_time 10 10 0) ∧
  omap candle_query_start
    (w_sent (_fetch_candles (new_generator "stocks" true) sample_db 0 1
               (at_time 0 10 0) (at_time 10 10 0) 5 sample_world).2)
  = [at_time 0 10 0] ∧
  at_time 0 10 0 ≠ at_time 0 10 0 - (at_time 10 10 0 - at_time 0 10 0) / 10 ∧
  padded_start (at_time 0 10 0) (at_time 1 10 0 + 15) = Ok (at_time 0 10 0 - 8640000002) ∧
  10 * 8640000002 ≠ at_time 1 10 0 + 15 - at_time 0 10 0.
Proof.
  split; [vm_compute; discriminate |].
  split; [vm_compute; reflexivity |].
  split; [vm_compute; discriminate |].
  split; [vm_compute; reflexivity | vm_compute; discriminate].
Qed.

(** ** Ordering and aggregates *)

#[global] Instance row_time_asc_total : Total row_time_asc.
Proof. intros a b. unfold row_time_asc. lia. Qed.
#[global] Instance row_time_asc_trans : Transitive row_time_asc.
Proof. intros a b c. unfold row_time_asc. lia. Qed.
#[global] Instance row_time_desc_total : Total row_time_desc.
Proof. intros a b. unfold row_time_desc. lia. Qed.
#[global] Instance row_time_desc_trans : Transitive row_time_desc.
Proof. intros a b c. unfold row_time_desc. lia. Qed.
#[global] Instance by_time_asc_total : Total by_time_asc.
Proof. intros a b. unfold by_time_asc. lia. Qed.

Section sorted_head.
Context {A : Type} (R : relation A) `{!RelDecision R} `{!Transitive R} `{!Total R}.

End sorted_head.











Lemma float_or_zero_default (x : option Q) : (float_or_zero x == default 0 x)%Q.
Proof.
  destruct x as [q |]; simpl; [| reflexivity].
  destruct (Qeq_dec q 0) as [Hz | Hz]; [symmetry; exact Hz | reflexivity].
Qed.

(** [SUM] with NULL read as zero is the plain sum. *)
Lemma sql_sum_default (l : list (option Q)) :
  (default 0 (sql_sum l) == Qsum (default 0%Q <$> l))%Q.
Proof.
  induction l as [| x l IH]; [reflexivity |].
  cbn [sql_sum fmap list_fmap Qsum foldr]. fold (Qsum (default 0%Q <$> l)).
  destruct x as [v |], (sql_sum l) as [s |]; cbn [default] in *.
  - rewrite IH. reflexivity.
  - rewrite <- IH. ring.
  - rewrite <- IH. ring.
  - rewrite <- IH. ring.
Qed.

(** ** [GROUP BY] *)

Lemma distinct_elem_of {K} (eqb : K → K → bool) (l : list K) (k : K) :
  k ∈ distinct eqb l → k ∈ l.
Proof.
  induction l as [| k0 ks IH]; simpl; [auto |].
  intros Hk. apply elem_of_cons in Hk as [-> | Hk]; [apply list_elem_of_here |].
  apply list_elem_of_filter in Hk as [_ Hk]. apply list_elem_of_further, IH, Hk.
Qed.

Section distinct_eq.
Context {K : Type} (eqb : K → K → bool).
Hypothesis eqb_eq : ∀ a b, eqb a b = true ↔ a = b.


End distinct_eq.

Lemma group_by_keys {A K} (eqb : K → K → bool) (key : A → K) (l : list A) :
  fst <$> sql_group_by eqb key l = distinct eqb (key <$> l).
Proof.
  unfold sql_group_by. rewrite <- list_fmap_compose.
  induction (distinct eqb (key <$> l)) as [| k ks IH]; [reflexivity |].
  cbn. f_equal. exact IH.
Qed.

Lemma group_by_members {A K} (eqb : K → K → bool) (key : A → K) (l : list A)
    (g : K * list A) :
  g ∈ sql_group_by eqb key l → g.2 = filter (λ x, eqb (key x) g.1) l.
Proof.
  unfold sql_group_by. intros Hg. apply list_elem_of_fmap in Hg as (k & -> & _). reflexivity.
Qed.




(** ** The candle fetch of the dashboard *)













(** The three sources on the sample data: the 5-minute view for stocks, the
    stride over the minute table where the schema has no view, and
    30-minute buckets. *)
Example fetch_candles_view_example :
  (_fetch_candles (new_generator "stocks" true) sample_db 0 1
     (at_time 0 9 0) (at_time 0 11 0) 5 sample_world).1
  = Ok [DashCandle 1713780000 100 105 99 104 500;
        DashCandle 1713780300 104 106 103 (211 # 2) 300].
Proof. vm_compute. reflexivity. Qed.

Example fetch_candles_stride_example :
  (_fetch_candles (new_generator "crypto" true) sample_db 0 1
     (at_time 0 9 0) (at_time 0 11 0) 5 sample_world).1
  = Ok [DashCandle 1713780000 100 102 99 101 500;
        DashCandle 1713780300 104 106 103 (211 # 2) 300].
Proof. vm_compute. reflexivity. Qed.

Example fetch_candles_bucket_example :
  (_fetch_candles (new_generator "stocks" true) sample_db 0 1
     (at_time 0 9 0) (at_time 0 11 0) 30 sample_world).1
  = Ok [DashCandle 1713778200 98 (201 # 2) 97 100 50;
        DashCandle 1713780000 100 106 99 (211 # 2) 800;
        DashCandle 1713781800 105 107 104 106 250].
Proof. vm_compute. reflexivity. Qed.

(** ** Zones *)

#[global] Instance zone_order_total : Total zone_order.
Proof.
  intros a b. unfold zone_order.
  destruct (Q_dec (zt_zone_score a) (zt_zone_score b)) as [[Hlt | Hgt] | Heq].
  - right. left. exact Hlt.
  - left. left. exact Hgt.
  - destruct (Z.le_ge_cases (zt_start_time a) (zt_start_time b)).
    + right. right. split; [symmetry; exact Heq | assumption].
    + left. right. split; [exact Heq | lia].
Qed.

#[global] Instance zone_order_trans : Transitive zone_order.
Proof.
  intros a b c. unfold zone_order.
  intros [H1 | [H1 H1']] [H2 | [H2 H2']].
  - left. lra.
  - left. lra.
  - left. lra.
  - right. split; [lra | lia].
Qed.

(** [LIMIT n] keeps an ordered list ordered. *)
Lemma StronglySorted_limit {A} (R : relation A) (n : nat) (l : list A) :
  StronglySorted R l → StronglySorted R (take n l).
Proof.
  intros Hl. revert n. induction Hl as [| x l Hl IH Hx]; intros [| n]; simpl.
  - constructor.
  - constructor.
  - constructor.
  - constructor; [apply IH | apply Forall_take, Hx].
Qed.

Lemma select_zones_ranked (rows : list zone_row) (symbol_id timeframe_id : Z) :
  StronglySorted zone_order (sql_select_zones rows symbol_id timeframe_id) ∧
  (length (sql_select_zones rows symbol_id timeframe_id) ≤ 30)%nat.
Proof.
  unfold sql_select_zones, sql_order_by. split.
  - apply StronglySorted_limit, StronglySorted_merge_sort; apply _.
  - rewrite length_take. lia.
Qed.

(** C5: the zone fetch always returns a list, ordered by score descending
    with ties broken by start time descending, of at most 30 zones. *)
Theorem fetch_zones_ranked (self : LightweightDashboardGenerator) (db : database)
    (cursor : nat) (symbol_id : Z) (timeframe : string) (w : world) :
  ∃ zones w',
    _fetch_zones self db cursor symbol_id timeframe w = (Ok zones, w') ∧
    StronglySorted zone_before zones ∧
    (length zones ≤ 30)%nat.
Proof.
  assert (Hnil : StronglySorted zone_before [] ∧ (length (@nil dash_zone) ≤ 30)%nat).
  { split; [constructor | simpl; lia]. }
  unfold _fetch_zones. py_run.
  destruct (db_fails db _ (SelectTimeframeId timeframe)); py_run.
  { eexists _, _. split; [reflexivity | exact Hnil]. }
  cbn [eval]. py_run.
  destruct (lookup_id timeframe (db_timeframes db)) as [timeframe_id |]; py_run.
  2: { eexists _, _. split; [reflexivity | exact Hnil]. }
  destruct (db_fails db _ (SelectZones _ _ _)); py_run.
  { eexists _, _. split; [reflexivity | exact Hnil]. }
  cbn [eval]. py_run.
  eexists _, _. split; [reflexivity |].
  destruct (select_zones_ranked (db_zones db (schema self)) symbol_id timeframe_id)
    as [Hsorted Hlen].
  split.
  - apply (StronglySorted_fmap (zone_data timeframe) zone_order zone_before); [| exact Hsorted].
    intros a b Hab. exact Hab.
  - rewrite length_fmap. exact Hlen.
Qed.

Example fetch_zones_example :
  (λ z, (dz_zone_id z, dz_zone_score z, dz_start_time z)) <$>
    match (_fetch_zones (new_generator "stocks" true) sample_db 0 1 "5min" sample_world).1 with
    | Ok zones => zones
    | Raise _ => []
    end
  = [(12, 9%Q, 1713607200); (13, 7 # 2, 1713693600); (11, 7 # 2, 1713520800);
     (14, 0%Q, 1713434400)].
Proof. vm_compute. reflexivity. Qed.

(** ** Volume profile *)

(** C6 fails on a price level without recorded volume: [SUM] is NULL
    there, [ORDER BY total_volume DESC] puts NULL first, and the shaping
    turns it into 0.0 ahead of the larger volumes. *)
Theorem fetch_volume_profile_null_volume_first :
  (_fetch_volume_profile (new_generator "stocks" true) sample_db 0 1
     (at_time (-1) 0 0) (at_time 0 0 0) sample_world).1
  = Ok [DashNode 10 0 true false; DashNode 20 12 false true; DashNode 30 2 false false] ∧
  ¬ Sorted volume_desc
      [DashNode 10 0 true false; DashNode 20 12 false true; DashNode 30 2 false false].
Proof.
  split; [vm_compute; reflexivity |].
  intros Hsorted. inversion Hsorted as [| ? ? _ Hhd]. inversion Hhd as [| ? ? Hle].
  unfold volume_desc in Hle. cbn in Hle. lra.
Qed.

(** ** Thumbnails *)

(** C9 fails where the rasteriser is installed: the path of a PNG is
    returned and logged as generated, and no file has been written. *)
Theorem png_thumbnail_writes_no_file :
  (_generate_png_thumbnail "data/temp/alert_charts/AAPL_demand_30min_20240422_103000.html"
     sample_world).1
  = Ok (Some "data/temp/alert_charts/AAPL_demand_30min_20240422_103000.png") ∧
  "kaleido.scopes.plotly" ∈ w_modules sample_world ∧
  "data/temp/alert_charts/AAPL_demand_30min_20240422_103000.png"
    ∉ w_files (_generate_png_thumbnail
                 "data/temp/alert_charts/AAPL_demand_30min_20240422_103000.html"
                 sample_world).2.
Proof.
  split; [vm_compute; reflexivity |]. split.
  - apply (bool_decide_unpack _). vm_compute. exact I.
  - intros Hin. apply (bool_decide_pack _) in Hin. vm_compute in Hin. exact Hin.
Qed.

(** X5: [_generate_png_thumbnail] never writes: the file system is as
    before. *)
Lemma png_thumbnail_files_unchanged (html_path : string) (w : world) :
  w_files (_generate_png_thumbnail html_path w).2 = w_files w.
Proof.
  unfold _generate_png_thumbnail. py_run.
  destruct (decide ("plotly.io" ∈ w_modules w)); py_run; [| reflexivity].
  destruct (decide ("kaleido.scopes.plotly" ∈ w_modules w)); py_run; [| reflexivity].
  destruct (decide (html_path ∈ w_files w)); py_run; reflexivity.
Qed.

(** X4: without the rasteriser the thumbnail is [None], the failure is
    logged and nothing is raised. *)
Lemma png_thumbnail_best_effort (html_path : string) (w : world) :
  "kaleido.scopes.plotly" ∉ w_modules w →
  ∃ w', _generate_png_thumbnail html_path w = (Ok None, w') ∧ logged ERROR w w'.
Proof.
  intros Hmissing. unfold _generate_png_thumbnail, logged. py_run.
  destruct (decide ("plotly.io" ∈ w_modules w)); py_run.
  - destruct (decide ("kaleido.scopes.plotly" ∈ w_modules w)); [contradiction |]. py_run.
    eexists. split; [reflexivity |]. cbn [w_log].
    eexists [], _, _. rewrite <- app_assoc. reflexivity.
  - eexists. split; [reflexivity |]. cbn [w_log].
    eexists [], _, _. rewrite <- app_assoc. reflexivity.
Qed.

(** ** Unknown symbols and timeframe labels *)

Lemma fetch_chart_data_unknown_symbol db symbol tf start_time end_time w :
  db_symbol_cache db symbol = None →
  _fetch_chart_data db symbol tf start_time end_time w
  = (Ok [], (log_at WARNING ("Symbol " +:+ symbol +:+ " not found in database") w).2).
Proof. intros Hsym. unfold _fetch_chart_data. rewrite Hsym. reflexivity. Qed.

(** C7: a request naming an unknown symbol gets an empty candle list from
    [_fetch_chart_data] and "no chart" for both outputs from
    [generate_zone_alert_chart]; a request naming an unknown timeframe
    label gets an empty zone list from [_fetch_zones]; each logs a warning
    and none raises. *)
Theorem not_found_is_empty (get_chart_timeframe_for_zone : Z → Z * string)
    (chart : ChartGenerator) (self : LightweightDashboardGenerator) (db : database)
    (symbol zone_type timeframe : string) (zone_top zone_bottom current_price : Q)
    (tf zone_timeframe_minutes symbol_id : Z) (cursor : nat)
    (start_time end_time : datetime) (w : world) :
  db_symbol_cache db symbol = None →
  lookup_id timeframe (db_timeframes db) = None →
  db_fails db _ (SelectTimeframeId timeframe) = false →
  (∃ w', _fetch_chart_data db symbol tf start_time end_time w = (Ok [], w') ∧
         logged WARNING w w') ∧
  (∃ w', generate_zone_alert_chart get_chart_timeframe_for_zone chart db symbol zone_type
           zone_top zone_bottom zone_timeframe_minutes start_time current_price end_time w
         = (Ok (None, None), w') ∧
         logged WARNING w w') ∧
  (∃ w', _fetch_zones self db cursor symbol_id timeframe w = (Ok [], w') ∧
         logged WARNING w w').
Proof.
  intros Hsym Hlabel Hok. split; [| split].
  - rewrite fetch_chart_data_unknown_symbol by exact Hsym.
    eexists. split; [reflexivity |]. unfold logged. py_run.
    eexists [], _, []. reflexivity.
  - unfold generate_zone_alert_chart. cbv beta iota zeta delta [bind].
    cbn [log_at fst snd].
    rewrite fetch_chart_data_unknown_symbol by exact Hsym. py_run.
    eexists. split; [reflexivity |]. unfold logged. cbn [w_log].
    eexists [_], _, [_]. rewrite <- !app_assoc. reflexivity.
  - unfold _fetch_zones. py_run. rewrite Hok. py_run. cbn [eval]. rewrite Hlabel. py_run.
    eexists. split; [reflexivity |]. unfold logged. cbn [w_log].
    eexists [], _, []. reflexivity.
Qed.

Lemma not_found_is_empty_witness :
  (∃ w', _fetch_chart_data sample_db "ZZZZ" 5 (at_time 0 10 0) (at_time 0 14 30) sample_world
         = (Ok [], w') ∧
         logged WARNING sample_world w') ∧
  (∃ w', generate_zone_alert_chart (λ _, (5, "5min"))
           {| output_dir := "data/temp/alert_charts" |} sample_db "ZZZZ" "demand"
           (301 # 2) 149 30 (at_time 0 10 0) (597 # 4) (at_time 0 14 30) sample_world
         = (Ok (None, None), w') ∧
         logged WARNING sample_world w') ∧
  (∃ w', _fetch_zones (new_generator "stocks" true) sample_db 0 1 "7min" sample_world
         = (Ok [], w') ∧
         logged WARNING sample_world w').
Proof.
  apply (not_found_is_empty (λ _, (5, "5min")) {| output_dir := "data/temp/alert_charts" |}
           (new_generator "stocks" true) sample_db "ZZZZ" "demand" "7min"
           (301 # 2) 149 (597 # 4) 5 30 1 0%nat (at_time 0 10 0) (at_time 0 14 30)
           sample_world).
  - reflexivity.
  - reflexivity.
  - reflexivity.
Defined.

(** ** The dashboard fetch *)

Ltac fr_run :=
  cbv beta iota zeta delta
    [bind try_except lift_result raise ret lift run_frame the_cursor get_frame set_conn
     set_cursor set_bucket if_conn if_cursor log_at conn_rollback conn_cursor cursor_close
     conn_close set_conns get_connection utcnow];
  cbn [fst snd fr_conn fr_cursor fr_timeframes w_log w_files w_modules w_now_str w_utcnow
       w_acquired w_open_conns w_open_cursors w_sent].

Section dashboard_loop.
Context (methods : fetch_methods) (self : LightweightDashboardGenerator) (db : database)
        (symbol : string) (lookback_days symbol_id : Z) (end_date : datetime).

Local Abbreviation step := (fetch_timeframe methods self db symbol lookback_days symbol_id end_date).
Local Abbreviation body := (timeframe_bucket methods self lookback_days symbol_id end_date).



End dashboard_loop.


(** The three fetch methods of the class never raise. *)
Lemma fetch_candles_total self db cursor symbol_id start_date end_date tf w :
  ∃ candles w',
    _fetch_candles self db cursor symbol_id start_date end_date tf w = (Ok candles, w').
Proof.
  unfold _fetch_candles. py_run.
  destruct (matview_map !! tf) as [name |]; py_cases; eauto.
Qed.

Lemma fetch_zones_total self db cursor symbol_id timeframe w :
  ∃ zones w', _fetch_zones self db cursor symbol_id timeframe w = (Ok zones, w').
Proof.
  unfold _fetch_zones. py_run.
  destruct (db_fails db _ (SelectTimeframeId timeframe)); py_run; [eauto |].
  cbn [eval]. py_run.
  destruct (lookup_id timeframe (db_timeframes db)) as [timeframe_id |]; py_run; [| eauto].
  destruct (db_fails db _ (SelectZones _ _ _)); py_run; [eauto |].
  cbn [eval]. py_run. eauto.
Qed.

Lemma fetch_volume_profile_total self db cursor symbol_id start_date end_date w :
  ∃ nodes w',
    _fetch_volume_profile self db cursor symbol_id start_date end_date w = (Ok nodes, w').
Proof.
  unfold _fetch_volume_profile.
  destruct (decide (schema self = "stocks")); py_cases; eauto.
Qed.

(** The [try] block of a round returns when the start date is in range and
    the three methods return. *)
Lemma timeframe_bucket_returns methods self lookback_days symbol_id end_date cursor tf w
    delta start_date :
  td_days (default lookback_days (lookback_days_map self !! tf.1)) = Ok delta →
  dt_minus end_date delta = Ok start_date →
  (∀ w, ∃ v w', m_fetch_candles methods cursor symbol_id start_date end_date tf.2 w
                = (Ok v, w')) →
  (∀ w, ∃ v w', m_fetch_zones methods cursor symbol_id tf.1 w = (Ok v, w')) →
  (∀ w, ∃ v w', m_fetch_volume_profile methods cursor symbol_id start_date end_date w
                = (Ok v, w')) →
  ∃ b w', timeframe_bucket methods self lookback_days symbol_id end_date cursor tf w
          = (Ok b, w').
Proof.
  intros Hdelta Hstart Hc Hz Hv. destruct tf as [tf_name tf_minutes]. cbn [fst snd] in *.
  unfold timeframe_bucket. rewrite Hdelta. py_run. rewrite Hstart. py_run.
  destruct (Hc w) as (c & w1 & ->). destruct (Hz w1) as (z & w2 & ->).
  destruct (Hv w2) as (v & w3 & ->). eauto.
Qed.

Lemma start_date_ok_inv self lookback_days end_date tf_name :
  start_date_ok self lookback_days end_date tf_name = true →
  ∃ delta start_date,
    td_days (default lookback_days (lookback_days_map self !! tf_name)) = Ok delta ∧
    dt_minus end_date delta = Ok start_date.
Proof.
  unfold start_date_ok. intros H.
  destruct (td_days _) as [delta |]; [| discriminate].
  destruct (dt_minus end_date delta) as [start_date |] eqn:Hstart; [| discriminate].
  exists delta, start_date. split; [reflexivity | exact Hstart].
Qed.

Lemma failing_methods_raise_5min (self : LightweightDashboardGenerator) (db : database)
    (lookback_days symbol_id : Z) (end_date : datetime) :
  start_date_ok self lookback_days end_date "5min" = true →
  always_raises (failing_methods self db) self lookback_days symbol_id end_date ("5min", 5).
Proof.
  intros Hok cursor w. apply start_date_ok_inv in Hok as (delta & start_date & Hdelta & Hstart).
  unfold timeframe_bucket. rewrite Hdelta. py_run.
  rewrite Hstart. py_run. cbn. eauto.
Qed.

Lemma failing_methods_return_others (self : LightweightDashboardGenerator) (db : database)
    (lookback_days symbol_id : Z) (end_date : datetime) (tf : string * Z) :
  tf.2 ≠ 5 →
  start_date_ok self lookback_days end_date tf.1 = true →
  always_returns (failing_methods self db) self lookback_days symbol_id end_date tf.
Proof.
  intros Hne Hok cursor w.
  apply start_date_ok_inv in Hok as (delta & start_date & Hdelta & Hstart).
  apply (timeframe_bucket_returns _ _ _ _ _ _ _ _ delta start_date Hdelta Hstart).
  - intros w0. cbn [m_fetch_candles failing_methods].
    destruct (Z.eqb_spec tf.2 5) as [Heq | _]; [contradiction |].
    apply fetch_candles_total.
  - intros w0. apply fetch_zones_total.
  - intros w0. apply fetch_volume_profile_total.
Qed.

(** The test double gives the scenario of the specification: its 5-minute
    fetch never populates a bucket, and no other timeframe whose start date
    is in range throws. *)
Lemma failing_methods_never_populate (self : LightweightDashboardGenerator) (db : database)
    (lookback_days symbol_id : Z) (end_date : datetime) (b : bucket) :
  ¬ populated (failing_methods self db) self lookback_days symbol_id end_date ("5min", 5) b.
Proof.
  intros (cursor & w & start_date & _ & w1 & w2 & w3 & Hcandles & _).
  cbn in Hcandles. discriminate Hcandles.
Qed.

Lemma failing_methods_others_never_throw (self : LightweightDashboardGenerator)
    (db : database) (lookback_days symbol_id : Z) (end_date : datetime) (tf : string * Z) :
  tf.2 ≠ 5 →
  start_date_ok self lookback_days end_date tf.1 = true →
  ¬ threw (failing_methods self db) self lookback_days symbol_id end_date tf.
Proof.
  intros Hne Hok [[e He] | (cursor & w & start_date & _ & Hthrow)].
  - apply start_date_ok_inv in Hok as (delta & first & Hdelta & Hstart).
    unfold window_start in He. rewrite Hdelta, Hstart in He. discriminate He.
  - destruct Hthrow as [(e & w1 & Hc) | [(c & w1 & e & w2 & _ & Hz)
                                        | (c & w1 & z & w2 & e & w3 & _ & _ & Hv)]].
    + cbn [m_fetch_candles failing_methods] in Hc.
      destruct (Z.eqb_spec tf.2 5) as [Heq | _]; [contradiction |].
      destruct (fetch_candles_total self db cursor symbol_id start_date end_date tf.2 w)
        as (candles & w' & Hrun).
      rewrite Hrun in Hc. discriminate Hc.
    + cbn [m_fetch_zones failing_methods] in Hz.
      destruct (fetch_zones_total self db cursor symbol_id tf.1 w1) as (zones & w' & Hrun).
      rewrite Hrun in Hz. discriminate Hz.
    + cbn [m_fetch_volume_profile failing_methods] in Hv.
      destruct (fetch_volume_profile_total self db cursor symbol_id start_date end_date w2)
        as (nodes & w' & Hrun).
      rewrite Hrun in Hv. discriminate Hv.
Qed.

Example one_failing_timeframe_scenario :
  (∀ b, ¬ populated (failing_methods (new_generator "stocks" true) sample_db)
            (new_generator "stocks" true) 30 1 (w_utcnow sample_world) ("5min", 5) b) ∧
  (∀ tf, tf ∈ timeframes (new_generator "stocks" true) → tf ≠ ("5min", 5) →
     ¬ threw (failing_methods (new_generator "stocks" true) sample_db)
         (new_generator "stocks" true) 30 1 (w_utcnow sample_world) tf).
Proof.
  split; [intros b; apply failing_methods_never_populate |].
  intros tf Hin Hne.
  repeat (apply elem_of_cons in Hin as [-> | Hin]);
    try (apply elem_of_nil in Hin; contradiction);
    try (contradiction Hne; reflexivity);
    (apply failing_methods_others_never_throw; [cbn; discriminate | vm_compute; reflexivity]).
Qed.


(** The run of the witness: the 5-minute bucket, whose candle fetch
    throws, is the empty placeholder, and the 2-minute bucket holds the two
    stride candles and the three volume nodes that were fetched. *)
Example one_failing_timeframe_example :
  match (_fetch_dashboard_data (failing_methods (new_generator "stocks" true) sample_db)
           (new_generator "stocks" true) sample_db "AAPL" 30 sample_world).1 with
  | Ok (Some data) =>
      (dd_timeframes data !! "5min",
       (λ b, (dc_time <$> b_candles b, length (b_zones b), dn_price <$> b_volume_profile b))
         <$> dd_timeframes data !! "2min")
  | _ => (None, None)
  end
  = (Some empty_bucket, Some ([1713779880; 1713780000], 0%nat, [10%Q; 20%Q; 30%Q])).
Proof. vm_compute. reflexivity. Qed.

(** C8 fails on the per-timeframe failure path: the handler rolls back and
    closes the cursor of the failed connection, takes a new connection, and
    never closes the old one.  After a run in which the 5-minute fetch
    throws, two connections were acquired and the first is still open. *)
Theorem failed_timeframe_leaks_connection :
  match (_fetch_dashboard_data (failing_methods (new_generator "stocks" true) sample_db)
           (new_generator "stocks" true) sample_db "AAPL" 30 sample_world).1 with
  | Ok (Some data) => size (dd_timeframes data) = 18%nat
  | _ => False
  end ∧
  w_acquired (_fetch_dashboard_data (failing_methods (new_generator "stocks" true) sample_db)
                (new_generator "stocks" true) sample_db "AAPL" 30 sample_world).2 = 2%nat ∧
  elements (w_open_conns
              (_fetch_dashboard_data (failing_methods (new_generator "stocks" true) sample_db)
                 (new_generator "stocks" true) sample_db "AAPL" 30 sample_world).2) = [0%nat] ∧
  elements (w_open_cursors
              (_fetch_dashboard_data (failing_methods (new_generator "stocks" true) sample_db)
                 (new_generator "stocks" true) sample_db "AAPL" 30 sample_world).2) = [].
Proof.
  split; [vm_compute; reflexivity |].
  split; [vm_compute; reflexivity |].
  split; vm_compute; reflexivity.
Qed.

(** ** Connections on the other exit paths *)

Lemma same_connections_refl w : same_connections w w.
Proof. repeat split. Qed.

Lemma same_connections_trans w0 w1 w2 :
  same_connections w0 w1 → same_connections w1 w2 → same_connections w0 w2.
Proof. unfold same_connections. intros (-> & -> & ->) (-> & -> & ->). repeat split. Qed.

(** The class's own fetch methods leave the connections alone. *)
Lemma fetch_candles_connections self db cursor symbol_id start_date end_date tf w :
  same_connections w (_fetch_candles self db cursor symbol_id start_date end_date tf w).2.
Proof.
  unfold _fetch_candles, same_connections. py_run.
  destruct (matview_map !! tf) as [name |]; py_cases; repeat split.
Qed.

Lemma fetch_zones_connections self db cursor symbol_id timeframe w :
  same_connections w (_fetch_zones self db cursor symbol_id timeframe w).2.
Proof.
  unfold _fetch_zones, same_connections. py_cases; repeat split.
Qed.

Lemma fetch_volume_profile_connections self db cursor symbol_id start_date end_date w :
  same_connections w (_fetch_volume_profile self db cursor symbol_id start_date end_date w).2.
Proof.
  unfold _fetch_volume_profile, same_connections.
  destruct (decide (schema self = "stocks")); py_cases; repeat split.
Qed.

Lemma remove_fresh (n : nat) (s : gset nat) : n ∉ s → ({[n]} ∪ s) ∖ {[n]} = s.
Proof.
  intros Hn. apply set_eq. intros x.
  rewrite elem_of_difference, elem_of_union, elem_of_singleton.
  split; [intros [[-> | Hx] Hne]; [contradiction | exact Hx] |].
  intros Hx. split; [right; exact Hx | intros ->; contradiction].
Qed.

Lemma remove_absent (n : nat) (s : gset nat) : n ∉ s → s ∖ {[n]} = s.
Proof.
  intros Hn. apply set_eq. intros x. rewrite elem_of_difference, elem_of_singleton.
  split; [intros [Hx _]; exact Hx |]. intros Hx. split; [exact Hx | intros ->; contradiction].
Qed.

Lemma timeframe_bucket_own self db lookback_days symbol_id end_date cursor tf w :
  start_date_ok self lookback_days end_date tf.1 = true →
  ∃ b w', timeframe_bucket (own_methods self db) self lookback_days symbol_id end_date
            cursor tf w = (Ok b, w') ∧
          same_connections w w'.
Proof.
  intros Hok. apply start_date_ok_inv in Hok as (delta & start_date & Hdelta & Hstart).
  destruct tf as [tf_name tf_minutes]. cbn [fst snd] in *.
  unfold timeframe_bucket. rewrite Hdelta. py_run. rewrite Hstart. py_run.
  cbn [m_fetch_candles m_fetch_zones m_fetch_volume_profile own_methods].
  pose proof (fetch_candles_connections self db cursor symbol_id start_date end_date
                tf_minutes w) as Hc.
  destruct (fetch_candles_total self db cursor symbol_id start_date end_date tf_minutes w)
    as (c & w1 & Hrun1).
  rewrite Hrun1 in Hc |- *. cbn [snd] in Hc.
  pose proof (fetch_zones_connections self db cursor symbol_id tf_name w1) as Hz.
  destruct (fetch_zones_total self db cursor symbol_id tf_name w1) as (z & w2 & Hrun2).
  rewrite Hrun2 in Hz |- *. cbn [snd] in Hz.
  pose proof (fetch_volume_profile_connections self db cursor symbol_id start_date end_date
                w2) as Hv.
  destruct (fetch_volume_profile_total self db cursor symbol_id start_date end_date w2)
    as (v & w3 & Hrun3).
  rewrite Hrun3 in Hv |- *. cbn [snd] in Hv.
  eexists _, _. split; [reflexivity |].
  eauto using same_connections_trans.
Qed.

Lemma for_each_timeframes_own self db symbol lookback_days symbol_id end_date
    (l : list (string * Z)) :
  (∀ tf, tf ∈ l → start_date_ok self lookback_days end_date tf.1 = true) →
  ∀ fr w, is_Some (fr_cursor fr) →
  ∃ out w',
    for_each l (fetch_timeframe (own_methods self db) self db symbol lookback_days
                  symbol_id end_date) (fr, w)
    = (Ok tt, (Frame (fr_conn fr) (fr_cursor fr) out, w')) ∧
    same_connections w w'.
Proof.
  induction l as [| tf l IH]; intros Hok fr w Hcur.
  - exists (fr_timeframes fr), w. cbn [for_each]. destruct fr.
    split; [reflexivity | apply same_connections_refl].
  - destruct Hcur as [c Hc]. destruct fr as [conn cursor out]. cbn in Hc. subst cursor.
    cbn [for_each]. unfold bind at 1. unfold fetch_timeframe at 1. fr_run.
    match goal with
    | |- context [timeframe_bucket ?m self lookback_days symbol_id end_date c tf ?w1] =>
        destruct (timeframe_bucket_own self db lookback_days symbol_id end_date c tf w1)
          as (b & w2 & Hrun & Hsame);
        [apply Hok, list_elem_of_here | rewrite Hrun]
    end.
    fr_run.
    destruct (IH (λ tf' Htf', Hok tf' (list_elem_of_further _ _ _ Htf'))
                 (Frame conn (Some c) (<[tf.1 := b]> out)) w2 ltac:(eexists; reflexivity))
      as (out' & w' & Hloop & Hsame').
    cbn [fr_conn fr_cursor] in Hloop. rewrite Hloop.
    exists out', w'. split; [reflexivity |].
    eapply same_connections_trans; [| exact Hsame'].
    destruct Hsame as (Ha & Hc' & Hcu). repeat split; assumption.
Qed.

(** X3: on the exit paths other than a failed timeframe (the symbol is not
    found, the run succeeds, the connection or the symbol lookup fails),
    the connection and the cursor the call acquired are closed when it
    returns. *)
Theorem dashboard_fetch_releases_connection (self : LightweightDashboardGenerator)
    (db : database) (symbol : string) (lookback_days : Z) (w : world) :
  w_acquired w ∉ w_open_conns w →
  w_acquired w ∉ w_open_cursors w →
  (∀ tf, tf ∈ timeframes self →
     start_date_ok self lookback_days (w_utcnow w) tf.1 = true) →
  w_open_conns (_fetch_dashboard_data (own_methods self db) self db symbol lookback_days w).2
  = w_open_conns w ∧
  w_open_cursors (_fetch_dashboard_data (own_methods self db) self db symbol lookback_days w).2
  = w_open_cursors w.
Proof.
  intros Hconn Hcur Hok.
  unfold _fetch_dashboard_data, fetch_dashboard_body. fr_run.
  destruct (db_connect_fails db (w_acquired w)); fr_run; [split; reflexivity |].
  unfold execute, send. fr_run.
  destruct (db_fails db _ (SelectSymbolId (schema self) symbol)); fr_run.
  { split; [apply remove_fresh, Hconn |].
    rewrite remove_fresh by exact Hcur. reflexivity. }
  cbn [eval]. destruct (lookup_id symbol (db_symbols db (schema self))) as [symbol_id |]; fr_run.
  2: { split; [apply remove_fresh, Hconn | apply remove_fresh, Hcur]. }
  match goal with
  | |- context [for_each (timeframes self) ?f (?fr0, ?w0)] =>
      destruct (for_each_timeframes_own self db symbol lookback_days symbol_id (w_utcnow w)
                  (timeframes self) Hok fr0 w0 ltac:(eexists; reflexivity))
        as (out & w' & Hloop & (_ & Hc' & Hcu'));
      cbn [fr_conn fr_cursor] in Hloop; rewrite Hloop
  end.
  fr_run. cbn [w_open_conns w_open_cursors] in Hc', Hcu'. rewrite Hc', Hcu'.
  split; [apply remove_fresh, Hconn | apply remove_fresh, Hcur].
Qed.

(** ** Volume profile: what does hold *)

Lemma filter_length_fmap {A B} (f : A → B) (P : B → Prop) `{!∀ y, Decision (P y)}
    (l : list A) :
  length (filter P (f <$> l)) = length (filter (λ x, P (f x)) l).
Proof.
  induction l as [| x l IH]; [reflexivity |].
  cbn [fmap list_fmap]. rewrite !filter_cons.
  destruct (decide (P (f x))); cbn [length]; rewrite IH; reflexivity.
Qed.

Lemma filter_length_take {A} (P : A → Prop) `{!∀ x, Decision (P x)} (n : nat) (l : list A) :
  (length (filter P (take n l)) ≤ length (filter P l))%nat.
Proof.
  revert n. induction l as [| x l IH]; intros [| n]; cbn [take].
  - lia.
  - lia.
  - cbn [filter list_filter length]. lia.
  - rewrite !filter_cons. specialize (IH n).
    destruct (decide (P x)); cbn [length]; lia.
Qed.

Lemma filter_length_filter {A} (P Q : A → Prop) `{!∀ x, Decision (P x)}
    `{!∀ x, Decision (Q x)} (l : list A) :
  (length (filter P (filter Q l)) ≤ length (filter P l))%nat.
Proof.
  induction l as [| x l IH]; [cbn; lia |].
  rewrite (filter_cons Q). destruct (decide (Q x)).
  - rewrite !filter_cons. destruct (decide (P x)); cbn [length]; lia.
  - rewrite filter_cons. destruct (decide (P x)); cbn [length]; lia.
Qed.

Lemma Qeq_bool_true (a b : Q) : Qeq_bool a b ↔ (a == b)%Q.
Proof. rewrite Is_true_true. apply Qeq_bool_iff. Qed.

(** Each key of a [GROUP BY] on price appears once. *)
Lemma distinct_price_count (p : Q) (l : list Q) :
  (length (filter (λ k, (k == p)%Q) (distinct Qeq_bool l)) ≤ 1)%nat.
Proof.
  induction l as [| k ks IH]; [cbn; lia |].
  cbn [distinct]. rewrite filter_cons.
  destruct (decide (k == p)%Q) as [Hk | Hk]; cbn [length].
  - assert (Hnone : filter (λ k0, (k0 == p)%Q)
                      (filter (λ k', negb (Qeq_bool k k')) (distinct Qeq_bool ks)) = []).
    { destruct (filter _ (filter _ _)) as [| k' rest] eqn:Hf; [reflexivity |].
      assert (Hin : k' ∈ k' :: rest) by apply list_elem_of_here.
      rewrite <- Hf in Hin. apply list_elem_of_filter in Hin as [Hk' Hin].
      apply list_elem_of_filter in Hin as [Hne _].
      apply negb_prop_elim in Hne. contradiction Hne.
      apply Qeq_bool_true. rewrite Hk, Hk'. reflexivity. }
    rewrite Hnone. cbn. lia.
  - etransitivity; [apply filter_length_filter | exact IH].
Qed.

(** Filtering on the range and then on the price is filtering on both. *)
Lemma level_members (rows : list vp_row) sid ps pe (k : Q) :
  filter (λ x, Qeq_bool (vp_price_level x) k) (filter (vp_in_range sid ps pe) rows)
  = level_rows rows sid ps pe k.
Proof.
  unfold level_rows. rewrite list_filter_filter. apply list_filter_iff.
  intros r. rewrite Qeq_bool_true. tauto.
Qed.

Lemma select_volume_profile_limit (rows : list vp_row) sid ps pe :
  (length (sql_select_volume_profile rows sid ps pe) ≤ 50)%nat.
Proof. unfold sql_select_volume_profile. rewrite length_take. lia. Qed.

Lemma select_volume_profile_levels (rows : list vp_row) sid ps pe (t : vp_tuple) :
  t ∈ sql_select_volume_profile rows sid ps pe →
  level_rows rows sid ps pe (vt_price t) ≠ [] ∧
  vt_total_volume t = sql_sum (vp_volume <$> level_rows rows sid ps pe (vt_price t)).
Proof.
  unfold sql_select_volume_profile, sql_order_by. intros Ht.
  apply subseteq_take in Ht. rewrite merge_sort_Permutation in Ht.
  apply list_elem_of_fmap in Ht as ([k members] & -> & Hg).
  pose proof (group_by_members _ _ _ _ Hg) as Hmem. cbn [fst snd] in Hmem.
  rewrite level_members in Hmem. subst members.
  cbn [vp_level vt_price vt_total_volume fst snd]. split; [| reflexivity].
  assert (Hk : k ∈ vp_price_level <$> filter (vp_in_range sid ps pe) rows).
  { apply (distinct_elem_of Qeq_bool). rewrite <- group_by_keys.
    apply list_elem_of_fmap. exists (k, level_rows rows sid ps pe k). auto. }
  apply list_elem_of_fmap in Hk as (r & -> & Hr).
  apply list_elem_of_filter in Hr as [Hin Hr].
  intros Hnil.
  assert (Hmem : r ∈ level_rows rows sid ps pe (vp_price_level r)).
  { unfold level_rows. apply list_elem_of_filter. split; [| exact Hr].
    split; [exact Hin | reflexivity]. }
  rewrite Hnil in Hmem. apply elem_of_nil in Hmem. exact Hmem.
Qed.

Lemma select_volume_profile_grouped (rows : list vp_row) sid ps pe (p : Q) :
  (length (filter (λ t, (vt_price t == p)%Q) (sql_select_volume_profile rows sid ps pe)) ≤ 1)%nat.
Proof.
  unfold sql_select_volume_profile, sql_order_by.
  etransitivity; [apply filter_length_take |].
  rewrite merge_sort_Permutation, filter_length_fmap.
  unfold sql_group_by. rewrite filter_length_fmap. cbn [vp_level vt_price fst].
  apply distinct_price_count.
Qed.

(** The volume-profile fetch returns the shaped rows of its statement, or
    nothing when the statement is refused. *)
Lemma fetch_volume_profile_run (self : LightweightDashboardGenerator) (db : database)
    (cursor : nat) (symbol_id : Z) (start_date end_date : datetime) (w : world) :
  ∃ rows w',
    _fetch_volume_profile self db cursor symbol_id start_date end_date w
    = (Ok (node_of <$> rows), w') ∧
    (rows = [] ∨
     rows = sql_select_volume_profile (db_volume_profile db (schema self)) symbol_id
              (vp_params self start_date end_date).1 (vp_params self start_date end_date).2).
Proof.
  unfold _fetch_volume_profile, vp_params.
  destruct (decide (schema self = "stocks")); cbn [fst snd]; py_run;
    (destruct (db_fails db _ (SelectVolumeProfile _ _ _ _ _)); py_run;
       [eexists [], _; split; [reflexivity | left; reflexivity] |]);
    cbn [eval]; py_run; eexists _, _; (split; [reflexivity | right; reflexivity]).
Qed.

(** X1: every path of the volume-profile fetch returns a list of at most 50
    nodes, no two for the same price level, each carrying the summed volume
    of the rows of its level within the range. *)
Theorem fetch_volume_profile_grouped (self : LightweightDashboardGenerator) (db : database)
    (cursor : nat) (symbol_id : Z) (start_date end_date : datetime) (w : world) :
  ∃ nodes w',
    _fetch_volume_profile self db cursor symbol_id start_date end_date w = (Ok nodes, w') ∧
    (length nodes ≤ 50)%nat ∧
    (∀ price, (level_count price nodes ≤ 1)%nat) ∧
    (∀ n, n ∈ nodes →
       level_rows (db_volume_profile db (schema self)) symbol_id
         (vp_params self start_date end_date).1 (vp_params self start_date end_date).2
         (dn_price n) ≠ [] ∧
       (dn_dollar_volume n ==
        Qsum (vp_volume_of <$>
                level_rows (db_volume_profile db (schema self)) symbol_id
                  (vp_params self start_date end_date).1
                  (vp_params self start_date end_date).2 (dn_price n)))%Q).
Proof.
  destruct (fetch_volume_profile_run self db cursor symbol_id start_date end_date w)
    as (rows & w' & Hrun & [-> | ->]); eexists _, w'; (split; [exact Hrun |]).
  - split; [cbn; lia |]. split; [intros ?; cbn; lia |].
    intros n Hn. apply elem_of_nil in Hn. contradiction.
  - split; [rewrite length_fmap; apply select_volume_profile_limit |].
    split.
    + intros price. unfold level_count. rewrite filter_length_fmap.
      apply select_volume_profile_grouped.
    + intros n Hn. apply list_elem_of_fmap in Hn as (t & -> & Ht).
      apply select_volume_profile_levels in Ht as [Hne Hsum].
      cbn [node_of dn_price dn_dollar_volume]. split; [exact Hne |].
      rewrite Hsum, float_or_zero_default, sql_sum_default.
      unfold vp_volume_of. rewrite <- list_fmap_compose. reflexivity.
Qed.

#[global] Instance vp_order_total : Total vp_order.
Proof.
  intros a b. unfold vp_order.
  destruct (vt_total_volume a) as [x |], (vt_total_volume b) as [y |]; auto.
  destruct (Qlt_le_dec x y) as [H | H]; [right; apply Qlt_le_weak, H | left; exact H].
Qed.

#[global] Instance vp_order_trans : Transitive vp_order.
Proof.
  intros a b c. unfold vp_order.
  destruct (vt_total_volume a) as [x |], (vt_total_volume b) as [y |],
           (vt_total_volume c) as [z |]; try tauto.
  intros H1 H2. eapply Qle_trans; eassumption.
Qed.

Lemma sql_sum_is_Some (l : list (option Q)) :
  l ≠ [] → Forall is_Some l → is_Some (sql_sum l).
Proof.
  destruct l as [| x l]; [contradiction |]. intros _ Hall.
  apply Forall_cons in Hall as [[v ->] _]. cbn [sql_sum].
  destruct (sql_sum l); eexists; reflexivity.
Qed.

(** With every total known, descending order of the totals is descending
    order of the reported volumes. *)
Lemma node_of_sorted (l : list vp_tuple) :
  Forall (λ t, is_Some (vt_total_volume t)) l →
  StronglySorted vp_order l →
  StronglySorted volume_desc (node_of <$> l).
Proof.
  intros Hall Hsorted. induction Hsorted as [| t l Hl IH Ht]; [constructor |].
  apply Forall_cons in Hall as [[x Hx] Hall]. cbn [fmap list_fmap]. constructor.
  - apply IH, Hall.
  - apply Forall_fmap. rewrite Forall_forall in Ht, Hall |- *.
    intros t' Ht'. specialize (Ht t' Ht'). destruct (Hall t' Ht') as [y Hy].
    unfold vp_order in Ht. rewrite Hx, Hy in Ht.
    unfold volume_desc, compose, node_of. cbn [dn_dollar_volume].
    rewrite Hx, Hy, !float_or_zero_default. exact Ht.
Qed.

(** X2: where every row has a volume, the volume-profile list is in
    descending order of aggregated volume. *)
Theorem fetch_volume_profile_sorted (self : LightweightDashboardGenerator) (db : database)
    (cursor : nat) (symbol_id : Z) (start_date end_date : datetime) (w : world) :
  (∀ r, r ∈ db_volume_profile db (schema self) → is_Some (vp_volume r)) →
  ∃ nodes w',
    _fetch_volume_profile self db cursor symbol_id start_date end_date w = (Ok nodes, w') ∧
    StronglySorted volume_desc nodes.
Proof.
  intros Hvol.
  destruct (fetch_volume_profile_run self db cursor symbol_id start_date end_date w)
    as (rows & w' & Hrun & [-> | ->]); eexists _, w'; (split; [exact Hrun |]).
  - constructor.
  - apply node_of_sorted.
    + apply Forall_forall. intros t Ht.
      apply select_volume_profile_levels in Ht as [Hne ->].
      apply sql_sum_is_Some.
      * intros Hnil. apply fmap_nil_inv in Hnil. contradiction.
      * apply Forall_fmap, Forall_forall. intros r Hr. cbn.
        apply Hvol. unfold level_rows in Hr. apply list_elem_of_filter in Hr as [_ Hr].
        exact Hr.
    + unfold sql_select_volume_profile, sql_order_by.
      apply StronglySorted_limit, StronglySorted_merge_sort; apply _.
Qed.

Lemma fetch_volume_profile_sorted_witness :
  ∃ nodes w',
    _fetch_volume_profile (new_generator "stocks" true) sample_db_volumes_known 0 1
      (at_time (-1) 0 0) (at_time 0 0 0) sample_world = (Ok nodes, w') ∧
    StronglySorted volume_desc nodes.
Proof.
  apply (fetch_volume_profile_sorted (new_generator "stocks" true) sample_db_volumes_known
           0%nat 1 (at_time (-1) 0 0) (at_time 0 0 0) sample_world).
  apply Forall_forall. cbn. repeat constructor; eexists; reflexivity.
Defined.

Example fetch_volume_profile_known_example :
  (_fetch_volume_profile (new_generator "stocks" true) sample_db_volumes_known 0 1
     (at_time (-1) 0 0) (at_time 0 0 0) sample_world).1
  = Ok [DashNode 20 12 false true; DashNode 30 2 false false; DashNode 10 1 true false].
Proof. vm_compute. reflexivity. Qed.

Lemma dashboard_fetch_releases_connection_witness :
  w_open_conns (_fetch_dashboard_data
                  (own_methods (new_generator "stocks" true) sample_db)
                  (new_generator "stocks" true) sample_db "AAPL" 30 sample_world).2
  = w_open_conns sample_world ∧
  w_open_cursors (_fetch_dashboard_data
                    (own_methods (new_generator "stocks" true) sample_db)
                    (new_generator "stocks" true) sample_db "AAPL" 30 sample_world).2
  = w_open_cursors sample_world.
Proof.
  apply (dashboard_fetch_releases_connection (new_generator "stocks" true) sample_db
           "AAPL" 30 sample_world).
  - intros Hin. apply (bool_decide_pack _) in Hin. vm_compute in Hin. exact Hin.
  - intros Hin. apply (bool_decide_pack _) in Hin. vm_compute in Hin. exact Hin.
  - apply Forall_forall. cbn. repeat constructor.
Defined.

Lemma png_thumbnail_best_effort_witness :
  ∃ w', _generate_png_thumbnail
          "data/temp/alert_charts/AAPL_demand_30min_20240422_103000.html" sample_world_bare
        = (Ok None, w') ∧
        logged ERROR sample_world_bare w'.
Proof.
  apply (png_thumbnail_best_effort
           "data/temp/alert_charts/AAPL_demand_30min_20240422_103000.html" sample_world_bare).
  intros Hin. apply (bool_decide_pack _) in Hin. vm_compute in Hin. exact Hin.
Defined.

(** ** Time order of candles *)

Lemma round_seconds_mono (u1 u2 : Z) :
  u1 ≤ u2 →
  Z.sgn u1 * ((2 * Z.abs u1 + us_per_second) / (2 * us_per_second))
  ≤ Z.sgn u2 * ((2 * Z.abs u2 + us_per_second) / (2 * us_per_second)).
Proof.
  intros Hu.
  assert (Hm : 0 < 2 * us_per_second) by (unfold us_per_second; lia).
  assert (Hnn : ∀ x, 0 ≤ x → 0 ≤ (2 * x + us_per_second) / (2 * us_per_second)).
  { intros x Hx. apply Z.div_pos; [unfold us_per_second; lia | exact Hm]. }
  pose proof (Hnn (Z.abs u1) (Z.abs_nonneg _)) as Hn1.
  pose proof (Hnn (Z.abs u2) (Z.abs_nonneg _)) as Hn2.
  destruct (Z.sgn_spec u1) as [[H1 ->] | [[H1 ->] | [H1 ->]]],
           (Z.sgn_spec u2) as [[H2 ->] | [[H2 ->] | [H2 ->]]]; try lia.
  - assert ((2 * Z.abs u1 + us_per_second) / (2 * us_per_second)
            ≤ (2 * Z.abs u2 + us_per_second) / (2 * us_per_second)).
    { apply Z.div_le_mono; lia. }
    lia.
  - assert ((2 * Z.abs u2 + us_per_second) / (2 * us_per_second)
            ≤ (2 * Z.abs u1 + us_per_second) / (2 * us_per_second)).
    { apply Z.div_le_mono; lia. }
    lia.
Qed.

Lemma epoch_bigint_mono (t1 t2 : datetime) : t1 ≤ t2 → epoch_bigint t1 ≤ epoch_bigint t2.
Proof.
  intros Hle. unfold epoch_bigint. cbv zeta. apply round_seconds_mono. lia.
Qed.

Lemma epoch_candles_ordered (rs : list candle_row) :
  Sorted row_time_asc rs → Sorted dash_time_asc (dash_candle_of <$> (epoch_candle <$> rs)).
Proof.
  intros Hs. rewrite <- list_fmap_compose.
  apply (Sorted_fmap _ row_time_asc dash_time_asc); [| exact Hs].
  intros a b Hab. unfold dash_time_asc, compose. cbn. apply epoch_bigint_mono, Hab.
Qed.

(** X6: on every path, the candles returned by the dashboard's candle fetch
    are in non-decreasing order of time. *)
Theorem fetch_candles_time_ordered (self : LightweightDashboardGenerator) (db : database)
    (cursor : nat) (symbol_id : Z) (start_date end_date : datetime) (tf : Z) (w : world) :
  ∃ candles w',
    _fetch_candles self db cursor symbol_id start_date end_date tf w = (Ok candles, w') ∧
    Sorted dash_time_asc candles.
Proof.
  assert (Hview : ∀ rows, Sorted dash_time_asc
            (dash_candle_of <$> sql_select_matview rows symbol_id start_date end_date)).
  { intros rows. apply epoch_candles_ordered, Sorted_merge_sort. apply _. }
  assert (Hbuckets : Sorted dash_time_asc
            (dash_candle_of <$> sql_select_minute_buckets (db_minute_aggregates db (schema self))
                                  tf symbol_id start_date end_date)).
  { apply (Sorted_fmap _ by_time_asc dash_time_asc); [intros a b Hab; exact Hab |].
    apply Sorted_merge_sort. apply _. }
  assert (Hstride : ∀ rows,
            sql_select_minute_stride (db_minute_aggregates db (schema self))
              symbol_id start_date end_date tf = Ok rows →
            Sorted dash_time_asc (dash_candle_of <$> rows)).
  { intros rows. unfold sql_select_minute_stride.
    destruct (filter _ _) as [| r rest]; [intros [= <-]; constructor |].
    destruct (sql_mod _ _); [| discriminate]. intros [= <-].
    apply epoch_candles_ordered, Sorted_merge_sort. apply _. }
  unfold _fetch_candles. py_run.
  destruct (matview_map !! tf) as [name |]; py_run.
  - destruct (db_fails db _ (MatviewExists _ _)); py_run.
    + destruct (tf <=? 15); py_run.
      * destruct (db_fails db _ (SelectMinuteStride _ _ _ _ _)); py_run;
          [eexists _, _; split; [reflexivity | constructor] |].
        cbn [eval]. destruct (sql_select_minute_stride _ _ _ _ _) eqn:Hs; py_run;
          eexists _, _; (split; [reflexivity |]); [apply Hstride; reflexivity | constructor].
      * destruct (db_fails db _ (SelectMinuteBuckets _ _ _ _ _)); py_run;
          [eexists _, _; split; [reflexivity | constructor] |].
        cbn [eval]. py_run. eexists _, _. split; [reflexivity | exact Hbuckets].
    + cbn [eval]. py_run. destruct (bool_decide _); py_run.
      * destruct (db_fails db _ (SelectMatview _ _ _ _ _)); py_run;
          [eexists _, _; split; [reflexivity | constructor] |].
        cbn [eval]. unfold from_view. destruct (db_matviews db (schema self) name); py_run;
          eexists _, _; (split; [reflexivity |]); [apply Hview | constructor].
      * destruct (tf <=? 15); py_run.
        -- destruct (db_fails db _ (SelectMinuteStride _ _ _ _ _)); py_run;
             [eexists _, _; split; [reflexivity | constructor] |].
           cbn [eval]. destruct (sql_select_minute_stride _ _ _ _ _) eqn:Hs; py_run;
             eexists _, _; (split; [reflexivity |]);
             [apply Hstride; reflexivity | constructor].
        -- destruct (db_fails db _ (SelectMinuteBuckets _ _ _ _ _)); py_run;
             [eexists _, _; split; [reflexivity | constructor] |].
           cbn [eval]. py_run. eexists _, _. split; [reflexivity | exact Hbuckets].
  - destruct (tf <=? 15); py_run.
    + destruct (db_fails db _ (SelectMinuteStride _ _ _ _ _)); py_run;
        [eexists _, _; split; [reflexivity | constructor] |].
      cbn [eval]. destruct (sql_select_minute_stride _ _ _ _ _) eqn:Hs; py_run;
        eexists _, _; (split; [reflexivity |]); [apply Hstride; reflexivity | constructor].
    + destruct (db_fails db _ (SelectMinuteBuckets _ _ _ _ _)); py_run;
        [eexists _, _; split; [reflexivity | constructor] |].
      cbn [eval]. py_run. eexists _, _. split; [reflexivity | exact Hbuckets].
Qed.

(** ** Unknown symbol on the dashboard path *)

(** X7: a dashboard request naming a symbol that is not in the symbols
    table fetches no data, logs a warning, and yields [(None, False)]
    without raising. *)
Theorem dashboard_unknown_symbol (upload_html : document → string → result string)
    (methods : fetch_methods) (self : LightweightDashboardGenerator) (db : database)
    (symbol : string) (lookback_days : Z) (w : world) :
  db_connect_fails db (w_acquired w) = false →
  db_fails db _ (SelectSymbolId (schema self) symbol) = false →
  lookup_id symbol (db_symbols db (schema self)) = None →
  (∃ w', _fetch_dashboard_data methods self db symbol lookback_days w = (Ok None, w') ∧
         logged WARNING w w') ∧
  (∃ w', generate_dashboard upload_html methods self db symbol lookback_days w
         = (Ok (None, false), w') ∧
         logged WARNING w w').
Proof.
  intros Hconn Hquery Hsym.
  assert (Hfetch : ∃ w', _fetch_dashboard_data methods self db symbol lookback_days w
                         = (Ok None, w') ∧
                         ∃ msg, w_log w' = w_log w ++ [LogRecord WARNING msg]).
  { unfold _fetch_dashboard_data, fetch_dashboard_body. fr_run.
    rewrite Hconn. fr_run. unfold execute, send. fr_run. rewrite Hquery. fr_run.
    cbn [eval]. rewrite Hsym. fr_run.
    eexists. split; [reflexivity |]. cbn [w_log]. eexists. reflexivity. }
  destruct Hfetch as (w1 & Hrun & msg & Hlog). split.
  - exists w1. split; [exact Hrun |]. exists [], msg, []. exact Hlog.
  - unfold generate_dashboard. py_run.
    match goal with
    | |- context [_fetch_dashboard_data methods self db symbol lookback_days ?w0] =>
        assert (Hrun0 : ∃ w1', _fetch_dashboard_data methods self db symbol lookback_days w0
                               = (Ok None, w1') ∧
                               ∃ pre msg', w_log w1' = w_log w ++ pre ++ [LogRecord WARNING msg'])
    end.
    { unfold _fetch_dashboard_data, fetch_dashboard_body. fr_run.
      rewrite Hconn. fr_run. unfold execute, send. fr_run. rewrite Hquery. fr_run.
      cbn [eval]. rewrite Hsym. fr_run.
      eexists. split; [reflexivity |]. cbn [w_log]. eexists [_], _.
      rewrite <- app_assoc. reflexivity. }
    destruct Hrun0 as (w1' & -> & pre & msg' & Hlog'). py_run.
    eexists. split; [reflexivity |]. cbn [w_log]. rewrite Hlog'.
    exists pre, msg', [LogRecord WARNING ("No data available for " +:+ symbol)].
    rewrite <- !app_assoc. reflexivity.
Qed.

Lemma dashboard_unknown_symbol_witness :
  (∃ w', _fetch_dashboard_data (own_methods (new_generator "stocks" true) sample_db)
           (new_generator "stocks" true) sample_db "ZZZZ" 30 sample_world = (Ok None, w') ∧
         logged WARNING sample_world w') ∧
  (∃ w', generate_dashboard (λ _ name, Ok ("https://charts.example/" +:+ name))
           (own_methods (new_generator "stocks" true) sample_db)
           (new_generator "stocks" true) sample_db "ZZZZ" 30 sample_world
         = (Ok (None, false), w') ∧
         logged WARNING sample_world w').
Proof.
  apply (dashboard_unknown_symbol (λ _ name, Ok ("https://charts.example/" +:+ name))
           (own_methods (new_generator "stocks" true) sample_db)
           (new_generator "stocks" true) sample_db "ZZZZ" 30 sample_world).
  - reflexivity.
  - reflexivity.
  - reflexivity.
Defined.

(** ** Paths *)

(** [path_join] on the cases that tell a [pathlib] join from a
    concatenation: trailing and doubled slashes, [.] and the empty path,
    the three kinds of root, and an absolute right operand. *)
Example path_join_examples :
  (λ p, path_join p.1 p.2) <$>
    [("out2/","f.html"); ("","f.html"); (".","f.html"); ("/","f.html"); ("//","f");
     ("///x","f"); ("//x//y/","f"); ("a/./b//c/","BRK/B_x.html"); ("a","/etc_x.html");
     ("a","//etc"); ("a","./x"); ("a","../x"); ("a/..","x"); ("a","b/./c//d"); ("./a","b");
     ("a/.","."); ("","."); ("a",""); ("//","//b"); ("/a","b/"); ("a"," "); ("a","..");
     ("a","..."); ("a","./"); ("a","x/")]
  = ["out2/f.html"; "f.html"; "f.html"; "/f.html"; "//f"; "/x/f"; "//x/y/f";
     "a/b/c/BRK/B_x.html"; "/etc_x.html"; "//etc"; "a/x"; "a/../x"; "a/../x"; "a/b/c/d"; "a/b";
     "a"; "."; "a"; "//b"; "/a/b"; "a/ "; "a/.."; "a/..."; "a"; "a/x"].
Proof. vm_compute. reflexivity. Qed.

(** ** The chart generator's candle fetch *)

Lemma only_logged_refl w : only_logged w w.
Proof. repeat split. Qed.

Lemma only_logged_trans w0 w1 w2 :
  only_logged w0 w1 → only_logged w1 w2 → only_logged w0 w2.
Proof.
  unfold only_logged, same_connections.
  intros (-> & -> & -> & -> & -> & -> & -> & ->) (-> & -> & -> & -> & -> & -> & -> & ->).
  repeat split.
Qed.

Lemma log_at_only_logged lvl msg w : only_logged w (log_at lvl msg w).2.
Proof. repeat split. Qed.

Lemma fetch_chart_data_only_logged db symbol tf start_time end_time w :
  only_logged w (_fetch_chart_data db symbol tf start_time end_time w).2.
Proof.
  unfold _fetch_chart_data.
  destruct (db_symbol_cache db symbol) as [[| p | p] |]; py_run; try (repeat split; fail).
  all: destruct (padded_start start_time end_time) as [padded | e]; py_run;
    try (repeat split; fail).
  all: destruct (db_fails db _ _); py_run; try (repeat split; fail).
  all: destruct (eval db _) as [rows | e]; py_run; try (repeat split; fail).
  all: destruct (mapM chart_candle_of rows); py_run; repeat split.
Qed.

(** What the fetch returns depends on the database only, not on the world. *)
Lemma fetch_chart_data_value db symbol tf start_time end_time w w0 :
  (_fetch_chart_data db symbol tf start_time end_time w).1
  = (_fetch_chart_data db symbol tf start_time end_time w0).1.
Proof.
  unfold _fetch_chart_data.
  destruct (db_symbol_cache db symbol) as [[| p | p] |]; py_run; try reflexivity.
  all: destruct (padded_start start_time end_time) as [padded | e]; py_run; try reflexivity.
  all: destruct (db_fails db _ _); py_run; try reflexivity.
  all: destruct (eval db _) as [rows | e]; py_run; try reflexivity.
  all: destruct (mapM chart_candle_of rows); py_run; reflexivity.
Qed.

Lemma mapM_chart_candles rows candles :
  mapM chart_candle_of rows = Ok candles →
  Forall2 (λ r c, cc_timestamp c = ct_time r) rows candles.
Proof.
  revert candles. induction rows as [| r rows IH]; intros candles Hrun; cbn [mapM] in Hrun.
  - injection Hrun as <-. constructor.
  - unfold chart_candle_of in Hrun at 1.
    destruct (py_int (ct_volume r)) as [v | e]; [| discriminate].
    destruct (mapM chart_candle_of rows) as [cs | e]; [| discriminate].
    injection Hrun as <-. constructor; [reflexivity | apply IH; reflexivity].
Qed.

Lemma mapM_chart_candles_null rows r :
  r ∈ rows → ct_volume r = None →
  ∃ e, mapM chart_candle_of rows = Raise e.
Proof.
  intros Hin Hnull. induction rows as [| r' rows IH]; [by apply elem_of_nil in Hin |].
  cbn [mapM]. apply elem_of_cons in Hin as [<- | Hin].
  - unfold chart_candle_of. rewrite Hnull. cbn [py_int]. eauto.
  - destruct (chart_candle_of r'); [| eauto].
    destruct (IH Hin) as [e ->]. eauto.
Qed.

Lemma select_view_ordered rows symbol_id start_time end_time :
  Sorted by_time_asc (sql_select_view rows symbol_id start_time end_time) ∧
  Forall (λ t, start_time ≤ ct_time t ≤ end_time)
         (sql_select_view rows symbol_id start_time end_time).
Proof.
  unfold sql_select_view, sql_order_by. split.
  - pose proof (Sorted_merge_sort row_time_asc
                  (filter (in_range symbol_id start_time end_time) rows)) as Hs.
    induction Hs as [| r l Hs IH Hhd]; cbn [fmap list_fmap]; constructor; [exact IH |].
    destruct Hhd; cbn [fmap list_fmap]; constructor. assumption.
  - apply Forall_fmap, Forall_forall. intros r Hr. cbn.
    rewrite merge_sort_Permutation in Hr. apply list_elem_of_filter in Hr as [Hr _].
    unfold in_range in Hr. apply Is_true_true in Hr.
    apply andb_prop in Hr as [Hr Hhi]. apply andb_prop in Hr as [_ Hlo].
    apply Z.leb_le in Hlo, Hhi. lia.
Qed.

(** X8: whenever the padded start is a representable date, the chart
    generator's candle fetch returns (it never raises), and what it
    returns is in ascending order of timestamp and lies between the padded
    start and the requested end. *)
Theorem fetch_chart_data_ordered (db : database) (symbol : string) (tf : Z)
    (start_time end_time padded : datetime) (w : world) :
  padded_start start_time end_time = Ok padded →
  ∃ candles w',
    _fetch_chart_data db symbol tf start_time end_time w = (Ok candles, w') ∧
    Sorted chart_time_asc candles ∧
    Forall (λ c, padded ≤ cc_timestamp c ≤ end_time) candles.
Proof.
  intros Hpad.
  assert (Hnil : Sorted chart_time_asc [] ∧
                 Forall (λ c, padded ≤ cc_timestamp c ≤ end_time) []).
  { split; constructor. }
  unfold _fetch_chart_data. rewrite Hpad.
  destruct (db_symbol_cache db symbol) as [[| p | p] |]; py_run;
    try (eexists _, _; split; [reflexivity | exact Hnil]).
  all: destruct (db_fails db _ _); py_run;
    try (eexists _, _; split; [reflexivity | exact Hnil]).
  all: cbn [eval]; unfold from_view;
    destruct (db_matviews db _ _) as [rows |]; py_run;
    try (eexists _, _; split; [reflexivity | exact Hnil]).
  all: match goal with
       | |- context [mapM chart_candle_of (sql_select_view ?rs ?sid ?s ?e)] =>
           destruct (select_view_ordered rs sid s e) as [Hsorted Hbound];
           destruct (mapM chart_candle_of (sql_select_view rs sid s e))
             as [candles | err] eqn:Hmap; py_run;
           [| eexists _, _; split; [reflexivity | exact Hnil]]
       end.
  all: apply mapM_chart_candles in Hmap.
  all: eexists _, _; (split; [reflexivity |]).
  all: split.
  all: try (clear Hbound; induction Hmap as [| r c rs cs Hrc Hmap IH];
            [constructor |];
            apply Sorted_inv in Hsorted as [Hsorted Hhd];
            constructor; [exact (IH Hsorted) |];
            destruct Hmap as [| r' c' rs' cs' Hrc' Hmap']; constructor;
            apply HdRel_inv in Hhd; unfold chart_time_asc, by_time_asc in *; lia).
  all: clear Hsorted; induction Hmap as [| r c rs cs Hrc Hmap IH]; [constructor |];
       apply Forall_cons in Hbound as [Hr Hbound];
       constructor; [lia | exact (IH Hbound)].
Qed.

Lemma fetch_chart_data_ordered_witness :
  ∃ candles w',
    _fetch_chart_data sample_db "AAPL" 5 (at_time (-1) 10 0) (at_time 0 10 30) sample_world
    = (Ok candles, w') ∧
    Sorted chart_time_asc candles ∧
    Forall (λ c, at_time (-1) 10 0 - 8820000000 ≤ cc_timestamp c ≤ at_time 0 10 30) candles.
Proof.
  apply (fetch_chart_data_ordered sample_db "AAPL" 5 (at_time (-1) 10 0) (at_time 0 10 30)
           (at_time (-1) 10 0 - 8820000000) sample_world).
  vm_compute. reflexivity.
Defined.

(** X9: one stored bucket without a volume empties the whole answer: the
    conversion [int(row[5])] fails inside the [try], the handler logs the
    error and the fetch returns no candle at all. *)
Theorem fetch_chart_data_null_volume (db : database) (symbol : string) (symbol_id tf : Z)
    (start_time end_time padded : datetime) (rows : list candle_row) (r : candle_row)
    (w : world) :
  db_symbol_cache db symbol = Some symbol_id →
  symbol_id ≠ 0 →
  padded_start start_time end_time = Ok padded →
  db_matviews db "stocks" ("candles_" +:+ pretty tf +:+ "m") = Some rows →
  r ∈ rows →
  in_range symbol_id padded end_time r = true →
  cr_volume r = None →
  ∃ w', _fetch_chart_data db symbol tf start_time end_time w = (Ok [], w') ∧
        logged ERROR w w'.
Proof.
  intros Hsym Hid Hpad Hview Hin Hrange Hnull.
  assert (Hraise : ∃ e, mapM chart_candle_of (sql_select_view rows symbol_id padded end_time)
                        = Raise e).
  { apply (mapM_chart_candles_null _ (raw_candle r)); [| exact Hnull].
    unfold sql_select_view, sql_order_by. apply list_elem_of_fmap_2.
    rewrite merge_sort_Permutation. apply list_elem_of_filter. split; [| exact Hin].
    rewrite Hrange. exact I. }
  destruct Hraise as [err Hraise].
  unfold _fetch_chart_data, logged. rewrite Hsym, Hpad.
  destruct symbol_id as [| p | p]; [contradiction | |]; py_run.
  all: destruct (db_fails db _ _); py_run;
    [eexists; split; [reflexivity |]; cbn [w_log];
     eexists [_], _, []; rewrite <- !app_assoc; reflexivity |].
  all: cbn [eval]; unfold from_view; rewrite Hview, Hraise; py_run.
  all: eexists; split; [reflexivity |]; cbn [w_log].
  all: eexists [_], _, []; rewrite <- !app_assoc; reflexivity.
Qed.

Lemma fetch_chart_data_null_volume_witness :
  ∃ w', _fetch_chart_data sample_db_null_volume "AAPL" 5 (at_time 0 10 0) (at_time 0 11 0)
          sample_world = (Ok [], w') ∧
        logged ERROR sample_world w'.
Proof.
  apply (fetch_chart_data_null_volume sample_db_null_volume "AAPL" 1 5
           (at_time 0 10 0) (at_time 0 11 0) (at_time 0 9 30)
           (CandleRow 1 (at_time 0 10 7) 100 102 99 101 None :: sample_view_busy)
           (CandleRow 1 (at_time 0 10 7) 100 102 99 101 None) sample_world).
  - reflexivity.
  - discriminate.
  - vm_compute. reflexivity.
  - reflexivity.
  - apply list_elem_of_here.
  - vm_compute. reflexivity.
  - reflexivity.
Defined.

(** ** Zone alert charts *)

Lemma penetration_pct_returns zone_type zone_top zone_bottom current_price :
  ¬ (zone_top - zone_bottom == 0)%Q →
  ∃ pct, penetration_pct zone_type zone_top zone_bottom current_price = Ok pct.
Proof.
  intros Hne. unfold penetration_pct, py_div.
  destruct (decide (zone_type = "demand"));
    destruct (Qeq_dec (zone_top - zone_bottom) 0); [contradiction | eauto | contradiction | eauto].
Qed.

Lemma penetration_pct_flat zone_type zone_top zone_bottom current_price :
  (zone_top == zone_bottom)%Q →
  penetration_pct zone_type zone_top zone_bottom current_price = Raise ZeroDivisionError.
Proof.
  intros Heq. unfold penetration_pct, py_div.
  assert (Hz : (zone_top - zone_bottom == 0)%Q) by (rewrite Heq; ring).
  destruct (decide (zone_type = "demand"));
    destruct (Qeq_dec (zone_top - zone_bottom) 0); try contradiction; reflexivity.
Qed.

(** X10: when candles are found and the zone has a height, what
    [generate_zone_alert_chart] does is decided by the file system.  If it
    accepts the chart file ([output_dir] joined with the file name), the
    file is the one thing written, its path is returned, and the thumbnail
    path is the same path with [.png] for [.html] when the rasteriser is
    installed and [None] when it is not.  If it refuses (a symbol with a
    slash names a directory that is not there), its error comes out of the
    call and nothing is written. *)
Theorem zone_alert_chart_saved (get_chart_timeframe_for_zone : Z → Z * string)
    (self : ChartGenerator) (db : database) (symbol zone_type : string)
    (zone_top zone_bottom current_price : Q) (zone_timeframe_minutes : Z)
    (zone_formed_at current_timestamp : datetime) (c : chart_candle)
    (cs : list chart_candle) (w : world) :
  (_fetch_chart_data db symbol (get_chart_timeframe_for_zone zone_timeframe_minutes).1
     zone_formed_at current_timestamp w).1 = Ok (c :: cs) →
  ¬ (zone_top - zone_bottom == 0)%Q →
  let html_path := html_chart_path self symbol zone_type zone_timeframe_minutes (w_now_str w) in
  let run := generate_zone_alert_chart get_chart_timeframe_for_zone self db symbol zone_type
               zone_top zone_bottom zone_timeframe_minutes zone_formed_at current_price
               current_timestamp w in
  match w_write_error w html_path with
  | None =>
      run.1 = Ok (Some html_path,
                  if decide (rasteriser_installed w)
                  then Some (str_replace ".html" ".png" html_path) else None) ∧
      w_files run.2 = {[html_path]} ∪ w_files w
  | Some e =>
      run.1 = Raise e ∧ w_files run.2 = w_files w
  end.
Proof.
  intros Hfetch Hheight html_path run. subst run.
  destruct (penetration_pct_returns zone_type zone_top zone_bottom current_price Hheight)
    as [pct Hpct].
  unfold generate_zone_alert_chart. cbv beta iota zeta delta [bind]. cbn [log_at fst snd].
  match goal with
  | |- context [_fetch_chart_data db symbol ?tf ?s ?e ?w1] =>
      pose proof (fetch_chart_data_value db symbol tf s e w1 w) as Hval;
      pose proof (fetch_chart_data_only_logged db symbol tf s e w1)
        as (Hfiles & Hmods & Hnow & _ & Hdisk & _);
      destruct (_fetch_chart_data db symbol tf s e w1) as [r w2]
  end.
  cbn [fst snd w_files w_modules w_now_str w_write_error] in Hval, Hfiles, Hmods, Hnow, Hdisk.
  rewrite Hfetch in Hval. subst r.
  unfold _generate_html_chart. rewrite Hpct.
  cbv beta iota zeta delta [bind lift_result now_str write_file]. rewrite Hnow, Hdisk.
  fold (html_chart_path self symbol zone_type zone_timeframe_minutes (w_now_str w)).
  fold html_path.
  destruct (w_write_error w html_path) as [e |]; [split; [reflexivity | exact Hfiles] |].
  unfold _generate_png_thumbnail. py_run. rewrite Hmods, Hfiles.
  unfold rasteriser_installed.
  destruct (decide ("plotly.io" ∈ w_modules w)) as [Hplotly | Hplotly]; py_run.
  - destruct (decide ("kaleido.scopes.plotly" ∈ w_modules w)) as [Hkaleido | Hkaleido]; py_run.
    + rewrite decide_True by (apply elem_of_union_l, elem_of_singleton; reflexivity).
      py_run. rewrite decide_True by (split; assumption).
      split; reflexivity.
    + rewrite decide_False by (intros [_ H]; contradiction).
      split; reflexivity.
  - rewrite decide_False by (intros [H _]; contradiction).
    split; reflexivity.
Qed.

Lemma zone_alert_chart_saved_witness :
  match w_write_error sample_world
          (html_chart_path {| output_dir := "data/temp/alert_charts/" |} "AAPL" "demand" 30
             (w_now_str sample_world)) with
  | None =>
      (generate_zone_alert_chart (λ _, (5, "5min"))
         {| output_dir := "data/temp/alert_charts/" |} sample_db "AAPL" "demand" (301 # 2) 149
         30 (at_time 0 10 0) (597 # 4) (at_time 0 14 30) sample_world).1
      = Ok (Some (html_chart_path {| output_dir := "data/temp/alert_charts/" |} "AAPL"
                    "demand" 30 (w_now_str sample_world)),
            if decide (rasteriser_installed sample_world)
            then Some (str_replace ".html" ".png"
                         (html_chart_path {| output_dir := "data/temp/alert_charts/" |} "AAPL"
                            "demand" 30 (w_now_str sample_world)))
            else None) ∧
      w_files (generate_zone_alert_chart (λ _, (5, "5min"))
                 {| output_dir := "data/temp/alert_charts/" |} sample_db "AAPL" "demand"
                 (301 # 2) 149 30 (at_time 0 10 0) (597 # 4) (at_time 0 14 30) sample_world).2
      = {[html_chart_path {| output_dir := "data/temp/alert_charts/" |} "AAPL" "demand" 30
            (w_now_str sample_world)]} ∪ w_files sample_world
  | Some e =>
      (generate_zone_alert_chart (λ _, (5, "5min"))
         {| output_dir := "data/temp/alert_charts/" |} sample_db "AAPL" "demand" (301 # 2) 149
         30 (at_time 0 10 0) (597 # 4) (at_time 0 14 30) sample_world).1 = Raise e ∧
      w_files (generate_zone_alert_chart (λ _, (5, "5min"))
                 {| output_dir := "data/temp/alert_charts/" |} sample_db "AAPL" "demand"
                 (301 # 2) 149 30 (at_time 0 10 0) (597 # 4) (at_time 0 14 30) sample_world).2
      = w_files sample_world
  end.
Proof.
  apply (zone_alert_chart_saved (λ _, (5, "5min"))
           {| output_dir := "data/temp/alert_charts/" |}
           sample_db "AAPL" "demand" (301 # 2) 149 (597 # 4) 30 (at_time 0 10 0)
           (at_time 0 14 30)
           (ChartCandle (at_time 0 10 0) 100 105 99 104 500)
           [ChartCandle (at_time 0 10 5) 104 106 103 (211 # 2) 300] sample_world).
  - vm_compute. reflexivity.
  - vm_compute. discriminate.
Defined.

(** The chart of the witness is written under the directory as [pathlib]
    joins it, and a symbol with a slash is refused on the sample disk. *)
Example zone_alert_chart_paths :
  (generate_zone_alert_chart (λ _, (5, "5min")) {| output_dir := "data/temp/alert_charts/" |}
     sample_db "AAPL" "demand" (301 # 2) 149 30 (at_time 0 10 0) (597 # 4) (at_time 0 14 30)
     sample_world).1
  = Ok (Some "data/temp/alert_charts/AAPL_demand_30min_20240422_103000.html",
        Some "data/temp/alert_charts/AAPL_demand_30min_20240422_103000.png") ∧
  w_write_error sample_world
    (html_chart_path {| output_dir := "data/temp/alert_charts" |} "BRK/B" "demand" 30
       (w_now_str sample_world))
  = Some FileNotFoundError.
Proof. split; vm_compute; reflexivity. Qed.

(** X11: a zone of height zero with candles at hand makes
    [generate_zone_alert_chart] raise [ZeroDivisionError]; nothing catches
    it and no chart file has been written by then. *)
Theorem zone_alert_chart_flat_zone (get_chart_timeframe_for_zone : Z → Z * string)
    (self : ChartGenerator) (db : database) (symbol zone_type : string)
    (zone_top zone_bottom current_price : Q) (zone_timeframe_minutes : Z)
    (zone_formed_at current_timestamp : datetime) (c : chart_candle)
    (cs : list chart_candle) (w : world) :
  (_fetch_chart_data db symbol (get_chart_timeframe_for_zone zone_timeframe_minutes).1
     zone_formed_at current_timestamp w).1 = Ok (c :: cs) →
  (zone_top == zone_bottom)%Q →
  ∃ w',
    generate_zone_alert_chart get_chart_timeframe_for_zone self db symbol zone_type
      zone_top zone_bottom zone_timeframe_minutes zone_formed_at current_price
      current_timestamp w
    = (Raise ZeroDivisionError, w') ∧
    w_files w' = w_files w.
Proof.
  intros Hfetch Hflat.
  unfold generate_zone_alert_chart. cbv beta iota zeta delta [bind]. cbn [log_at fst snd].
  match goal with
  | |- context [_fetch_chart_data db symbol ?tf ?s ?e ?w1] =>
      pose proof (fetch_chart_data_value db symbol tf s e w1 w) as Hval;
      pose proof (fetch_chart_data_only_logged db symbol tf s e w1) as (Hfiles & _);
      destruct (_fetch_chart_data db symbol tf s e w1) as [r w2]
  end.
  cbn [fst snd w_files] in Hval, Hfiles.
  rewrite Hfetch in Hval. subst r.
  unfold _generate_html_chart.
  rewrite (penetration_pct_flat zone_type zone_top zone_bottom current_price Hflat). py_run.
  eexists. split; [reflexivity | exact Hfiles].
Qed.

Lemma zone_alert_chart_flat_zone_witness :
  ∃ w',
    generate_zone_alert_chart (λ _, (5, "5min")) {| output_dir := "data/temp/alert_charts" |}
      sample_db "AAPL" "demand" 149 149 30 (at_time 0 10 0) (597 # 4) (at_time 0 14 30)
      sample_world
    = (Raise ZeroDivisionError, w') ∧
    w_files w' = w_files sample_world.
Proof.
  apply (zone_alert_chart_flat_zone (λ _, (5, "5min"))
           {| output_dir := "data/temp/alert_charts" |}
           sample_db "AAPL" "demand" 149 149 (597 # 4) 30 (at_time 0 10 0)
           (at_time 0 14 30)
           (ChartCandle (at_time 0 10 0) 100 105 99 104 500)
           [ChartCandle (at_time 0 10 5) 104 106 103 (211 # 2) 300] sample_world).
  - vm_compute. reflexivity.
  - reflexivity.
Defined.

(** ** Price action charts *)

Section price_action.
Context (strftime : datetime → string) (local_now : world → datetime).

(** X12: [generate_price_action_chart] never hands back a chart.  Every
    run that returns has fetched fewer than ten candles: it returns
    [(None, None)], logs the warning and has written no file. *)
Theorem price_action_chart_returns_nothing (self : ChartGenerator) (db : database)
    (symbol : string) (timeframe_minutes lookback_days : Z)
    (current_timestamp : option datetime) (w w' : world)
    (charts : option path_like * option string) :
  generate_price_action_chart strftime local_now self db symbol timeframe_minutes
    lookback_days current_timestamp w = (Ok charts, w') →
  charts = (None, None) ∧ w_files w' = w_files w ∧ logged WARNING w w'.
Proof.
  unfold generate_price_action_chart. intros Hrun.
  set (now := match current_timestamp with Some t => t | None => local_now w end).
  assert (Hnow : (match current_timestamp with
                  | Some t => ret t
                  | None => λ w, (Ok (local_now w), w)
                  end) w = (Ok now, w)).
  { subst now. destruct current_timestamp; reflexivity. }
  unfold bind at 1 in Hrun. rewrite Hnow in Hrun. clearbody now. clear Hnow.
  destruct (td_days lookback_days) as [delta | e]; py_run; [| discriminate Hrun].
  cbv beta iota zeta delta [bind lift_result] in Hrun. cbn [log_at fst snd] in Hrun.
  destruct (dt_minus now delta) as [start_time | e]; [| discriminate Hrun].
  match type of Hrun with
  | context [_fetch_chart_data db symbol ?tf ?s ?e ?w1] =>
      pose proof (fetch_chart_data_only_logged db symbol tf s e w1) as (Hfiles & _);
      assert (Hlog : ∃ more, w_log (_fetch_chart_data db symbol tf s e w1).2
                             = w_log w1 ++ more);
      [| destruct (_fetch_chart_data db symbol tf s e w1) as [[candles | err] w2]]
  end.
  { clear Hrun Hfiles. unfold _fetch_chart_data.
    destruct (db_symbol_cache db symbol) as [[| p | p] |]; py_run; try (eexists; reflexivity).
    all: destruct (padded_start start_time now) as [padded | e]; py_run;
      try (exists []; symmetry; apply app_nil_r).
    all: destruct (db_fails db _ _); py_run;
      try (eexists; rewrite <- !app_assoc; reflexivity).
    all: destruct (eval db _) as [rows | e]; py_run;
      try (eexists; rewrite <- !app_assoc; reflexivity).
    all: destruct (mapM chart_candle_of rows); py_run;
      eexists; rewrite <- !app_assoc; reflexivity. }
  2: discriminate Hrun.
  cbn [fst snd w_files w_log] in Hfiles, Hlog. destruct Hlog as [more Hlog].
  destruct (match candles with [] => true | _ => (length candles <? 10)%nat end).
  - py_run. cbv beta iota zeta delta [bind ret] in Hrun. cbn [log_at fst snd] in Hrun.
    injection Hrun as <- <-. split; [reflexivity |]. split; [exact Hfiles |].
    unfold logged. cbn [w_log]. rewrite Hlog.
    eexists (_ :: more), _, []. rewrite <- !app_assoc. reflexivity.
  - unfold _generate_price_action_html in Hrun. destruct candles as [| c cs].
    + cbv in Hrun. discriminate Hrun.
    + cbv beta iota zeta delta [bind ret raise write_file set_files log_at
                                _generate_png_thumbnail_any] in Hrun.
      destruct (w_write_error w2 _); discriminate Hrun.
Qed.

(** X13: with ten candles or more the call raises, whatever the file
    system does.  If it accepts the chart file ([output_dir] joined with
    the file name), the HTML chart is written and the call then raises
    [TypeError]: the path handed to [_generate_png_thumbnail] is a [Path],
    whose [replace] is not the string replacement.  If it refuses the file,
    its error comes out of the call and nothing is written. *)
Theorem price_action_chart_type_error (self : ChartGenerator) (db : database)
    (symbol : string) (timeframe_minutes lookback_days : Z)
    (current_timestamp start_time : datetime) (delta : timedelta)
    (candles : list chart_candle) (w : world) :
  td_days lookback_days = Ok delta →
  dt_minus current_timestamp delta = Ok start_time →
  (_fetch_chart_data db symbol timeframe_minutes start_time current_timestamp w).1
  = Ok candles →
  (10 ≤ length candles)%nat →
  let html_path := path_join (output_dir self)
                     (symbol +:+ "_price_action_" +:+ pretty timeframe_minutes +:+ "min_"
                      +:+ strftime current_timestamp +:+ ".html") in
  let run := generate_price_action_chart strftime local_now self db symbol timeframe_minutes
               lookback_days (Some current_timestamp) w in
  match w_write_error w html_path with
  | None => run.1 = Raise (OtherError "TypeError") ∧ w_files run.2 = {[html_path]} ∪ w_files w
  | Some e => run.1 = Raise e ∧ w_files run.2 = w_files w
  end.
Proof.
  intros Hdelta Hstart Hfetch Hlen html_path run. subst run.
  unfold generate_price_action_chart. cbv beta iota zeta delta [bind ret lift_result].
  rewrite Hdelta, Hstart. cbn [log_at fst snd].
  match goal with
  | |- context [_fetch_chart_data db symbol ?tf ?s ?e ?w1] =>
      pose proof (fetch_chart_data_value db symbol tf s e w1 w) as Hval;
      pose proof (fetch_chart_data_only_logged db symbol tf s e w1)
        as (Hfiles & _ & _ & _ & Hdisk & _);
      destruct (_fetch_chart_data db symbol tf s e w1) as [r w2]
  end.
  cbn [fst snd w_files w_write_error] in Hval, Hfiles, Hdisk.
  rewrite Hfetch in Hval. subst r.
  destruct candles as [| c cs]; [cbn in Hlen; lia |].
  assert (Hlt : (length (c :: cs) <? 10)%nat = false) by (apply Nat.ltb_ge; exact Hlen).
  rewrite Hlt. unfold _generate_price_action_html, _generate_png_thumbnail_any.
  cbv beta iota zeta delta [bind ret raise write_file]. fold html_path. rewrite Hdisk.
  destruct (w_write_error w html_path) as [e |]; [split; [reflexivity | exact Hfiles] |].
  py_run. rewrite Hfiles. split; reflexivity.
Qed.
End price_action.

Lemma price_action_chart_returns_nothing_witness :
  (None, None) = (@None path_like, @None string) ∧
  w_files (generate_price_action_chart (λ _, "20240422_103000") w_utcnow
             {| output_dir := "data/temp/alert_charts" |} sample_db "AAPL" 5 1
             (Some (at_time 0 10 30)) sample_world).2 = w_files sample_world ∧
  logged WARNING sample_world
    (generate_price_action_chart (λ _, "20240422_103000") w_utcnow
       {| output_dir := "data/temp/alert_charts" |} sample_db "AAPL" 5 1
       (Some (at_time 0 10 30)) sample_world).2.
Proof.
  apply (price_action_chart_returns_nothing (λ _, "20240422_103000") w_utcnow
           {| output_dir := "data/temp/alert_charts" |} sample_db "AAPL" 5 1
           (Some (at_time 0 10 30)) sample_world).
  vm_compute. reflexivity.
Defined.

Lemma price_action_chart_type_error_witness :
  match w_write_error sample_world
          (path_join "data/temp/alert_charts"
             ("AAPL" +:+ "_price_action_" +:+ pretty 5 +:+ "min_" +:+ "20240422_110000"
              +:+ ".html")) with
  | None =>
      (generate_price_action_chart (λ _, "20240422_110000") w_utcnow
         {| output_dir := "data/temp/alert_charts" |} sample_db_busy "AAPL" 5 1
         (Some (at_time 0 11 0)) sample_world).1 = Raise (OtherError "TypeError") ∧
      w_files (generate_price_action_chart (λ _, "20240422_110000") w_utcnow
                 {| output_dir := "data/temp/alert_charts" |} sample_db_busy "AAPL" 5 1
                 (Some (at_time 0 11 0)) sample_world).2
      = {[path_join "data/temp/alert_charts"
            ("AAPL" +:+ "_price_action_" +:+ pretty 5 +:+ "min_" +:+ "20240422_110000"
             +:+ ".html")]} ∪ w_files sample_world
  | Some e =>
      (generate_price_action_chart (λ _, "20240422_110000") w_utcnow
         {| output_dir := "data/temp/alert_charts" |} sample_db_busy "AAPL" 5 1
         (Some (at_time 0 11 0)) sample_world).1 = Raise e ∧
      w_files (generate_price_action_chart (λ _, "20240422_110000") w_utcnow
                 {| output_dir := "data/temp/alert_charts" |} sample_db_busy "AAPL" 5 1
                 (Some (at_time 0 11 0)) sample_world).2 = w_files sample_world
  end.
Proof.
  apply (price_action_chart_type_error (λ _, "20240422_110000") w_utcnow
           {| output_dir := "data/temp/alert_charts" |} sample_db_busy "AAPL" 5 1
           (at_time 0 11 0) (at_time (-1) 11 0) us_per_day
           ((λ i, ChartCandle (at_time 0 10 (5 * i)) 100 102 99 101 500) <$> seqZ 0 12)
           sample_world).
  - reflexivity.
  - vm_compute. reflexivity.
  - vm_compute. reflexivity.
  - vm_compute. lia.
Defined.

(** On the sample disk the chart of a plain symbol is accepted, and the
    call raises [TypeError] after it; for a symbol with a slash the
    directory is missing and the write raises [FileNotFoundError]. *)
Example price_action_chart_paths :
  w_write_error sample_world "data/temp/alert_charts/AAPL_price_action_5min_20240422_110000.html"
  = None ∧
  (generate_price_action_chart (λ _, "20240422_110000") w_utcnow
     {| output_dir := "data/temp/alert_charts" |} sample_db_busy "AAPL" 5 1
     (Some (at_time 0 11 0)) sample_world).1 = Raise (OtherError "TypeError") ∧
  (generate_price_action_chart (λ _, "20240422_110000") w_utcnow
     {| output_dir := "data/temp/alert_charts" |} sample_db_slash "BRK/B" 5 1
     (Some (at_time 0 11 0)) sample_world).1 = Raise FileNotFoundError.
Proof. repeat split; vm_compute; reflexivity. Qed.

(** ** Charts with targets *)

Lemma mapM_node_lines nodes :
  Forall (λ n, is_Some (vn_price_level n)) nodes → ∃ lines, mapM node_line nodes = Ok lines.
Proof.
  induction 1 as [| n nodes [p Hp] _ [lines IH]]; cbn [mapM]; [eauto |].
  unfold node_line at 1. rewrite Hp, IH. eauto.
Qed.

Lemma mapM_node_lines_missing nodes :
  Exists (λ n, vn_price_level n = None) nodes →
  mapM node_line nodes = Raise (OtherError "TypeError").
Proof.
  induction 1 as [n nodes Hn | n nodes _ IH]; cbn [mapM].
  - unfold node_line. rewrite Hn. reflexivity.
  - rewrite IH. unfold node_line. destruct (vn_price_level n); reflexivity.
Qed.

(** X14: when every volume node has a price level the chart with targets
    is handed to the file system: if it accepts the file ([output_dir]
    joined with the file name) the file is written and its path returned,
    if it refuses its error comes out of the call and the world is as
    before.  A single node without a price level makes the call raise
    [TypeError] before anything is written or logged.  The zone may have
    any height: this chart divides by nothing. *)
Theorem chart_with_targets_needs_price_levels (self : ChartGenerator) (symbol zone_type : string)
    (price_data : list chart_candle)
    (zone_top zone_bottom entry_price stop_loss target_price current_price : Q)
    (volume_nodes : list volume_node) (zone_formed_at : datetime) (w : world) :
  let run := generate_zone_alert_chart_with_targets self symbol price_data zone_type zone_top
               zone_bottom entry_price stop_loss target_price volume_nodes current_price
               zone_formed_at w in
  let path := path_join (output_dir self)
                (symbol +:+ "_" +:+ zone_type +:+ "_with_targets_" +:+ w_now_str w
                 +:+ ".html") in
  (Forall (λ n, is_Some (vn_price_level n)) volume_nodes →
   match w_write_error w path with
   | None => run.1 = Ok path ∧ w_files run.2 = {[path]} ∪ w_files w
   | Some e => run = (Raise e, w)
   end) ∧
  (Exists (λ n, vn_price_level n = None) volume_nodes →
   run = (Raise (OtherError "TypeError"), w)).
Proof.
  intros run path. subst run. unfold generate_zone_alert_chart_with_targets. split.
  - intros Hall. destruct (mapM_node_lines volume_nodes Hall) as [lines Hlines].
    rewrite Hlines. cbv beta iota zeta delta [bind lift_result now_str write_file].
    fold path. destruct (w_write_error w path) as [e |]; [reflexivity |].
    py_run. split; reflexivity.
  - intros Hmiss. rewrite (mapM_node_lines_missing volume_nodes Hmiss). reflexivity.
Qed.

(** On the sample disk: a chart with targets for a plain symbol is saved
    under the joined path, one for a symbol with a slash is refused. *)
Example chart_with_targets_paths :
  (generate_zone_alert_chart_with_targets {| output_dir := "data/temp/alert_charts/" |} "AAPL"
     [] "demand" 150 149 150 148 155 [VolumeNode (Some 152%Q) (Some "HVN")] 151
     (at_time 0 10 0) sample_world).1
  = Ok "data/temp/alert_charts/AAPL_demand_with_targets_20240422_103000.html" ∧
  generate_zone_alert_chart_with_targets {| output_dir := "data/temp/alert_charts/" |} "BRK/B"
    [] "demand" 150 149 150 148 155 [VolumeNode (Some 152%Q) (Some "HVN")] 151
    (at_time 0 10 0) sample_world
  = (Raise FileNotFoundError, sample_world).
Proof. split; vm_compute; reflexivity. Qed.

(** ** The shape of the dashboard data *)

Section dashboard_keys.
Context (methods : fetch_methods) (self : LightweightDashboardGenerator) (db : database)
        (symbol : string) (lookback_days symbol_id : Z) (end_date : datetime).

(** A round that completes has stored a bucket under its label, whichever
    of its two branches it took. *)
Lemma fetch_timeframe_stores (tf : string * Z) (fr fr' : frame) (w w' : world) :
  fetch_timeframe methods self db symbol lookback_days symbol_id end_date tf (fr, w)
  = (Ok tt, (fr', w')) →
  ∃ b, fr_timeframes fr' = <[tf.1 := b]> (fr_timeframes fr).
Proof.
  destruct fr as [conn cursor out]. unfold fetch_timeframe. fr_run.
  destruct cursor as [c |]; fr_run.
  - destruct (timeframe_bucket methods self lookback_days symbol_id end_date c tf _)
      as [[b | e] w1]; fr_run.
    + intros [= <- <-]. eauto.
    + destruct conn as [cn |]; fr_run;
        destruct (db_connect_fails db (w_acquired w1)); fr_run; intros [= <- <-]; eauto.
  - destruct conn as [cn |]; fr_run;
      destruct (db_connect_fails db (w_acquired w)); fr_run; intros [= <- <-]; eauto.
Qed.

Lemma for_each_timeframes_stores (l : list (string * Z)) (fr fr' : frame) (w w' : world) :
  for_each l (fetch_timeframe methods self db symbol lookback_days symbol_id end_date) (fr, w)
  = (Ok tt, (fr', w')) →
  dom (fr_timeframes fr') = dom (fr_timeframes fr) ∪ list_to_set (fst <$> l).
Proof.
  revert fr w. induction l as [| tf l IH]; intros fr w; cbn [for_each].
  - intros [= <- <-]. cbn. by rewrite (right_id_L ∅ (∪)).
  - unfold bind at 1.
    destruct (fetch_timeframe methods self db symbol lookback_days symbol_id end_date tf
                (fr, w)) as [[[] | e] [fr1 w1]] eqn:Hstep; [| discriminate].
    intros Hloop. apply fetch_timeframe_stores in Hstep as [b Hb].
    rewrite (IH _ _ Hloop), Hb, dom_insert_L. cbn [fmap list_fmap list_to_set].
    rewrite (comm_L (∪) {[tf.1]} (dom (fr_timeframes fr))).
    by rewrite (assoc_L (∪)).
Qed.
End dashboard_keys.

(** X15: whenever the dashboard fetch returns data, whatever the fetch
    methods did and however many rounds failed, the data names the symbol
    asked for, the market type in upper case, and holds one bucket for
    each configured timeframe label and no other. *)
Theorem dashboard_data_timeframes (methods : fetch_methods)
    (self : LightweightDashboardGenerator) (db : database) (symbol : string)
    (lookback_days : Z) (w w' : world) (data : dashboard_data) :
  _fetch_dashboard_data methods self db symbol lookback_days w = (Ok (Some data), w') →
  dd_symbol data = symbol ∧
  dd_market_type data = upper (market_type self) ∧
  dom (dd_timeframes data) = list_to_set (fst <$> timeframes self).
Proof.
  unfold _fetch_dashboard_data, fetch_dashboard_body. fr_run.
  destruct (db_connect_fails db (w_acquired w)); fr_run; [discriminate |].
  unfold execute, send. fr_run.
  destruct (db_fails db _ (SelectSymbolId (schema self) symbol)); fr_run; [discriminate |].
  cbn [eval].
  destruct (lookup_id symbol (db_symbols db (schema self))) as [symbol_id |]; fr_run;
    [| discriminate].
  match goal with
  | |- context [for_each (timeframes self) ?f (?fr0, ?w0)] =>
      destruct (for_each (timeframes self) f (fr0, w0)) as [[[] | e] [fr1 w1]] eqn:Hloop
  end.
  - apply for_each_timeframes_stores in Hloop. cbn [fr_timeframes] in Hloop.
    rewrite dom_empty_L, (left_id_L ∅ (∪)) in Hloop.
    destruct fr1 as [conn cursor out]. cbn [fr_timeframes] in Hloop.
    destruct cursor as [c |], conn as [cn |]; fr_run; intros [= <- <-]; cbn; auto.
  - destruct fr1 as [conn cursor out].
    destruct cursor as [c |], conn as [cn |]; fr_run; discriminate.
Qed.

Lemma dashboard_data_timeframes_witness :
  match (_fetch_dashboard_data (failing_methods (new_generator "crypto" true) sample_db)
           (new_generator "crypto" true) sample_db "AAPL" 30 sample_world).1 with
  | Ok (Some data) =>
      dd_symbol data = "AAPL" ∧
      dd_market_type data = upper (market_type (new_generator "crypto" true)) ∧
      dom (dd_timeframes data) = list_to_set (fst <$> timeframes (new_generator "crypto" true))
  | _ => False
  end.
Proof.
  destruct (_fetch_dashboard_data (failing_methods (new_generator "crypto" true) sample_db)
              (new_generator "crypto" true) sample_db "AAPL" 30 sample_world)
    as [[[data |] | e] w'] eqn:Hrun; cbn [fst].
  - apply (dashboard_data_timeframes (failing_methods (new_generator "crypto" true) sample_db)
             (new_generator "crypto" true) sample_db "AAPL" 30 sample_world w' data).
    exact Hrun.
  - vm_compute in Hrun. discriminate Hrun.
  - vm_compute in Hrun. discriminate Hrun.
Defined.

(** ** The lookback argument *)

Lemma for_each_ext {S A} (l : list A) (f g : A → st S unit) (s : S) :
  (∀ x s, x ∈ l → f x s = g x s) → for_each l f s = for_each l g s.
Proof.
  revert s. induction l as [| x l IH]; intros s Hfg; cbn [for_each]; [reflexivity |].
  unfold bind. rewrite (Hfg x s) by apply list_elem_of_here.
  destruct (g x s) as [[[] | e] s1]; [| reflexivity].
  apply IH. intros y s' Hy. apply Hfg, list_elem_of_further, Hy.
Qed.

(** Both tables of [__init__] give every timeframe label a lookback. *)
Lemma lookback_days_map_covers market_type skip_upload tf :
  tf ∈ timeframes (new_generator market_type skip_upload) →
  is_Some (lookback_days_map (new_generator market_type skip_upload) !! tf.1).
Proof.
  revert tf. apply Forall_forall. unfold new_generator.
  destruct (decide (market_type = "stocks")); cbn [timeframes lookback_days_map];
    repeat (constructor; [vm_compute; eauto |]); constructor.
Qed.

(** X16: the [lookback_days] argument of [generate_dashboard] has no
    effect on a generator built by [__init__]: each timeframe takes the
    lookback of [lookback_days_map], which has an entry for every label of
    both markets. *)
Theorem lookback_days_is_ignored (upload_html : document → string → result string)
    (methods : fetch_methods) (market_type : string) (skip_upload : bool) (db : database)
    (symbol : string) (lookback_days lookback_days' : Z) (w : world) :
  generate_dashboard upload_html methods (new_generator market_type skip_upload) db symbol
    lookback_days w
  = generate_dashboard upload_html methods (new_generator market_type skip_upload) db symbol
      lookback_days' w.
Proof.
  assert (Hfetch : ∀ w,
    _fetch_dashboard_data methods (new_generator market_type skip_upload) db symbol
      lookback_days w
    = _fetch_dashboard_data methods (new_generator market_type skip_upload) db symbol
        lookback_days' w).
  { clear w. intros w. unfold _fetch_dashboard_data, fetch_dashboard_body. fr_run.
    destruct (db_connect_fails db (w_acquired w)); fr_run; [reflexivity |].
    unfold execute, send. fr_run.
    destruct (db_fails db _ _); fr_run; [reflexivity |].
    cbn [eval]. destruct (lookup_id symbol _) as [symbol_id |]; fr_run; [| reflexivity].
    match goal with
    | |- context [for_each ?l (fetch_timeframe ?m ?g db symbol lookback_days ?sid ?e) ?s] =>
        rewrite (for_each_ext l (fetch_timeframe m g db symbol lookback_days sid e)
                   (fetch_timeframe m g db symbol lookback_days' sid e) s)
    end; [reflexivity |].
    intros tf s Htf. apply lookback_days_map_covers in Htf as [days Hdays].
    unfold fetch_timeframe, timeframe_bucket. destruct tf as [tf_name tf_minutes].
    cbn [fst snd] in *. rewrite Hdays. reflexivity. }
  unfold generate_dashboard. cbv beta iota zeta delta [try_except bind]. cbn [log_at fst snd].
  rewrite Hfetch. reflexivity.
Qed.

(** ** What [generate_dashboard] returns *)

Lemma generate_dashboard_returns (upload_html : document → string → result string)
    methods self db symbol lookback_days w :
  ∃ generated w',
    generate_dashboard upload_html methods self db symbol lookback_days w
    = (Ok generated, w').
Proof.
  unfold generate_dashboard. cbv beta iota zeta delta [try_except bind]. cbn [log_at fst snd].
  destruct (_fetch_dashboard_data methods self db symbol lookback_days _)
    as [[[data |] | err] w1]; py_run; [| eauto | eauto].
  unfold _render_html. py_run.
  destruct (decide (template_path ∈ w_files w1)); py_run; [| eauto].
  destruct (skip_upload self); py_run; [py_disk; [eauto |]; py_disk; eauto |].
  destruct (upload_html _ _) as [url | err]; py_run; eauto.
Qed.

(** X17: [generate_dashboard] never raises, whatever the fetch methods,
    the template and the upload do, and the flag it returns tells whether
    there is a dashboard: the result is [(None, False)] or a path or URL
    with [True]. *)
Theorem generate_dashboard_outcome (upload_html : document → string → result string)
    (methods : fetch_methods) (self : LightweightDashboardGenerator) (db : database)
    (symbol : string) (lookback_days : Z) (w : world) :
  ∃ generated w',
    generate_dashboard upload_html methods self db symbol lookback_days w
    = (Ok generated, w') ∧
    (generated = (None, false) ∨ ∃ url, generated = (Some url, true)).
Proof.
  unfold generate_dashboard. cbv beta iota zeta delta [try_except bind]. cbn [log_at fst snd].
  destruct (_fetch_dashboard_data methods self db symbol lookback_days _)
    as [[[data |] | err] w1]; py_run; [| eauto 6 | eauto 6].
  unfold _render_html. py_run.
  destruct (decide (template_path ∈ w_files w1)); py_run; [| eauto 6].
  destruct (skip_upload self); py_run; [py_disk; [eauto 6 |]; py_disk; eauto 6 |].
  destruct (upload_html _ _) as [url | err]; py_run; eauto 6.
Qed.

(** ** The class's own fetch methods, the file system and the clock *)

Lemma surroundings_inv w w' :
  surroundings w' = surroundings w →
  w_files w' = w_files w ∧ w_utcnow w' = w_utcnow w ∧ w_write_error w' = w_write_error w.
Proof. unfold surroundings. intros [= -> -> ->]. repeat split. Qed.

Lemma fetch_candles_surroundings self db cursor symbol_id start_date end_date tf w :
  surroundings (_fetch_candles self db cursor symbol_id start_date end_date tf w).2 = surroundings w.
Proof.
  unfold _fetch_candles. py_run.
  destruct (matview_map !! tf) as [name |]; py_cases; reflexivity.
Qed.

Lemma fetch_zones_surroundings self db cursor symbol_id timeframe w :
  surroundings (_fetch_zones self db cursor symbol_id timeframe w).2 = surroundings w.
Proof. unfold _fetch_zones. py_cases; reflexivity. Qed.

Lemma fetch_volume_profile_surroundings self db cursor symbol_id start_date end_date w :
  surroundings (_fetch_volume_profile self db cursor symbol_id start_date end_date w).2 = surroundings w.
Proof.
  unfold _fetch_volume_profile.
  destruct (decide (schema self = "stocks")); py_cases; reflexivity.
Qed.

Lemma timeframe_bucket_surroundings self db lookback_days symbol_id end_date cursor tf w :
  surroundings (timeframe_bucket (own_methods self db) self lookback_days symbol_id end_date
             cursor tf w).2 = surroundings w.
Proof.
  destruct tf as [tf_name tf_minutes]. unfold timeframe_bucket.
  destruct (td_days _) as [delta | e]; py_run; [| reflexivity].
  destruct (dt_minus end_date delta) as [start_date | e]; py_run; [| reflexivity].
  cbn [m_fetch_candles m_fetch_zones m_fetch_volume_profile own_methods].
  pose proof (fetch_candles_surroundings self db cursor symbol_id start_date end_date tf_minutes w)
    as Hc.
  destruct (_fetch_candles self db cursor symbol_id start_date end_date tf_minutes w)
    as [[c | e] w1]; cbn [snd] in Hc |- *; [| exact Hc].
  pose proof (fetch_zones_surroundings self db cursor symbol_id tf_name w1) as Hz.
  destruct (_fetch_zones self db cursor symbol_id tf_name w1) as [[z | e] w2];
    cbn [snd] in Hz |- *; [| congruence].
  pose proof (fetch_volume_profile_surroundings self db cursor symbol_id start_date end_date w2)
    as Hv.
  destruct (_fetch_volume_profile self db cursor symbol_id start_date end_date w2)
    as [[v | e] w3]; cbn [snd] in Hv |- *; congruence.
Qed.

Lemma fetch_timeframe_surroundings self db symbol lookback_days symbol_id end_date tf fr w :
  surroundings (fetch_timeframe (own_methods self db) self db symbol lookback_days symbol_id
             end_date tf (fr, w)).2.2 = surroundings w.
Proof.
  destruct fr as [conn cursor out]. unfold fetch_timeframe. fr_run.
  destruct cursor as [c |]; fr_run.
  - match goal with
    | |- context [timeframe_bucket ?m self lookback_days symbol_id end_date c tf ?w1] =>
        pose proof (timeframe_bucket_surroundings self db lookback_days symbol_id end_date c tf w1)
          as Hb;
        destruct (timeframe_bucket m self lookback_days symbol_id end_date c tf w1)
          as [[b | e] w2]
    end; cbn [snd] in Hb; fr_run; [exact Hb |].
    destruct conn as [cn |]; fr_run;
      destruct (db_connect_fails db (w_acquired w2)); fr_run; exact Hb.
  - destruct conn as [cn |]; fr_run;
      destruct (db_connect_fails db (w_acquired w)); fr_run; reflexivity.
Qed.

Lemma for_each_timeframes_surroundings self db symbol lookback_days symbol_id end_date
    (l : list (string * Z)) fr w :
  surroundings (for_each l (fetch_timeframe (own_methods self db) self db symbol lookback_days
                         symbol_id end_date) (fr, w)).2.2 = surroundings w.
Proof.
  revert fr w. induction l as [| tf l IH]; intros fr w; cbn [for_each]; [reflexivity |].
  unfold bind at 1.
  pose proof (fetch_timeframe_surroundings self db symbol lookback_days symbol_id end_date tf fr w)
    as Hstep.
  destruct (fetch_timeframe _ self db symbol lookback_days symbol_id end_date tf (fr, w))
    as [[[] | e] [fr1 w1]]; cbn [snd] in Hstep |- *; [| exact Hstep].
  rewrite IH. exact Hstep.
Qed.

(** The dashboard fetch with the class's own methods writes no file and
    leaves the clock alone. *)
Lemma fetch_dashboard_data_surroundings self db symbol lookback_days w :
  surroundings (_fetch_dashboard_data (own_methods self db) self db symbol lookback_days w).2
  = surroundings w.
Proof.
  unfold _fetch_dashboard_data, fetch_dashboard_body. fr_run.
  destruct (db_connect_fails db (w_acquired w)); fr_run; [reflexivity |].
  unfold execute, send. fr_run.
  destruct (db_fails db _ (SelectSymbolId (schema self) symbol)); fr_run; [reflexivity |].
  cbn [eval].
  destruct (lookup_id symbol (db_symbols db (schema self))) as [symbol_id |]; fr_run;
    [| reflexivity].
  match goal with
  | |- context [for_each (timeframes self) ?f (?fr0, ?w0)] =>
      pose proof (for_each_timeframes_surroundings self db symbol lookback_days symbol_id
                    (w_utcnow w) (timeframes self) fr0 w0) as Hloop;
      destruct (for_each (timeframes self) f (fr0, w0)) as [[[] | e] [[conn cursor out] w1]]
  end; cbn [snd] in Hloop;
    destruct cursor as [c |], conn as [cn |]; fr_run; exact Hloop.
Qed.

(** With the class's own methods, a known symbol and start dates within
    range, the dashboard fetch returns data. *)
Lemma fetch_dashboard_data_own self db symbol lookback_days symbol_id w :
  db_connect_fails db (w_acquired w) = false →
  db_fails db _ (SelectSymbolId (schema self) symbol) = false →
  lookup_id symbol (db_symbols db (schema self)) = Some symbol_id →
  (∀ tf, tf ∈ timeframes self →
     start_date_ok self lookback_days (w_utcnow w) tf.1 = true) →
  ∃ data w',
    _fetch_dashboard_data (own_methods self db) self db symbol lookback_days w
    = (Ok (Some data), w') ∧
    dd_symbol data = symbol ∧ dd_market_type data = upper (market_type self).
Proof.
  intros Hconn Hq Hsym Hok.
  unfold _fetch_dashboard_data, fetch_dashboard_body. fr_run. rewrite Hconn. fr_run.
  unfold execute, send. fr_run. rewrite Hq. fr_run. cbn [eval]. rewrite Hsym. fr_run.
  match goal with
  | |- context [for_each (timeframes self) ?f (?fr0, ?w0)] =>
      destruct (for_each_timeframes_own self db symbol lookback_days symbol_id (w_utcnow w)
                  (timeframes self) Hok fr0 w0 ltac:(eexists; reflexivity))
        as (out & w' & Hloop & _);
      cbn [fr_conn fr_cursor] in Hloop; rewrite Hloop
  end.
  fr_run. eexists _, _. split; [reflexivity |]. split; reflexivity.
Qed.

(** X18: in local mode, with the template installed, a known symbol and
    a reachable database, the file system decides what [generate_dashboard]
    returns.  If it lets [data/dashboards] be made and the dashboard file
    be created in it, the file is the one thing written and its path comes
    back with [True]; the file name is the market type, then the symbol
    with colons replaced and in lower case.  If it refuses either (a symbol
    with a slash names a directory that is not there), the handler turns
    the error into [(None, False)] and nothing is written. *)
Theorem dashboard_saved_locally (upload_html : document → string → result string)
    (self : LightweightDashboardGenerator) (db : database) (symbol : string)
    (lookback_days symbol_id : Z) (w : world) :
  skip_upload self = true →
  template_path ∈ w_files w →
  db_connect_fails db (w_acquired w) = false →
  db_fails db _ (SelectSymbolId (schema self) symbol) = false →
  lookup_id symbol (db_symbols db (schema self)) = Some symbol_id →
  (∀ tf, tf ∈ timeframes self →
     start_date_ok self lookback_days (w_utcnow w) tf.1 = true) →
  let path := path_join "data/dashboards" (dashboard_filename self symbol) in
  let run := generate_dashboard upload_html (own_methods self db) self db symbol
               lookback_days w in
  match w_write_error w "data/dashboards", w_write_error w path with
  | None, None => run.1 = Ok (Some path, true) ∧ w_files run.2 = {[path]} ∪ w_files w
  | _, _ => run.1 = Ok (None, false) ∧ w_files run.2 = w_files w
  end.
Proof.
  intros Hlocal Htemplate Hconn Hq Hsym Hok path run. subst run.
  unfold generate_dashboard. cbv beta iota zeta delta [try_except bind]. cbn [log_at fst snd].
  match goal with
  | |- context [_fetch_dashboard_data ?m self db symbol lookback_days ?w1] =>
      pose proof (fetch_dashboard_data_surroundings self db symbol lookback_days w1) as Hfiles;
      destruct (fetch_dashboard_data_own self db symbol lookback_days symbol_id w1
                  Hconn Hq Hsym Hok) as (data & w2 & Hrun & _)
  end.
  rewrite Hrun in Hfiles |- *. cbn [snd] in Hfiles.
  apply surroundings_inv in Hfiles as (Hfiles & _ & Hdisk).
  cbn [w_files w_write_error] in Hfiles, Hdisk.
  unfold _render_html. py_run.
  rewrite decide_True by (rewrite Hfiles; exact Htemplate).
  py_run. rewrite Hlocal. py_run. fold (dashboard_filename self symbol). fold path.
  rewrite Hdisk.
  destruct (w_write_error w "data/dashboards") as [e |]; py_run;
    [split; [reflexivity | exact Hfiles] |].
  rewrite Hdisk.
  destruct (w_write_error w path) as [e |]; py_run;
    [split; [reflexivity | exact Hfiles] |].
  rewrite Hfiles. split; reflexivity.
Qed.

Lemma dashboard_saved_locally_witness :
  match w_write_error sample_world "data/dashboards",
        w_write_error sample_world
          (path_join "data/dashboards"
             (dashboard_filename (new_generator "crypto" true) "X:BTCUSD")) with
  | None, None =>
      (generate_dashboard (λ _ _, Raise (OtherError "no network"))
         (own_methods (new_generator "crypto" true) sample_db_crypto)
         (new_generator "crypto" true) sample_db_crypto "X:BTCUSD" 30 sample_world).1
      = Ok (Some (path_join "data/dashboards"
                    (dashboard_filename (new_generator "crypto" true) "X:BTCUSD")), true) ∧
      w_files (generate_dashboard (λ _ _, Raise (OtherError "no network"))
                 (own_methods (new_generator "crypto" true) sample_db_crypto)
                 (new_generator "crypto" true) sample_db_crypto "X:BTCUSD" 30 sample_world).2
      = {[path_join "data/dashboards"
            (dashboard_filename (new_generator "crypto" true) "X:BTCUSD")]}
        ∪ w_files sample_world
  | _, _ =>
      (generate_dashboard (λ _ _, Raise (OtherError "no network"))
         (own_methods (new_generator "crypto" true) sample_db_crypto)
         (new_generator "crypto" true) sample_db_crypto "X:BTCUSD" 30 sample_world).1
      = Ok (None, false) ∧
      w_files (generate_dashboard (λ _ _, Raise (OtherError "no network"))
                 (own_methods (new_generator "crypto" true) sample_db_crypto)
                 (new_generator "crypto" true) sample_db_crypto "X:BTCUSD" 30 sample_world).2
      = w_files sample_world
  end.
Proof.
  apply (dashboard_saved_locally (λ _ _, Raise (OtherError "no network"))
           (new_generator "crypto" true) sample_db_crypto "X:BTCUSD" 30 1 sample_world).
  - reflexivity.
  - apply (bool_decide_unpack _). vm_compute. exact I.
  - reflexivity.
  - reflexivity.
  - reflexivity.
  - apply Forall_forall. repeat (constructor; [vm_compute; reflexivity |]). constructor.
Defined.

Example dashboard_file_name :
  path_join "data/dashboards" (dashboard_filename (new_generator "crypto" true) "X:BTCUSD")
  = "data/dashboards/crypto_x_btcusd_dashboard.html".
Proof. vm_compute. reflexivity. Qed.

(** On the sample disk the dashboard of the crypto pair is saved; the one
    of a share class with a slash in its ticker is not: its file would lie
    in a directory that does not exist, and the call returns
    [(None, False)]. *)
Example dashboard_saved_or_refused :
  (generate_dashboard (λ _ _, Raise (OtherError "no network"))
     (own_methods (new_generator "crypto" true) sample_db_crypto)
     (new_generator "crypto" true) sample_db_crypto "X:BTCUSD" 30 sample_world).1
  = Ok (Some "data/dashboards/crypto_x_btcusd_dashboard.html", true) ∧
  (generate_dashboard (λ _ _, Raise (OtherError "no network"))
     (own_methods (new_generator "stocks" true) sample_db_slash)
     (new_generator "stocks" true) sample_db_slash "BRK/B" 30 sample_world).1
  = Ok (None, false).
Proof. split; vm_compute; reflexivity. Qed.

(** X19: in upload mode, under the same conditions, the outcome is the
    blob manager's: the URL it returns comes back with [True], and an
    upload that fails gives [(None, False)]; the document uploaded carries
    the symbol and the market type in upper case, under the dashboard's
    file name, and no local file is written. *)
Theorem dashboard_uploaded (upload_html : document → string → result string)
    (self : LightweightDashboardGenerator) (db : database) (symbol : string)
    (lookback_days symbol_id : Z) (w : world) :
  skip_upload self = false →
  template_path ∈ w_files w →
  db_connect_fails db (w_acquired w) = false →
  db_fails db _ (SelectSymbolId (schema self) symbol) = false →
  lookup_id symbol (db_symbols db (schema self)) = Some symbol_id →
  (∀ tf, tf ∈ timeframes self →
     start_date_ok self lookback_days (w_utcnow w) tf.1 = true) →
  ∃ doc w',
    doc_symbol doc = symbol ∧
    doc_market_type doc = upper (market_type self) ∧
    generate_dashboard upload_html (own_methods self db) self db symbol lookback_days w
    = (Ok match upload_html doc (dashboard_filename self symbol) with
          | Ok url => (Some url, true)
          | Raise _ => (None, false)
          end, w') ∧
    w_files w' = w_files w.
Proof.
  intros Hremote Htemplate Hconn Hq Hsym Hok.
  unfold generate_dashboard. cbv beta iota zeta delta [try_except bind]. cbn [log_at fst snd].
  match goal with
  | |- context [_fetch_dashboard_data ?m self db symbol lookback_days ?w1] =>
      pose proof (fetch_dashboard_data_surroundings self db symbol lookback_days w1) as Hfiles;
      destruct (fetch_dashboard_data_own self db symbol lookback_days symbol_id w1
                  Hconn Hq Hsym Hok) as (data & w2 & Hrun & Hsymbol & Hmarket)
  end.
  rewrite Hrun in Hfiles |- *. cbn [snd] in Hfiles.
  apply surroundings_inv in Hfiles as (Hfiles & _). cbn [w_files] in Hfiles.
  unfold _render_html. py_run.
  rewrite decide_True by (rewrite Hfiles; exact Htemplate).
  py_run. rewrite Hremote. py_run.
  fold (dashboard_filename self symbol).
  exists (Document (dd_symbol data) (dd_market_type data) (w_utcnow w2) data).
  destruct (upload_html _ _) as [url | err]; py_run;
    (eexists; split; [exact Hsymbol |]; split; [exact Hmarket |];
     split; [reflexivity | exact Hfiles]).
Qed.

Lemma dashboard_uploaded_witness :
  ∃ doc w',
    doc_symbol doc = "AAPL" ∧
    doc_market_type doc = upper (market_type (new_generator "stocks" false)) ∧
    generate_dashboard (λ _ name, Ok ("https://charts.example/" +:+ name))
      (own_methods (new_generator "stocks" false) sample_db)
      (new_generator "stocks" false) sample_db "AAPL" 30 sample_world
    = (Ok match (λ _ name, Ok ("https://charts.example/" +:+ name)) doc
                  (dashboard_filename (new_generator "stocks" false) "AAPL") with
          | Ok url => (Some url, true)
          | Raise _ => (None, false)
          end, w') ∧
    w_files w' = w_files sample_world.
Proof.
  apply (dashboard_uploaded (λ _ name, Ok ("https://charts.example/" +:+ name))
           (new_generator "stocks" false) sample_db "AAPL" 30 1 sample_world).
  - reflexivity.
  - apply (bool_decide_unpack _). vm_compute. exact I.
  - reflexivity.
  - reflexivity.
  - reflexivity.
  - apply Forall_forall. repeat (constructor; [vm_compute; reflexivity |]). constructor.
Defined.

(** X20: without the template no dashboard is produced: with the class's
    own fetch methods, whatever the database holds, [generate_dashboard]
    returns [(None, False)] and leaves the file system as it was. *)
Theorem dashboard_without_template (upload_html : document → string → result string)
    (self : LightweightDashboardGenerator) (db : database) (symbol : string)
    (lookback_days : Z) (w : world) :
  template_path ∉ w_files w →
  ∃ w',
    generate_dashboard upload_html (own_methods self db) self db symbol lookback_days w
    = (Ok (None, false), w') ∧
    w_files w' = w_files w.
Proof.
  intros Hmissing.
  unfold generate_dashboard. cbv beta iota zeta delta [try_except bind]. cbn [log_at fst snd].
  match goal with
  | |- context [_fetch_dashboard_data ?m self db symbol lookback_days ?w1] =>
      pose proof (fetch_dashboard_data_surroundings self db symbol lookback_days w1) as Hfiles;
      destruct (_fetch_dashboard_data m self db symbol lookback_days w1)
        as [[[data |] | err] w2]
  end; cbn [snd] in Hfiles; apply surroundings_inv in Hfiles as [Hfiles _];
    cbn [w_files] in Hfiles; py_run;
    [| eexists; split; [reflexivity | exact Hfiles] ..].
  unfold _render_html. py_run.
  rewrite decide_False by (rewrite Hfiles; exact Hmissing).
  py_run. eexists. split; [reflexivity | exact Hfiles].
Qed.

Lemma dashboard_without_template_witness :
  ∃ w',
    generate_dashboard (λ _ name, Ok ("https://charts.example/" +:+ name))
      (own_methods (new_generator "stocks" true) sample_db)
      (new_generator "stocks" true) sample_db "AAPL" 30 sample_world_blank
    = (Ok (None, false), w') ∧
    w_files w' = w_files sample_world_blank.
Proof.
  apply (dashboard_without_template (λ _ name, Ok ("https://charts.example/" +:+ name))
           (new_generator "stocks" true) sample_db "AAPL" 30 sample_world_blank).
  intros Hin. apply (bool_decide_pack _) in Hin. vm_compute in Hin. exact Hin.
Defined.

(** ** Zones against the table *)

Lemma zone_rows_filter (rows : list zone_row) (symbol_id timeframe_id : Z) :
  filter (λ r, (zr_symbol_id r =? symbol_id) && (zr_timeframe_id r =? timeframe_id)) rows
  = zone_rows rows symbol_id timeframe_id.
Proof.
  unfold zone_rows. apply list_filter_iff. intros r.
  rewrite andb_True, !Is_true_true, !Z.eqb_eq. reflexivity.
Qed.

Lemma select_zones_stored (rows : list zone_row) (symbol_id timeframe_id : Z) :
  ∃ rs, rs ⊆+ zone_rows rows symbol_id timeframe_id ∧
        sql_select_zones rows symbol_id timeframe_id = zone_of_row <$> rs ∧
        length rs = (30 `min` length (zone_rows rows symbol_id timeframe_id))%nat.
Proof.
  unfold sql_select_zones, sql_order_by. rewrite zone_rows_filter.
  set (F := zone_rows rows symbol_id timeframe_id).
  match goal with
  | |- context [take 30 ?sorted] =>
      destruct (Permutation_map_inv zone_of_row (l1 := sorted) F) as (rs & Heq & Hperm);
      [apply merge_sort_Permutation |]
  end.
  exists (take 30 rs). split; [| split].
  - rewrite Hperm. apply sublist_submseteq, sublist_take.
  - change (map zone_of_row rs) with (zone_of_row <$> rs) in Heq.
    rewrite Heq, fmap_take. reflexivity.
  - rewrite length_take. rewrite <- (Permutation_length Hperm). reflexivity.
Qed.

(** X21: for a timeframe label the database knows, the zones returned are
    stored zones of the symbol and timeframe, none more often than the
    table has it, each with its times as epoch seconds and a missing score
    as zero; all of them are returned up to the limit of 30. *)
Theorem fetch_zones_stored (self : LightweightDashboardGenerator) (db : database)
    (cursor : nat) (symbol_id timeframe_id : Z) (timeframe : string) (w : world) :
  db_fails db _ (SelectTimeframeId timeframe) = false →
  lookup_id timeframe (db_timeframes db) = Some timeframe_id →
  db_fails db _ (SelectZones (schema self) symbol_id timeframe_id) = false →
  ∃ zones w' rs,
    _fetch_zones self db cursor symbol_id timeframe w = (Ok zones, w') ∧
    rs ⊆+ zone_rows (db_zones db (schema self)) symbol_id timeframe_id ∧
    Forall2 (zone_as_stored timeframe) rs zones ∧
    length zones
    = (30 `min` length (zone_rows (db_zones db (schema self)) symbol_id timeframe_id))%nat.
Proof.
  intros Hq1 Hlabel Hq2.
  destruct (select_zones_stored (db_zones db (schema self)) symbol_id timeframe_id)
    as (rs & Hsub & Heq & Hlen).
  unfold _fetch_zones. py_run. rewrite Hq1. py_run. cbn [eval]. rewrite Hlabel. py_run.
  rewrite Hq2. py_run. cbn [eval]. py_run. rewrite Heq.
  eexists _, _, rs. split; [reflexivity |]. split; [exact Hsub |]. split.
  - rewrite <- list_fmap_compose. apply Forall2_fmap_r, Forall_Forall2_diag, Forall_forall.
    intros r _. repeat split.
  - rewrite !length_fmap. exact Hlen.
Qed.

Lemma fetch_zones_stored_witness :
  ∃ zones w' rs,
    _fetch_zones (new_generator "stocks" true) sample_db 0 1 "5min" sample_world
    = (Ok zones, w') ∧
    rs ⊆+ zone_rows (db_zones sample_db (schema (new_generator "stocks" true))) 1 3 ∧
    Forall2 (zone_as_stored "5min") rs zones ∧
    length zones
    = (30 `min` length (zone_rows (db_zones sample_db (schema (new_generator "stocks" true)))
                          1 3))%nat.
Proof.
  apply (fetch_zones_stored (new_generator "stocks" true) sample_db 0%nat 1 3 "5min"
           sample_world); reflexivity.
Defined.

(** ** Volume nodes: the two flags *)

Lemma sql_bool_or_true (l : list (option bool)) :
  default false (sql_bool_or l) = true ↔ Some true ∈ l.
Proof.
  induction l as [| x l IH]; cbn [sql_bool_or].
  - split; [discriminate | intros H; by apply elem_of_nil in H].
  - rewrite elem_of_cons, <- IH.
    destruct x as [[] |], (sql_bool_or l) as [[] |]; cbn; intuition congruence.
Qed.

Lemma level_has_kind (kind : string) (members : list vp_row) :
  default false (sql_bool_or (node_is kind <$> members)) = true ↔ level_has kind members.
Proof.
  rewrite sql_bool_or_true. unfold level_has, node_is. split.
  - intros Hin. apply list_elem_of_fmap in Hin as (r & Heq & Hr). exists r. split; [exact Hr |].
    destruct (vp_node_type r) as [t |]; [| discriminate].
    cbn in Heq. injection Heq as Heq. symmetry in Heq.
    apply bool_decide_eq_true in Heq. congruence.
  - intros (r & Hr & Hkind). apply list_elem_of_fmap. exists r. split; [| exact Hr].
    rewrite Hkind. cbn. rewrite bool_decide_eq_true_2; reflexivity.
Qed.

Lemma select_volume_profile_flags (rows : list vp_row) sid ps pe (t : vp_tuple) :
  t ∈ sql_select_volume_profile rows sid ps pe →
  vt_is_hvn t = sql_bool_or (node_is "HVN" <$> level_rows rows sid ps pe (vt_price t)) ∧
  vt_is_lvn t = sql_bool_or (node_is "LVN" <$> level_rows rows sid ps pe (vt_price t)).
Proof.
  unfold sql_select_volume_profile, sql_order_by. intros Ht.
  apply subseteq_take in Ht. rewrite merge_sort_Permutation in Ht.
  apply list_elem_of_fmap in Ht as ([k members] & -> & Hg).
  pose proof (group_by_members _ _ _ _ Hg) as Hmem. cbn [fst snd] in Hmem.
  rewrite level_members in Hmem. subst members.
  cbn [vp_level vt_price vt_is_hvn vt_is_lvn fst snd]. split; reflexivity.
Qed.

(** X22: a volume node is flagged as a high-volume node exactly when some
    row of its price level within the range is typed ['HVN'], and as a
    low-volume node exactly when some row is typed ['LVN']; rows without a
    type count for neither, and a level may carry both flags. *)
Theorem fetch_volume_profile_flags (self : LightweightDashboardGenerator) (db : database)
    (cursor : nat) (symbol_id : Z) (start_date end_date : datetime) (w : world) :
  ∃ nodes w',
    _fetch_volume_profile self db cursor symbol_id start_date end_date w = (Ok nodes, w') ∧
    ∀ n, n ∈ nodes →
      let members := level_rows (db_volume_profile db (schema self)) symbol_id
                       (vp_params self start_date end_date).1
                       (vp_params self start_date end_date).2 (dn_price n) in
      (dn_is_hvn n = true ↔ level_has "HVN" members) ∧
      (dn_is_lvn n = true ↔ level_has "LVN" members).
Proof.
  destruct (fetch_volume_profile_run self db cursor symbol_id start_date end_date w)
    as (rows & w' & Hrun & [-> | ->]); eexists _, w'; (split; [exact Hrun |]).
  - intros n Hn. apply elem_of_nil in Hn. contradiction.
  - intros n Hn members. subst members.
    apply list_elem_of_fmap in Hn as (t & -> & Ht).
    apply select_volume_profile_flags in Ht as [Hhvn Hlvn].
    cbn [node_of dn_price dn_is_hvn dn_is_lvn]. rewrite Hhvn, Hlvn.
    split; apply level_has_kind.
Qed.

Example fetch_volume_profile_flags_example :
  (λ n, (dn_price n, dn_is_hvn n, dn_is_lvn n)) <$>
    default [] (match (_fetch_volume_profile (new_generator "stocks" true)
                         sample_db_volumes_known 0 1 (at_time (-2) 0 0) (at_time 0 23 0)
                         sample_world).1 with Ok nodes => Some nodes | Raise _ => None end)
  = [(20%Q, false, true); (30%Q, false, false); (10%Q, true, false)].
Proof. vm_compute. reflexivity. Qed.

(** ** The materialized-view check *)

(** X23: when the check for the materialized view fails, the candle fetch
    logs a warning and goes on as if there were no view: the one further
    statement it sends is the aggregation of the minute rows, the view
    itself is never queried, and the fetch returns. *)
Theorem fetch_candles_check_failure (self : LightweightDashboardGenerator) (db : database)
    (cursor : nat) (symbol_id : Z) (start_date end_date : datetime) (tf : Z) (name : string)
    (w : world) :
  matview_map !! tf = Some name →
  db_fails db _ (MatviewExists (schema self) name) = true →
  ∃ candles w',
    _fetch_candles self db cursor symbol_id start_date end_date tf w = (Ok candles, w') ∧
    logged WARNING w w' ∧
    sent_between w w' [Sent (MatviewExists (schema self) name);
                       fallback_statement self symbol_id start_date end_date tf].
Proof.
  intros Hname Hcheck. unfold _fetch_candles, logged, sent_between, fallback_statement.
  rewrite Hname. py_run. rewrite Hcheck. clear Hcheck. py_run.
  destruct (tf <=? 15); py_run.
  - destruct (db_fails db _ (SelectMinuteStride _ _ _ _ _)); py_run;
      [| destruct (eval db _) as [rows | err]; py_run];
      (eexists _, _; split; [reflexivity |]; cbn [w_log w_sent]; split;
       [eexists [], _, _; rewrite <- !app_assoc; reflexivity
       | rewrite <- !app_assoc; reflexivity]).
  - destruct (db_fails db _ (SelectMinuteBuckets _ _ _ _ _)); py_run;
      [| cbn [eval]; py_run];
      (eexists _, _; split; [reflexivity |]; cbn [w_log w_sent]; split;
       [eexists [], _, _; rewrite <- !app_assoc; reflexivity
       | rewrite <- !app_assoc; reflexivity]).
Qed.

Lemma fetch_candles_check_failure_witness :
  ∃ candles w',
    _fetch_candles (new_generator "stocks" true) sample_db_no_catalog 0 1
      (at_time 0 10 0) (at_time 0 10 30) 5 sample_world = (Ok candles, w') ∧
    logged WARNING sample_world w' ∧
    sent_between sample_world w'
      [Sent (MatviewExists (schema (new_generator "stocks" true)) "candles_5m");
       fallback_statement (new_generator "stocks" true) 1 (at_time 0 10 0) (at_time 0 10 30) 5].
Proof.
  apply (fetch_candles_check_failure (new_generator "stocks" true) sample_db_no_catalog
           0%nat 1 (at_time 0 10 0) (at_time 0 10 30) 5 "candles_5m" sample_world).
  - vm_compute. reflexivity.
  - reflexivity.
Defined.

(** ** The convenience functions and the batch *)

Ltac bt_run :=
  cbv beta iota zeta delta
    [bind try_except try_finally lift_result raise ret lift_bt run_batch bt_get bt_set_conn
     bt_set_cursor bt_set_result log_at conn_cursor cursor_close conn_close set_conns
     get_connection];
  cbn [fst snd bf_conn bf_cursor bf_results w_log w_files w_modules w_now_str w_utcnow
       w_acquired w_open_conns w_open_cursors w_sent].

Section batch.
Context (upload_html : document → string → result string) (new_blob_manager : result unit)
        (collate : relation string) `{!RelDecision collate} (listing_refused : bool).

(** A round of the batch never raises; it leaves [conn] and [cursor] alone
    and stores at most the URL of its own symbol, never an empty one. *)
Lemma batch_round_stores generator db lookback_days total (item : nat * string) fr w :
  ∃ fr' w',
    batch_round upload_html generator db lookback_days total item (fr, w)
    = (Ok tt, (fr', w')) ∧
    bf_conn fr' = bf_conn fr ∧ bf_cursor fr' = bf_cursor fr ∧
    (bf_results fr' = bf_results fr ∨
     ∃ url, url ≠ "" ∧ bf_results fr' = <[item.2 := url]> (bf_results fr)).
Proof.
  destruct item as [idx symbol], fr as [conn cursor results]. unfold batch_round. bt_run.
  destruct (generate_dashboard upload_html _ generator db symbol lookback_days _)
    as [[[[[| c u] |] uploaded] | err] w1]; bt_run.
  1, 3, 4: eexists _, _; split; [reflexivity |]; split; [reflexivity |];
           split; [reflexivity | left; reflexivity].
  eexists _, _. split; [reflexivity |]. split; [reflexivity |]. split; [reflexivity |].
  right. exists (String c u). split; [discriminate | reflexivity].
Qed.

Lemma batch_rounds_store generator db lookback_days total (items : list (nat * string)) fr w :
  ∃ fr' w',
    for_each items (batch_round upload_html generator db lookback_days total) (fr, w)
    = (Ok tt, (fr', w')) ∧
    bf_conn fr' = bf_conn fr ∧ bf_cursor fr' = bf_cursor fr ∧
    ∀ symbol url, bf_results fr' !! symbol = Some url →
      bf_results fr !! symbol = Some url ∨ (symbol ∈ snd <$> items ∧ url ≠ "").
Proof.
  revert fr w. induction items as [| item items IH]; intros fr w; cbn [for_each].
  - exists fr, w. repeat split. auto.
  - destruct (batch_round_stores generator db lookback_days total item fr w)
      as (fr1 & w1 & Hround & Hconn & Hcursor & Hstored).
    destruct (IH fr1 w1) as (fr' & w' & Hloop & Hconn' & Hcursor' & Hkeys).
    exists fr', w'. unfold bind at 1. rewrite Hround, Hloop.
    split; [reflexivity |]. split; [congruence |]. split; [congruence |].
    intros symbol url Hget. cbn [fmap list_fmap].
    destruct (Hkeys symbol url Hget) as [Hold | [Hin Hurl]].
    + destruct Hstored as [Hsame | (u & Hu & Hnew)];
        [left; rewrite <- Hsame; exact Hold |].
      rewrite Hnew in Hold.
      destruct (decide (item.2 = symbol)) as [<- | Hne].
      * rewrite lookup_insert_eq in Hold. injection Hold as <-.
        right. split; [apply list_elem_of_here | exact Hu].
      * rewrite lookup_insert_ne in Hold by exact Hne. left. exact Hold.
    + right. split; [apply list_elem_of_further, Hin | exact Hurl].
Qed.

Lemma select_symbols_listed (table : list (string * Z)) (symbol : string) :
  symbol ∈ sql_select_symbols collate table → symbol ∈ fst <$> table.
Proof.
  unfold sql_select_symbols, sql_order_by. rewrite merge_sort_Permutation.
  apply distinct_elem_of.
Qed.

(** X24: the batch never raises, and the dictionary it returns maps
    symbols of [stocks.symbols] to the non-empty path or URL their
    dashboard was given: a symbol whose dashboard could not be generated
    is left out. *)
Theorem batch_results_are_listed (db : database) (lookback_days : Z) (skip_upload : bool)
    (w : world) :
  ∃ results w',
    generate_all_stock_dashboards upload_html new_blob_manager collate listing_refused
      db lookback_days skip_upload w = (Ok results, w') ∧
    ∀ symbol url, results !! symbol = Some url →
      symbol ∈ fst <$> db_symbols db "stocks" ∧ url ≠ "".
Proof.
  assert (Hempty : ∀ symbol url, (∅ : gmap string string) !! symbol = Some url →
                     symbol ∈ fst <$> db_symbols db "stocks" ∧ url ≠ "").
  { intros symbol url Hget. rewrite lookup_empty in Hget. discriminate. }
  unfold generate_all_stock_dashboards, batch_body. bt_run.
  destruct (db_connect_fails db (w_acquired w)); bt_run;
    [eexists _, _; split; [reflexivity | exact Hempty] |].
  unfold list_symbols. destruct listing_refused; bt_run;
    [eexists _, _; split; [reflexivity | exact Hempty] |].
  unfold init_generator.
  assert (Hloop : ∀ generator w1,
    ∃ fr' w',
      for_each (zip (seq 1 (length (sql_select_symbols collate (db_symbols db "stocks"))))
                    (sql_select_symbols collate (db_symbols db "stocks")))
               (batch_round upload_html generator db lookback_days
                  (length (sql_select_symbols collate (db_symbols db "stocks"))))
               (BatchFrame None None ∅, w1) = (Ok tt, (fr', w')) ∧
      bf_conn fr' = None ∧ bf_cursor fr' = None ∧
      ∀ symbol url, bf_results fr' !! symbol = Some url →
        symbol ∈ fst <$> db_symbols db "stocks" ∧ url ≠ "").
  { intros generator w1.
    destruct (batch_rounds_store generator db lookback_days
                (length (sql_select_symbols collate (db_symbols db "stocks")))
                (zip (seq 1 (length (sql_select_symbols collate (db_symbols db "stocks"))))
                     (sql_select_symbols collate (db_symbols db "stocks")))
                (BatchFrame None None ∅) w1)
      as (fr' & w' & Hrun & Hconn & Hcursor & Hkeys).
    exists fr', w'. split; [exact Hrun |]. split; [exact Hconn |]. split; [exact Hcursor |].
    intros symbol url Hget. destruct (Hkeys symbol url Hget) as [Hold | [Hin Hurl]].
    - cbn [bf_results] in Hold. rewrite lookup_empty in Hold. discriminate.
    - split; [| exact Hurl]. apply select_symbols_listed.
      rewrite snd_zip in Hin by (rewrite length_seq; lia). exact Hin. }
  destruct skip_upload; bt_run.
  - match goal with
    | |- context [for_each _ (batch_round _ ?g _ _ _) (_, ?w1)] =>
        destruct (Hloop g w1) as ([conn cursor results] & w' & Hrun & Hconn & Hcursor & Hkeys)
    end.
    cbn [bf_conn bf_cursor bf_results] in Hconn, Hcursor, Hkeys. subst conn cursor.
    rewrite Hrun. bt_run. eexists _, _. split; [reflexivity | exact Hkeys].
  - destruct new_blob_manager as [[] | err]; bt_run;
      [| eexists _, _; split; [reflexivity | exact Hempty]].
    match goal with
    | |- context [for_each _ (batch_round _ ?g _ _ _) (_, ?w1)] =>
        destruct (Hloop g w1) as ([conn cursor results] & w' & Hrun & Hconn & Hcursor & Hkeys)
    end.
    cbn [bf_conn bf_cursor bf_results] in Hconn, Hcursor, Hkeys. subst conn cursor.
    rewrite Hrun. bt_run. eexists _, _. split; [reflexivity | exact Hkeys].
Qed.

(** X25: when the batch cannot start (no connection, the listing is
    refused, or the blob manager cannot be built) it returns an empty
    dictionary, logs the error, and the connection and cursor it opened
    for the listing are closed again. *)
Theorem batch_early_failure (db : database) (lookback_days : Z) (skip_upload : bool)
    (w : world) :
  w_acquired w ∉ w_open_conns w →
  w_acquired w ∉ w_open_cursors w →
  db_connect_fails db (w_acquired w) = true ∨
  listing_refused = true ∨
  (skip_upload = false ∧ ∃ e, new_blob_manager = Raise e) →
  ∃ w',
    generate_all_stock_dashboards upload_html new_blob_manager collate listing_refused
      db lookback_days skip_upload w = (Ok ∅, w') ∧
    logged ERROR w w' ∧
    w_open_conns w' = w_open_conns w ∧
    w_open_cursors w' = w_open_cursors w.
Proof.
  intros Hconn Hcursor Hfail.
  unfold generate_all_stock_dashboards, batch_body, logged. bt_run.
  destruct (db_connect_fails db (w_acquired w)) eqn:Hdb; bt_run.
  { eexists. split; [reflexivity |]. cbn [w_log w_open_conns w_open_cursors].
    split; [eexists [], _, []; reflexivity |]. split; reflexivity. }
  unfold list_symbols. destruct listing_refused eqn:Hlist; bt_run.
  { eexists. split; [reflexivity |]. cbn [w_log w_open_conns w_open_cursors].
    split; [eexists [], _, []; reflexivity |].
    split; [apply remove_fresh, Hconn | apply remove_fresh, Hcursor]. }
  destruct Hfail as [Hfail | [Hfail | (-> & e & Hblob)]]; [discriminate | discriminate |].
  unfold init_generator. rewrite Hblob. bt_run.
  eexists. split; [reflexivity |]. cbn [w_log w_open_conns w_open_cursors].
  split; [eexists [_], _, []; rewrite <- !app_assoc; reflexivity |].
  split; [apply remove_fresh, Hconn |].
  rewrite remove_fresh by exact Hcursor. reflexivity.
Qed.

(** X26: the convenience functions raise only where the class is
    instantiated: building the blob manager happens outside every [try],
    so in upload mode its failure comes out of [generate_stock_dashboard]
    unhandled, before anything is logged; in local mode, or once the
    manager is built, the call returns. *)
Theorem stock_dashboard_raises_on_blob_manager (db : database) (symbol : string)
    (lookback_days : Z) (w : world) :
  (∀ e, new_blob_manager = Raise e →
     generate_stock_dashboard upload_html new_blob_manager db symbol lookback_days false w
     = (Raise e, w)) ∧
  (∀ skip_upload, skip_upload = true ∨ new_blob_manager = Ok tt →
     ∃ generated w',
       generate_stock_dashboard upload_html new_blob_manager db symbol lookback_days
         skip_upload w = (Ok generated, w')).
Proof.
  split.
  - intros e Hblob. unfold generate_stock_dashboard, init_generator. rewrite Hblob.
    reflexivity.
  - intros skip_upload Hcan. unfold generate_stock_dashboard, init_generator.
    assert (Hinit : (if skip_upload then ret tt else lift_result new_blob_manager) w
                    = (Ok tt, w)).
    { destruct Hcan as [-> | ->]; [reflexivity | destruct skip_upload; reflexivity]. }
    unfold bind at 1. unfold bind at 1. rewrite Hinit. unfold ret at 1.
    apply generate_dashboard_returns.
Qed.
End batch.

Lemma batch_early_failure_witness :
  ∃ w',
    generate_all_stock_dashboards (λ _ name, Ok ("https://charts.example/" +:+ name))
      (Raise (OtherError "no connection string")) sample_collate false sample_db 90 false
      sample_world = (Ok ∅, w') ∧
    logged ERROR sample_world w' ∧
    w_open_conns w' = w_open_conns sample_world ∧
    w_open_cursors w' = w_open_cursors sample_world.
Proof.
  apply (batch_early_failure (λ _ name, Ok ("https://charts.example/" +:+ name))
           (Raise (OtherError "no connection string")) sample_collate false sample_db 90 false
           sample_world).
  - apply not_elem_of_empty.
  - apply not_elem_of_empty.
  - right. right. split; [reflexivity |]. eexists. reflexivity.
Defined.

(** The batch over the two sample symbols, saved locally. *)
Example batch_example :
  match (generate_all_stock_dashboards
           (λ _ name, Ok ("https://charts.example/" +:+ name)) (Ok tt)
           sample_collate false sample_db 90 true sample_world).1 with
  | Ok results => (results !! "AAPL", results !! "MSFT", size results)
  | Raise _ => (None, None, 0%nat)
  end
  = (Some "data/dashboards/stocks_aapl_dashboard.html",
     Some "data/dashboards/stocks_msft_dashboard.html", 2%nat).
Proof. vm_compute. reflexivity. Qed.

(** ** Connections across a batch *)

Lemma start_date_ok_days self lookback_days (t : datetime) name (days : Z) :
  lookback_days_map self !! name = Some days →
  0 ≤ days ≤ 1825 →
  1825 * us_per_day ≤ t → t < max_days * us_per_day →
  start_date_ok self lookback_days t name = true.
Proof.
  intros Hdays Hrange Hlo Hhi. unfold start_date_ok. rewrite Hdays. cbn [default id].
  unfold td_days. replace (Z.abs days <=? 999999999) with true
    by (symmetry; apply Z.leb_le; lia).
  unfold dt_minus, dt_valid.
  replace ((0 <=? t - days * us_per_day) && (t - days * us_per_day <? max_days * us_per_day))
    with true; [reflexivity |].
  symmetry. apply andb_true_intro. unfold us_per_day, us_per_second, max_days in *.
  split; [apply Z.leb_le | apply Z.ltb_lt]; lia.
Qed.

(** From year 6 on, every stock timeframe has a start date within range. *)
Lemma stock_start_dates_ok skip_upload lookback_days (t : datetime) tf :
  1825 * us_per_day ≤ t → t < max_days * us_per_day →
  tf ∈ timeframes (new_generator "stocks" skip_upload) →
  start_date_ok (new_generator "stocks" skip_upload) lookback_days t tf.1 = true.
Proof.
  intros Hlo Hhi. revert tf. apply Forall_forall.
  unfold new_generator. rewrite decide_True by reflexivity. cbn [timeframes].
  unfold stock_timeframes.
  repeat (constructor;
          [eapply start_date_ok_days;
           [cbn [lookback_days_map fst]; vm_compute; reflexivity | lia | exact Hlo | exact Hhi]
          |]).
  constructor.
Qed.

Lemma connections_fresh_now w :
  connections_fresh w → (w_acquired w ∉ w_open_conns w) ∧ (w_acquired w ∉ w_open_cursors w).
Proof. intros Hfresh. apply Hfresh. lia. Qed.

(** With start dates within range the dashboard fetch gives back the
    connections as it found them, and hands out at most one. *)
Lemma fetch_dashboard_data_own_closed self db symbol lookback_days w :
  connections_fresh w →
  (∀ tf, tf ∈ timeframes self →
     start_date_ok self lookback_days (w_utcnow w) tf.1 = true) →
  w_open_conns (_fetch_dashboard_data (own_methods self db) self db symbol lookback_days w).2
  = w_open_conns w ∧
  w_open_cursors (_fetch_dashboard_data (own_methods self db) self db symbol lookback_days w).2
  = w_open_cursors w ∧
  (w_acquired w
   ≤ w_acquired (_fetch_dashboard_data (own_methods self db) self db symbol lookback_days
                   w).2)%nat.
Proof.
  intros Hfresh Hok. apply connections_fresh_now in Hfresh as [Hconn Hcur].
  unfold _fetch_dashboard_data, fetch_dashboard_body. fr_run.
  destruct (db_connect_fails db (w_acquired w)); fr_run;
    [split; [reflexivity |]; split; [reflexivity | lia] |].
  unfold execute, send. fr_run.
  destruct (db_fails db _ (SelectSymbolId (schema self) symbol)); fr_run.
  { split; [apply remove_fresh, Hconn |].
    rewrite remove_fresh by exact Hcur. split; [reflexivity | lia]. }
  cbn [eval]. destruct (lookup_id symbol (db_symbols db (schema self))) as [symbol_id |]; fr_run.
  2: { split; [apply remove_fresh, Hconn |]. split; [apply remove_fresh, Hcur | lia]. }
  match goal with
  | |- context [for_each (timeframes self) ?f (?fr0, ?w0)] =>
      destruct (for_each_timeframes_own self db symbol lookback_days symbol_id (w_utcnow w)
                  (timeframes self) Hok fr0 w0 ltac:(eexists; reflexivity))
        as (out & w' & Hloop & (Hacq & Hc' & Hcu'));
      cbn [fr_conn fr_cursor] in Hloop; rewrite Hloop
  end.
  fr_run. cbn [w_acquired w_open_conns w_open_cursors] in Hacq, Hc', Hcu'.
  rewrite Hc', Hcu', Hacq.
  split; [apply remove_fresh, Hconn |]. split; [apply remove_fresh, Hcur | lia].
Qed.

Section batch_connections.
Context (upload_html : document → string → result string).

Lemma generate_dashboard_own_closed self db symbol lookback_days w :
  connections_fresh w →
  (∀ tf, tf ∈ timeframes self →
     start_date_ok self lookback_days (w_utcnow w) tf.1 = true) →
  ∃ generated w',
    generate_dashboard upload_html (own_methods self db) self db symbol lookback_days w
    = (Ok generated, w') ∧
    w_open_conns w' = w_open_conns w ∧ w_open_cursors w' = w_open_cursors w ∧
    (w_acquired w ≤ w_acquired w')%nat ∧ w_utcnow w' = w_utcnow w.
Proof.
  intros Hfresh Hok.
  unfold generate_dashboard. cbv beta iota zeta delta [try_except bind]. cbn [log_at fst snd].
  match goal with
  | |- context [_fetch_dashboard_data ?m self db symbol lookback_days ?w1] =>
      pose proof (fetch_dashboard_data_surroundings self db symbol lookback_days w1) as Hsur;
      pose proof (fetch_dashboard_data_own_closed self db symbol lookback_days w1 Hfresh Hok)
        as (Hc & Hcu & Hacq);
      destruct (_fetch_dashboard_data m self db symbol lookback_days w1)
        as [[[data |] | err] w2]
  end; cbn [snd] in Hsur, Hc, Hcu, Hacq; apply surroundings_inv in Hsur as (_ & Hclock & _);
    cbn [w_open_conns w_open_cursors w_acquired w_utcnow] in Hc, Hcu, Hacq, Hclock; py_run;
    [| eexists _, _; split; [reflexivity |]; cbn; auto ..].
  unfold _render_html. py_run.
  destruct (decide (template_path ∈ w_files w2)); py_run;
    [| eexists _, _; split; [reflexivity |]; cbn; auto].
  destruct (skip_upload self); py_run.
  { py_disk; [eexists _, _; split; [reflexivity |]; cbn; auto |].
    py_disk; eexists _, _; (split; [reflexivity |]); cbn; auto. }
  destruct (upload_html _ _) as [url | err]; py_run;
    eexists _, _; (split; [reflexivity |]); cbn; auto.
Qed.

Lemma connections_fresh_later w w' :
  connections_fresh w →
  w_open_conns w' = w_open_conns w → w_open_cursors w' = w_open_cursors w →
  (w_acquired w ≤ w_acquired w')%nat →
  connections_fresh w'.
Proof.
  intros Hfresh Hc Hcu Hacq n Hn. rewrite Hc, Hcu. apply Hfresh. lia.
Qed.

Lemma batch_round_closed generator db lookback_days total (item : nat * string) fr w :
  connections_fresh w →
  (∀ tf, tf ∈ timeframes generator →
     start_date_ok generator lookback_days (w_utcnow w) tf.1 = true) →
  ∃ fr' w',
    batch_round upload_html generator db lookback_days total item (fr, w)
    = (Ok tt, (fr', w')) ∧
    bf_conn fr' = bf_conn fr ∧ bf_cursor fr' = bf_cursor fr ∧
    w_open_conns w' = w_open_conns w ∧ w_open_cursors w' = w_open_cursors w ∧
    (w_acquired w ≤ w_acquired w')%nat ∧ w_utcnow w' = w_utcnow w.
Proof.
  intros Hfresh Hok.
  destruct item as [idx symbol], fr as [conn cursor results]. unfold batch_round. bt_run.
  match goal with
  | |- context [generate_dashboard upload_html ?m generator db symbol lookback_days ?w1] =>
      destruct (generate_dashboard_own_closed generator db symbol lookback_days w1 Hfresh Hok)
        as ([[[| c u] |] uploaded] & w2 & Hrun & Hc & Hcu & Hacq & Hclock);
      rewrite Hrun
  end; cbn [w_open_conns w_open_cursors w_acquired w_utcnow] in Hc, Hcu, Hacq, Hclock;
    bt_run; eexists _, _; (split; [reflexivity |]); cbn; auto 7.
Qed.

Lemma batch_rounds_closed generator db lookback_days total (items : list (nat * string))
    fr w :
  connections_fresh w →
  (∀ tf, tf ∈ timeframes generator →
     start_date_ok generator lookback_days (w_utcnow w) tf.1 = true) →
  ∃ fr' w',
    for_each items (batch_round upload_html generator db lookback_days total) (fr, w)
    = (Ok tt, (fr', w')) ∧
    bf_conn fr' = bf_conn fr ∧ bf_cursor fr' = bf_cursor fr ∧
    w_open_conns w' = w_open_conns w ∧ w_open_cursors w' = w_open_cursors w.
Proof.
  revert fr w. induction items as [| item items IH]; intros fr w Hfresh Hok; cbn [for_each].
  - exists fr, w. repeat split.
  - destruct (batch_round_closed generator db lookback_days total item fr w Hfresh Hok)
      as (fr1 & w1 & Hround & Hconn & Hcursor & Hc & Hcu & Hacq & Hclock).
    destruct (IH fr1 w1) as (fr' & w' & Hloop & Hconn' & Hcursor' & Hc' & Hcu').
    { eapply connections_fresh_later; eassumption. }
    { rewrite Hclock. exact Hok. }
    exists fr', w'. unfold bind at 1. rewrite Hround, Hloop.
    split; [reflexivity |]. repeat split; congruence.
Qed.
End batch_connections.

(** X27: a batch run leaves every connection as it found it: the listing
    connection is closed before the first dashboard is generated, and
    each dashboard closes its own, since with the class's tables and a
    clock past year 6 no timeframe fetch of the class raises.  This holds
    on every path, also when the batch cannot start. *)
Theorem batch_closes_connections (upload_html : document → string → result string)
    (new_blob_manager : result unit) (collate : relation string) `{!RelDecision collate}
    (listing_refused : bool) (db : database) (lookback_days : Z) (skip_upload : bool)
    (w : world) :
  connections_fresh w →
  1825 * us_per_day ≤ w_utcnow w →
  w_utcnow w < max_days * us_per_day →
  let w' := (generate_all_stock_dashboards upload_html new_blob_manager collate
               listing_refused db lookback_days skip_upload w).2 in
  w_open_conns w' = w_open_conns w ∧ w_open_cursors w' = w_open_cursors w.
Proof.
  intros Hfresh Hlo Hhi w'. subst w'.
  pose proof (connections_fresh_now w Hfresh) as [Hconn Hcursor].
  unfold generate_all_stock_dashboards, batch_body. bt_run.
  destruct (db_connect_fails db (w_acquired w)); bt_run; [split; reflexivity |].
  unfold list_symbols. destruct listing_refused; bt_run.
  { split; [apply remove_fresh, Hconn | apply remove_fresh, Hcursor]. }
  unfold init_generator.
  assert (Hloop : ∀ total items w1,
    w_open_conns w1 = w_open_conns w → w_open_cursors w1 = w_open_cursors w →
    (w_acquired w ≤ w_acquired w1)%nat → w_utcnow w1 = w_utcnow w →
    ∃ results w2,
      for_each items (batch_round upload_html (new_generator "stocks" skip_upload) db
                        lookback_days total) (BatchFrame None None ∅, w1)
      = (Ok tt, (BatchFrame None None results, w2)) ∧
      w_open_conns w2 = w_open_conns w ∧ w_open_cursors w2 = w_open_cursors w).
  { intros total items w1 Hc Hcu Hacq Hclock.
    destruct (batch_rounds_closed upload_html (new_generator "stocks" skip_upload) db
                lookback_days total items (BatchFrame None None ∅) w1)
      as ([conn cursor results] & w2 & Hrun & Hconn' & Hcursor' & Hc' & Hcu').
    { eapply connections_fresh_later; eassumption. }
    { intros tf Htf. rewrite Hclock. apply stock_start_dates_ok; assumption. }
    cbn [bf_conn bf_cursor] in Hconn', Hcursor'. subst conn cursor.
    exists results, w2. split; [exact Hrun |]. split; congruence. }
  destruct skip_upload; bt_run.
  - match goal with
    | |- context [for_each ?items (batch_round _ _ _ _ ?total) (_, ?w1)] =>
        destruct (Hloop total items w1) as (results & w2 & Hrun & Hc & Hcu);
        [cbn [w_open_conns]; apply remove_fresh, Hconn
        | cbn [w_open_cursors]; apply remove_fresh, Hcursor
        | cbn [w_acquired]; lia | reflexivity |]
    end.
    rewrite Hrun. bt_run. split; assumption.
  - destruct new_blob_manager as [[] | err]; bt_run.
    2: { split; [apply remove_fresh, Hconn |].
         rewrite remove_fresh by exact Hcursor. reflexivity. }
    match goal with
    | |- context [for_each ?items (batch_round _ _ _ _ ?total) (_, ?w1)] =>
        destruct (Hloop total items w1) as (results & w2 & Hrun & Hc & Hcu);
        [cbn [w_open_conns]; apply remove_fresh, Hconn
        | cbn [w_open_cursors]; apply remove_fresh, Hcursor
        | cbn [w_acquired]; lia | reflexivity |]
    end.
    rewrite Hrun. bt_run. split; assumption.
Qed.

Lemma batch_closes_connections_witness :
  w_open_conns (generate_all_stock_dashboards
                  (λ _ name, Ok ("https://charts.example/" +:+ name)) (Ok tt)
                  sample_collate false sample_db 90 true sample_world).2
  = w_open_conns sample_world ∧
  w_open_cursors (generate_all_stock_dashboards
                    (λ _ name, Ok ("https://charts.example/" +:+ name)) (Ok tt)
                    sample_collate false sample_db 90 true sample_world).2
  = w_open_cursors sample_world.
Proof.
  apply (batch_closes_connections (λ _ name, Ok ("https://charts.example/" +:+ name)) (Ok tt)
           sample_collate false sample_db 90 true sample_world).
  - intros n _. split; apply not_elem_of_empty.
  - vm_compute. discriminate.
  - vm_compute. reflexivity.
Defined.

(** ** A failed reconnect *)

Lemma for_each_app {S A} (l1 l2 : list A) (f : A → st S unit) (s : S) :
  for_each (l1 ++ l2) f s
  = match for_each l1 f s with
    | (Ok _, s1) => for_each l2 f s1
    | (Raise e, s1) => (Raise e, s1)
    end.
Proof.
  revert s. induction l1 as [| x l1 IH]; intros s; cbn [for_each app]; [reflexivity |].
  unfold bind. destruct (f x s) as [[[] | e] s1]; [apply IH | reflexivity].
Qed.

Section failed_reconnect.
Context (methods : fetch_methods) (self : LightweightDashboardGenerator) (db : database)
        (symbol : string) (lookback_days symbol_id : Z) (end_date : datetime).
Hypothesis Hkeeps : keeps_connections methods self lookback_days symbol_id end_date.

(** The rounds before the failing one keep the frame's connection and
    cursor and the connections of the world. *)
Lemma for_each_returning (l : list (string * Z)) (conn : option nat) (c : nat)
    (out : gmap string bucket) (w : world) :
  (∀ tf, tf ∈ l → always_returns methods self lookback_days symbol_id end_date tf) →
  ∃ out' w',
    for_each l (fetch_timeframe methods self db symbol lookback_days symbol_id end_date)
      (Frame conn (Some c) out, w)
    = (Ok tt, (Frame conn (Some c) out', w')) ∧
    same_connections w w'.
Proof.
  revert out w. induction l as [| tf l IH]; intros out w Hret; cbn [for_each].
  - exists out, w. split; [reflexivity | apply same_connections_refl].
  - unfold bind at 1. unfold fetch_timeframe at 1. fr_run.
    match goal with
    | |- context [timeframe_bucket methods self lookback_days symbol_id end_date c tf ?w1] =>
        pose proof (Hkeeps c tf w1) as Hsame;
        destruct (Hret tf (list_elem_of_here _ _) c w1) as (b & w2 & Hrun);
        rewrite Hrun in Hsame |- *
    end.
    cbn [snd] in Hsame. fr_run.
    destruct (IH (<[tf.1 := b]> out) w2) as (out' & w' & Hloop & Hsame').
    { intros tf' Htf'. apply Hret, list_elem_of_further, Htf'. }
    rewrite Hloop. exists out', w'. split; [reflexivity |].
    eapply same_connections_trans; [| exact Hsame'].
    destruct Hsame as (Ha & Hc & Hcu). repeat split; assumption.
Qed.

(** A round that throws while no connection can be had throws in its
    turn, after closing the cursor; the frame still names the old
    connection. *)
Lemma fetch_timeframe_no_reconnect (tf : string * Z) (conn c : nat)
    (out : gmap string bucket) (w : world) :
  always_raises methods self lookback_days symbol_id end_date tf →
  db_connect_fails db (w_acquired w) = true →
  ∃ w',
    fetch_timeframe methods self db symbol lookback_days symbol_id end_date tf
      (Frame (Some conn) (Some c) out, w)
    = (Raise DatabaseError, (Frame (Some conn) (Some c) out, w')) ∧
    w_open_conns w' = w_open_conns w ∧
    w_open_cursors w' = w_open_cursors w ∖ {[c]}.
Proof.
  intros Hraise Hconn. unfold fetch_timeframe. fr_run.
  match goal with
  | |- context [timeframe_bucket methods self lookback_days symbol_id end_date c tf ?w1] =>
      pose proof (Hkeeps c tf w1) as (Ha & Hc & Hcu);
      destruct (Hraise c w1) as (e & w2 & Hrun);
      rewrite Hrun in Ha, Hc, Hcu |- *
  end.
  cbn [snd w_acquired w_open_conns w_open_cursors] in Ha, Hc, Hcu. fr_run.
  rewrite Ha, Hconn. fr_run. rewrite Hc, Hcu.
  eexists. split; [reflexivity |]. split; reflexivity.
Qed.
End failed_reconnect.

(** X28: when the fetch of a timeframe throws and the reconnect of the
    handler fails as well, the whole dashboard is lost:
    [_fetch_dashboard_data] returns [None], discarding the timeframes
    already fetched; on this path the connection it had acquired is
    closed, as is its cursor. *)
Theorem failed_reconnect_loses_dashboard (methods : fetch_methods)
    (self : LightweightDashboardGenerator) (db : database) (symbol : string)
    (lookback_days symbol_id : Z) (pre post : list (string * Z)) (failing : string * Z)
    (w : world) :
  timeframes self = pre ++ failing :: post →
  db_connect_fails db (w_acquired w) = false →
  db_connect_fails db (S (w_acquired w)) = true →
  db_fails db _ (SelectSymbolId (schema self) symbol) = false →
  lookup_id symbol (db_symbols db (schema self)) = Some symbol_id →
  keeps_connections methods self lookback_days symbol_id (w_utcnow w) →
  (∀ tf, tf ∈ pre → always_returns methods self lookback_days symbol_id (w_utcnow w) tf) →
  always_raises methods self lookback_days symbol_id (w_utcnow w) failing →
  w_acquired w ∉ w_open_conns w →
  w_acquired w ∉ w_open_cursors w →
  ∃ w',
    _fetch_dashboard_data methods self db symbol lookback_days w = (Ok None, w') ∧
    w_open_conns w' = w_open_conns w ∧
    w_open_cursors w' = w_open_cursors w.
Proof.
  intros Htfs Hconn Hreconn Hq Hsym Hkeeps Hret Hraise Hfc Hfcu.
  unfold _fetch_dashboard_data, fetch_dashboard_body. fr_run. rewrite Hconn. fr_run.
  unfold execute, send. fr_run. rewrite Hq. fr_run. cbn [eval]. rewrite Hsym. fr_run.
  rewrite Htfs, for_each_app.
  match goal with
  | |- context [for_each pre ?f (Frame ?conn (Some ?c) ?out, ?w0)] =>
      destruct (for_each_returning methods self db symbol lookback_days symbol_id (w_utcnow w)
                  Hkeeps pre conn c out w0 Hret)
        as (out1 & w1 & Hloop & (Ha & Hc & Hcu))
  end.
  rewrite Hloop. cbn [w_acquired w_open_conns w_open_cursors] in Ha, Hc, Hcu.
  cbn [for_each]. unfold bind at 1.
  destruct (fetch_timeframe_no_reconnect methods self db symbol lookback_days symbol_id
              (w_utcnow w) Hkeeps failing (w_acquired w) (w_acquired w) out1 w1 Hraise)
    as (w2 & Hstep & Hc2 & Hcu2).
  { rewrite Ha. exact Hreconn. }
  rewrite Hstep. fr_run.
  eexists. split; [reflexivity |]. cbn [w_open_conns w_open_cursors].
  rewrite Hc2, Hcu2, Hc, Hcu. split; [apply remove_fresh, Hfc |].
  rewrite remove_fresh by exact Hfcu. apply remove_absent, Hfcu.
Qed.

Lemma failing_methods_keep_connections self db lookback_days symbol_id end_date :
  keeps_connections (failing_methods self db) self lookback_days symbol_id end_date.
Proof.
  intros cursor [tf_name tf_minutes] w. unfold timeframe_bucket.
  destruct (td_days _) as [delta | e]; py_run; [| apply same_connections_refl].
  destruct (dt_minus end_date delta) as [start_date | e]; py_run;
    [| apply same_connections_refl].
  cbn [m_fetch_candles m_fetch_zones m_fetch_volume_profile failing_methods].
  destruct (tf_minutes =? 5); py_run; [apply same_connections_refl |].
  pose proof (fetch_candles_connections self db cursor symbol_id start_date end_date
                tf_minutes w) as Hc.
  destruct (_fetch_candles self db cursor symbol_id start_date end_date tf_minutes w)
    as [[c | e] w1]; cbn [snd] in Hc |- *; [| exact Hc].
  pose proof (fetch_zones_connections self db cursor symbol_id tf_name w1) as Hz.
  destruct (_fetch_zones self db cursor symbol_id tf_name w1) as [[z | e] w2];
    cbn [snd] in Hz |- *; [| eauto using same_connections_trans].
  pose proof (fetch_volume_profile_connections self db cursor symbol_id start_date end_date
                w2) as Hv.
  destruct (_fetch_volume_profile self db cursor symbol_id start_date end_date w2)
    as [[v | e] w3]; cbn [snd] in Hv |- *; eauto using same_connections_trans.
Qed.

Lemma failed_reconnect_loses_dashboard_witness :
  ∃ w',
    _fetch_dashboard_data (failing_methods (new_generator "stocks" true) sample_db_one_connection)
      (new_generator "stocks" true) sample_db_one_connection "AAPL" 30 sample_world
    = (Ok None, w') ∧
    w_open_conns w' = w_open_conns sample_world ∧
    w_open_cursors w' = w_open_cursors sample_world.
Proof.
  apply (failed_reconnect_loses_dashboard
           (failing_methods (new_generator "stocks" true) sample_db_one_connection)
           (new_generator "stocks" true) sample_db_one_connection "AAPL" 30 1
           [("2min", 2); ("3min", 3)] (drop 3 stock_timeframes) ("5min", 5) sample_world).
  - reflexivity.
  - reflexivity.
  - reflexivity.
  - reflexivity.
  - reflexivity.
  - apply failing_methods_keep_connections.
  - intros tf Htf.
    apply elem_of_cons in Htf as [-> | Htf];
      [| apply elem_of_cons in Htf as [-> | Htf]; [| by apply elem_of_nil in Htf]];
      (apply failing_methods_return_others; [cbn; discriminate | vm_compute; reflexivity]).
  - apply failing_methods_raise_5min. vm_compute. reflexivity.
  - apply not_elem_of_empty.
  - apply not_elem_of_empty.
Defined.
